(** * Jitsu Terraform provider: the API client core and the workspace resource

    A shallow embedding of [internal/client] (the session manager, the request
    executor, the soft-delete reconciler and the object access facade) and of
    the workspace resource's [Create] handler, followed by the properties the
    specification states about them.

    Conventions of the embedding.
    - A Go function returning [(T, error)] returns a pair whose last component
      is [option Error]; [None] is the nil error.  A nil map or a nil byte
      slice is [None], respectively the empty string.
    - A method on [*Client] is a computation in the state monad [M] over a
      [World]: the mutable fields of the client together with the trace of
      the actions performed so far.
    - The remote side (control plane and database) is an oracle [Env] that
      answers each call from the whole history of earlier actions, so every
      deterministic server behaviour is covered.
    - Functions that belong to Go's standard library or to third-party
      packages (escaping, JSON encoding and decoding, request validation)
      are the fields of [Lib]. *)

From Stdlib Require Import ZArith String Ascii List Bool Lia.
From stdpp Require Import base gmap strings list pretty.

Set Warnings "-register-all".

Open Scope Z_scope.
Open Scope string_scope.

(** ** Strings and formatting *)

Module GoStrings.

(** The double quote character, for SQL identifiers. *)
Definition dq : string := String (ascii_of_nat 34) EmptyString.

(** [fmt.Sprintf] with the verb [%d] on an [int]. *)
Definition itoa (n : Z) : string := pretty n.

(** [strings.HasPrefix s p]. *)
Fixpoint HasPrefix (s p : string) : bool :=
  match p, s with
  | EmptyString, _ => true
  | String _ _, EmptyString => false
  | String a p', String b s' => if Ascii.eqb a b then HasPrefix s' p' else false
  end.

(** [strings.Contains s substr]. *)
Fixpoint Contains (s substr : string) : bool :=
  HasPrefix s substr ||
  match s with
  | EmptyString => false
  | String _ s' => Contains s' substr
  end.

Fixpoint mem_char (c : ascii) (cutset : string) : bool :=
  match cutset with
  | EmptyString => false
  | String d cutset' => Ascii.eqb c d || mem_char c cutset'
  end.

(** [strings.TrimRight s cutset] on byte strings. *)
Fixpoint TrimRight (s cutset : string) : string :=
  match s with
  | EmptyString => EmptyString
  | String c s' =>
      let t := TrimRight s' cutset in
      if String.eqb t EmptyString && mem_char c cutset then EmptyString
      else String c t
  end.

End GoStrings.
Import GoStrings.

(** ** Values, requests and the environment *)

(** Go's [error]: only its message is ever observed. *)
Definition Error : Type := string.

(** An [interface{}] holding decoded or to-be-encoded JSON. *)
Inductive value : Type :=
| VNil
| VBool (b : bool)
| VNumber (lit : string)
| VString (s : string)
| VList (l : list value)
| VMap (m : gmap string value).

(** [map[string]interface{}]. *)
Abbreviation object := (gmap string value).

(** Result of a fallible library call. *)
Inductive result (A : Type) : Type :=
| Ok (a : A)
| Err (e : Error).
Arguments Ok {A} a.
Arguments Err {A} e.

(** Library functions used by the client. *)
Record Lib : Type := {
  (** [url.PathEscape], [url.QueryEscape] *)
  PathEscape : string -> string;
  QueryEscape : string -> string;
  (** [pq.QuoteIdentifier] *)
  QuoteIdentifier : string -> string;
  (** [fmt.Sprintf] with the verb [%q] on a string *)
  Quote : string -> string;
  (** [url.Values.Encode] on a form whose keys are set once each *)
  Values_Encode : gmap string string -> string;
  (** the error of [http.NewRequestWithContext method url], if any *)
  NewRequest : string -> string -> option Error;
  (** [json.Marshal] of a request payload *)
  json_Marshal : object -> result string;
  (** [json.Unmarshal] into [struct { Token string `json:csrfToken` }]:
      the decoded [Token] *)
  json_Unmarshal_csrf : string -> result string;
  (** [json.Unmarshal] into [map[string]interface{}] ([None]: the map stays nil) *)
  json_Unmarshal_object : string -> result (option object);
  (** [json.Unmarshal] into [map[string]json.RawMessage] *)
  json_Unmarshal_wrapper : string -> result (option (gmap string string));
  (** [json.Unmarshal] of a raw message into [[]map[string]interface{}];
      a nil slice is the empty list *)
  json_Unmarshal_items : string -> result (list (option object))
}.

(** An outgoing HTTP request: method, URL, the headers set on it and the
    bytes of its body. *)
Record Request : Type := {
  rq_method : string;
  rq_url : string;
  rq_header : gmap string string;
  rq_body : option string
}.

(** What [Do] followed by [io.ReadAll] yields. *)
Inductive HttpOutcome : Type :=
| DoError (e : Error)
| ReadError (status : Z) (e : Error)
| Response (status : Z) (body : string).

(** The three places of the client that put a request on the wire:
    [rawRequest], the login request of [authenticate] (sent by a copy of the
    HTTP client that does not follow redirects), and [send] in [doRequest]. *)
Inductive CallSite : Type := SiteRaw | SiteLogin | SiteSend.

Inductive LogLevel : Type := LevelDebug | LevelWarn.

(** The actions of the client. *)
Inductive Event : Type :=
| EvHttp (site : CallSite) (rq : Request) (out : HttpOutcome)
| EvSetAuthenticated (b : bool)
| EvSqlOpen (dsn : string) (err : option Error)
| EvSqlExec (query : string) (args : list string) (err : option Error)
| EvLog (lvl : LogLevel) (msg : string) (fields : gmap string value).

(** The remote side: each answer may depend on everything done before. *)
Record Env : Type := {
  http_roundtrip : list Event -> CallSite -> Request -> HttpOutcome;
  sql_Open : list Event -> string -> option Error;
  sql_ExecContext : list Event -> string -> list string -> option Error
}.

(** ** The client *)

Module client.

(** [*sql.DB]: the pool opened on [dsn], with the limits set on it. *)
Record DB : Type := {
  dsn : string;
  maxOpenConns : option Z;
  maxIdleConns : option Z
}.

(** [type Client struct].  [httpClient] with its cookie jar lives in the
    environment; [authMu] has no sequential content.  The once-guard
    [dbOnce] and the pair [(db, dbErr)] it fills are the write-once cell
    [db]: [None] until the first [getDB] that opens the pool. *)
Record Client : Type := {
  consoleURL : string;
  username : string;
  password : string;
  databaseURL : string;
  userAgent : string;
  authenticated : bool;
  db : option (result DB)
}.

Record World : Type := {
  self : Client;
  trace : list Event
}.

Definition M (A : Type) : Type := World -> A * World.

#[global] Instance M_ret : MRet M := fun A a w => (a, w).
#[global] Instance M_bind : MBind M :=
  fun A B f m w => let '(a, w') := m w in f a w'.

Definition get_self : M Client := fun w => (self w, w).
Definition emit (e : Event) : M unit :=
  fun w => (tt, {| self := self w; trace := trace w ++ [e] |}).

Definition set_authenticated (b : bool) (c : Client) : Client :=
  {| consoleURL := consoleURL c; username := username c;
     password := password c; databaseURL := databaseURL c;
     userAgent := userAgent c; authenticated := b; db := db c |}.

Definition set_db (r : result DB) (c : Client) : Client :=
  {| consoleURL := consoleURL c; username := username c;
     password := password c; databaseURL := databaseURL c;
     userAgent := userAgent c; authenticated := authenticated c;
     db := Some r |}.

(** The fields of the client that only [New] writes. *)
Definition same_config (c c' : Client) : Prop :=
  consoleURL c' = consoleURL c /\ username c' = username c /\
  password c' = password c /\ databaseURL c' = databaseURL c /\
  userAgent c' = userAgent c.

(** [func New]. *)
Definition New (consoleURL' username' password' databaseURL' userAgent' : string)
  : Client :=
  {| consoleURL := TrimRight consoleURL' "/";
     username := username';
     password := password';
     databaseURL := databaseURL';
     userAgent := userAgent';
     authenticated := false;
     db := None |}.

Definition isAuthFailureStatus (status : Z) : bool :=
  Z.eqb status 401 || Z.eqb status 403.

Section WithEnv.
Context (lib : Lib) (env : Env).

(** One exchange on the wire, recorded in the trace. *)
Definition roundtrip (site : CallSite) (rq : Request) : M HttpOutcome :=
  fun w =>
    let out := http_roundtrip env (trace w) site rq in
    (out, {| self := self w; trace := trace w ++ [EvHttp site rq out] |}).

Definition tflog (lvl : LogLevel) (msg : string) (fields : gmap string value)
  : M unit := emit (EvLog lvl msg fields).

(** [func (c *Client) getDB]. *)
Definition getDB : M (result DB) :=
  c ← get_self;
  if String.eqb (databaseURL c) EmptyString then
    mret (Err ("database_url not configured in provider; " +:+
               "Jitsu uses soft-delete, so re-creating objects with the same ID requires database_url to hard-delete stale rows"))
  else
    match db c with
    | Some r => mret r
    | None =>
        fun w =>
          let err := sql_Open env (trace w) (databaseURL c) in
          let r :=
            match err with
            | Some e => Err e
            | None => Ok {| dsn := databaseURL c;
                            maxOpenConns := Some 2;
                            maxIdleConns := Some 1 |}
            end in
          (r, {| self := set_db r (self w);
                 trace := trace w ++ [EvSqlOpen (databaseURL c) err] |})
    end.

(** [db.ExecContext(ctx, query, args...)], keeping only the error. *)
Definition ExecContext (d : DB) (query : string) (args : list string)
  : M (option Error) :=
  fun w =>
    let err := sql_ExecContext env (trace w) query args in
    (err, {| self := self w; trace := trace w ++ [EvSqlExec query args err] |}).

(** [func (c *Client) hardDeleteSoftDeleted]. *)
Definition hardDeleteSoftDeleted (id table : string) : M (option Error) :=
  r ← getDB;
  match r with
  | Err err =>
      mret (Some ("cannot purge soft-deleted " +:+ Quote lib id +:+ ": " +:+ err))
  | Ok d =>
      tflog LevelWarn "hard-deleting soft-deleted row for re-creation"
        (<["id" := VString id]> (<["table" := VString table]> ∅));;
      err ← (if String.eqb table "ConfigurationObject" then
               ExecContext d
                 ("DELETE FROM newjitsu." +:+ dq +:+ "ConfigurationObjectLink" +:+ dq +:+
                  " WHERE deleted = true AND (" +:+ dq +:+ "fromId" +:+ dq +:+
                  " = $1 OR " +:+ dq +:+ "toId" +:+ dq +:+ " = $1)")
                 [id]
             else mret None);
      match err with
      | Some e =>
          mret (Some ("hard-deleting referencing links for " +:+ Quote lib id +:+ ": " +:+ e))
      | None =>
          let query := "DELETE FROM newjitsu." +:+ QuoteIdentifier lib table +:+
                       " WHERE id = $1 AND deleted = true" in
          err ← ExecContext d query [id];
          match err with
          | Some e =>
              mret (Some ("hard-deleting soft-deleted " +:+ table +:+ " " +:+
                          Quote lib id +:+ ": " +:+ e))
          | None => mret None
          end
      end
  end.

(** [configURL], [configItemURL], [workspaceURL], [workspaceItemURL]. *)
Definition configURL (c : Client) (workspaceID resourceType : string) : string :=
  consoleURL c +:+ "/api/" +:+ PathEscape lib workspaceID +:+ "/config/" +:+
  PathEscape lib resourceType.

Definition configItemURL (c : Client) (workspaceID resourceType id : string)
  : string :=
  consoleURL c +:+ "/api/" +:+ PathEscape lib workspaceID +:+ "/config/" +:+
  PathEscape lib resourceType +:+ "/" +:+ PathEscape lib id.

Definition workspaceURL (c : Client) : string :=
  consoleURL c +:+ "/api/workspace".

Definition workspaceItemURL (c : Client) (idOrSlug : string) : string :=
  consoleURL c +:+ "/api/workspace/" +:+ PathEscape lib idOrSlug.

(** The message of [fmt.Errorf] with the format [%s %s returned %d: %s]. *)
Definition status_error (method url : string) (status : Z) (body : string)
  : Error :=
  method +:+ " " +:+ url +:+ " returned " +:+ itoa status +:+ ": " +:+ body.

(** The [User-Agent] header, set when one is configured. *)
Definition agent_header (c : Client) : gmap string string :=
  if String.eqb (userAgent c) EmptyString then ∅
  else {[ "User-Agent" := userAgent c ]}.

(** [func (c *Client) rawRequest]. *)
Definition rawRequest (method requestURL : string) (reqBody : option string)
    (headers : gmap string string) : M (string * Z * option Error) :=
  c ← get_self;
  match NewRequest lib method requestURL with
  | Some e => mret (EmptyString, 0, Some ("creating request: " +:+ e))
  | None =>
      let req := {| rq_method := method; rq_url := requestURL;
                    rq_header := headers ∪ agent_header c;
                    rq_body := reqBody |} in
      out ← roundtrip SiteRaw req;
      match out with
      | DoError e => mret (EmptyString, 0, Some ("executing request: " +:+ e))
      | ReadError status e =>
          mret (EmptyString, status, Some ("reading response body: " +:+ e))
      | Response status respBody => mret (respBody, status, None)
      end
  end.

(** The assignment [c.authenticated = b]. *)
Definition assign_authenticated (b : bool) : M unit :=
  fun w => (tt, {| self := set_authenticated b (self w);
                   trace := trace w ++ [EvSetAuthenticated b] |}).

(** The login form and request built by [authenticate]. *)
Definition login_form (c : Client) (token : string) : gmap string string :=
  <["csrfToken" := token]>
    (<["password" := password c]> (<["username" := username c]> ∅)).

Definition csrf_url (c : Client) : string := consoleURL c +:+ "/api/auth/csrf".

(** The request [rawRequest] builds for the token fetch of [authenticate]. *)
Definition csrf_request (c : Client) : Request :=
  {| rq_method := "GET"; rq_url := csrf_url c;
     rq_header := ∅ ∪ agent_header c; rq_body := None |}.

Definition login_url (c : Client) : string :=
  consoleURL c +:+ "/api/auth/callback/credentials".

Definition login_request (c : Client) (token : string) : Request :=
  {| rq_method := "POST"; rq_url := login_url c;
     rq_header := {[ "Content-Type" := "application/x-www-form-urlencoded" ]};
     rq_body := Some (Values_Encode lib (login_form c token)) |}.

(** [func (c *Client) authenticate]. *)
Definition authenticate : M (option Error) :=
  c ← get_self;
  if String.eqb (username c) EmptyString || String.eqb (password c) EmptyString
  then mret (Some "no authentication configured: set username/password")
  else if authenticated c then mret None
  else
    let csrfURL := csrf_url c in
    '(csrfRespBody, status, err) ← rawRequest "GET" csrfURL None ∅;
    match err with
    | Some e => mret (Some ("requesting CSRF token: " +:+ e))
    | None =>
        if Z.ltb status 200 || Z.leb 300 status
        then mret (Some (status_error "GET" csrfURL status csrfRespBody))
        else
          match json_Unmarshal_csrf lib csrfRespBody with
          | Err e => mret (Some ("parsing CSRF response: " +:+ e))
          | Ok token =>
              if String.eqb token EmptyString
              then mret (Some "empty CSRF token in response")
              else
                let loginURL := login_url c in
                match NewRequest lib "POST" loginURL with
                | Some e => mret (Some ("creating login request: " +:+ e))
                | None =>
                    out ← roundtrip SiteLogin (login_request c token);
                    match out with
                    | DoError e =>
                        mret (Some ("executing login request: " +:+ e))
                    | ReadError _ e =>
                        mret (Some ("reading login response: " +:+ e))
                    | Response code loginRespBody =>
                        if Z.ltb code 200 || Z.leb 400 code
                        then mret (Some (status_error "POST" loginURL code
                                           loginRespBody))
                        else assign_authenticated true;; mret None
                    end
                end
          end
    end.

(** [func (c *Client) markUnauthenticated]. *)
Definition markUnauthenticated : M unit := assign_authenticated false.

(** The request [send] puts on the wire. *)
Definition api_request (c : Client) (method requestURL : string)
    (reqBody : option string) : Request :=
  {| rq_method := method; rq_url := requestURL;
     rq_header :=
       match reqBody with
       | Some _ => <["Content-Type" := "application/json"]> (agent_header c)
       | None => agent_header c
       end;
     rq_body := reqBody |}.

(** The closure [send] of [doRequest].  The payload of a request is a map
    literal at every call site; [None] is the nil body. *)
Definition send (method requestURL : string) (body : option object)
  : M (string * Z * option Error) :=
  c ← get_self;
  match
    match body with
    | None => Ok None
    | Some b =>
        match json_Marshal lib b with
        | Ok jsonBytes => Ok (Some jsonBytes)
        | Err e => Err e
        end
    end
  with
  | Err e => mret (EmptyString, 0, Some ("marshaling request body: " +:+ e))
  | Ok reqBody =>
      match NewRequest lib method requestURL with
      | Some e => mret (EmptyString, 0, Some ("creating request: " +:+ e))
      | None =>
          tflog LevelDebug "API request"
            (<["method" := VString method]> (<["url" := VString requestURL]> ∅));;
          out ← roundtrip SiteSend (api_request c method requestURL reqBody);
          match out with
          | DoError e => mret (EmptyString, 0, Some ("executing request: " +:+ e))
          | ReadError status e =>
              mret (EmptyString, status, Some ("reading response body: " +:+ e))
          | Response status respBody =>
              tflog LevelDebug "API response"
                (<["method" := VString method]>
                   (<["url" := VString requestURL]>
                      (<["status_code" := VNumber (itoa status)]> ∅)));;
              mret (respBody, status, None)
          end
      end
  end.

(** The world after the warning and the invalidation that follow an
    authentication failure with [status]. *)
Definition after_invalidation (method url : string) (status : Z) (w : World)
  : World :=
  {| self := set_authenticated false (self w);
     trace := trace w ++
       [EvLog LevelWarn
          "API request returned auth failure; re-authenticating and retrying once"
          (<["method" := VString method]>
             (<["url" := VString url]>
                (<["status_code" := VNumber (itoa status)]> ∅)));
        EvSetAuthenticated false] |}.

(** The request a call of [send] puts on the wire, when marshalling the
    payload and building the request succeed. *)
Definition wire_request (c : Client) (method requestURL : string)
    (body : option object) : option Request :=
  match body with
  | None =>
      match NewRequest lib method requestURL with
      | Some _ => None
      | None => Some (api_request c method requestURL None)
      end
  | Some b =>
      match json_Marshal lib b, NewRequest lib method requestURL with
      | Ok jsonBytes, None =>
          Some (api_request c method requestURL (Some jsonBytes))
      | _, _ => None
      end
  end.

(** [func (c *Client) doRequest]. *)
Definition doRequest (method requestURL : string) (body : option object)
  : M (string * Z * option Error) :=
  err ← authenticate;
  match err with
  | Some e => mret (EmptyString, 0, Some e)
  | None =>
      '(respBody, status, err) ← send method requestURL body;
      match err with
      | Some e => mret (EmptyString, 0, Some e)
      | None =>
          if isAuthFailureStatus status then
            tflog LevelWarn
              "API request returned auth failure; re-authenticating and retrying once"
              (<["method" := VString method]>
                 (<["url" := VString requestURL]>
                    (<["status_code" := VNumber (itoa status)]> ∅)));;
            markUnauthenticated;;
            err ← authenticate;
            match err with
            | Some e =>
                mret (EmptyString, 0,
                      Some ("re-authenticating after " +:+ itoa status +:+
                            " response: " +:+ e))
            | None =>
                '(respBody, status, err) ← send method requestURL body;
                match err with
                | Some e => mret (EmptyString, 0, Some e)
                | None => mret (respBody, status, None)
                end
            end
          else mret (respBody, status, None)
      end
  end.

(** The assertion [payload[key].(string)]. *)
Definition string_field (key : string) (m : option object) : string * bool :=
  match m with
  | Some o =>
      match o !! key with
      | Some (VString v) => (v, true)
      | _ => (EmptyString, false)
      end
  | None => (EmptyString, false)
  end.

(** The assertion [result[key].(bool)]. *)
Definition bool_field (key : string) (m : option object) : bool * bool :=
  match m with
  | Some o =>
      match o !! key with
      | Some (VBool v) => (v, true)
      | _ => (false, false)
      end
  | None => (false, false)
  end.

(** The common tail of the facade: decode the body into a map. *)
Definition decode_object (body : string) : option object * option Error :=
  match json_Unmarshal_object lib body with
  | Err e => (None, Some ("unmarshaling response: " +:+ e))
  | Ok result => (result, None)
  end.

(** [func (c *Client) Create]. *)
Definition Create (workspaceID resourceType : string) (payload : object)
  : M (option object * option Error) :=
  c ← get_self;
  let endpoint := configURL c workspaceID resourceType in
  '(body, status, err) ← doRequest "POST" endpoint (Some payload);
  match err with
  | Some e => mret (None, Some e)
  | None =>
      r ← (if Z.eqb status 500 && Contains body "Unique constraint failed" then
             let '(id, ok) := string_field "id" (Some payload) in
             if negb ok || String.eqb id EmptyString then
               mret (inr ("POST " +:+ endpoint +:+
                          " returned soft-delete conflict but payload has no 'id' field"))
             else
               let table := if String.eqb resourceType "link"
                            then "ConfigurationObjectLink"
                            else "ConfigurationObject" in
               err ← hardDeleteSoftDeleted id table;
               match err with
               | Some e =>
                   mret (inr ("POST failed (soft-delete conflict) and cleanup failed: "
                              +:+ e))
               | None =>
                   '(body, status, err) ← doRequest "POST" endpoint (Some payload);
                   match err with
                   | Some e => mret (inr e)
                   | None => mret (inl (body, status))
                   end
               end
           else mret (inl (body, status)));
      match r with
      | inr e => mret (None, Some e)
      | inl (body, status) =>
          if Z.ltb status 200 || Z.leb 300 status
          then mret (None, Some (status_error "POST" endpoint status body))
          else mret (decode_object body)
      end
  end.

(** [func (c *Client) Read]. *)
Definition Read (workspaceID resourceType id : string)
  : M (option object * option Error) :=
  c ← get_self;
  let endpoint := configItemURL c workspaceID resourceType id in
  '(body, status, err) ← doRequest "GET" endpoint None;
  match err with
  | Some e => mret (None, Some e)
  | None =>
      if Z.eqb status 404 then mret (None, None)
      else if Z.ltb status 200 || Z.leb 300 status
      then mret (None, Some (status_error "GET" endpoint status body))
      else
        match json_Unmarshal_object lib body with
        | Err e => mret (None, Some ("unmarshaling response: " +:+ e))
        | Ok result =>
            let '(deleted, ok) := bool_field "deleted" result in
            if ok && deleted then mret (None, None)
            else mret (result, None)
        end
  end.

(** [func (c *Client) Update]. *)
Definition Update (workspaceID resourceType id : string) (payload : object)
  : M (option object * option Error) :=
  c ← get_self;
  let endpoint := configItemURL c workspaceID resourceType id in
  '(body, status, err) ← doRequest "PUT" endpoint (Some payload);
  match err with
  | Some e => mret (None, Some e)
  | None =>
      if Z.ltb status 200 || Z.leb 300 status
      then mret (None, Some (status_error "PUT" endpoint status body))
      else mret (decode_object body)
  end.

(** [func (c *Client) Delete]. *)
Definition Delete (workspaceID resourceType id : string) : M (option Error) :=
  c ← get_self;
  let endpoint := configItemURL c workspaceID resourceType id in
  '(body, status, err) ← doRequest "DELETE" endpoint None;
  match err with
  | Some e => mret (Some e)
  | None =>
      if Z.ltb status 200 || Z.leb 300 status
      then mret (Some (status_error "DELETE" endpoint status body))
      else mret None
  end.

(** [func (c *Client) List]. *)
Definition List (workspaceID resourceType : string)
  : M (list (option object) * option Error) :=
  c ← get_self;
  let endpoint := configURL c workspaceID resourceType in
  '(body, status, err) ← doRequest "GET" endpoint None;
  match err with
  | Some e => mret ([], Some e)
  | None =>
      if Z.ltb status 200 || Z.leb 300 status
      then mret ([], Some (status_error "GET" endpoint status body))
      else
        match json_Unmarshal_wrapper lib body with
        | Err e => mret ([], Some ("unmarshaling response: " +:+ e))
        | Ok wrapper =>
            let lookup key := wrapper ≫= (fun m : gmap string string => m !! key) in
            match
              match lookup "links" with
              | Some raw => Some raw
              | None => lookup "objects"
              end
            with
            | None =>
                mret ([], Some "unexpected response format: no 'objects' or 'links' key")
            | Some items =>
                match json_Unmarshal_items lib items with
                | Err e => mret ([], Some ("unmarshaling items: " +:+ e))
                | Ok result => mret (result, None)
                end
            end
        end
  end.

(** [func (c *Client) DeleteLink]. *)
Definition DeleteLink (workspaceID id : string) : M (option Error) :=
  c ← get_self;
  let endpoint := consoleURL c +:+ "/api/" +:+ PathEscape lib workspaceID +:+
                  "/config/link?id=" +:+ QueryEscape lib id in
  '(body, status, err) ← doRequest "DELETE" endpoint None;
  match err with
  | Some e => mret (Some e)
  | None =>
      if Z.ltb status 200 || Z.leb 300 status
      then mret (Some (status_error "DELETE" endpoint status body))
      else mret None
  end.

(** The payload [{name, slug}] of the workspace calls. *)
Definition workspace_payload (name slug : string) : object :=
  <["name" := VString name]> (<["slug" := VString slug]> ∅).

(** [func (c *Client) WorkspaceCreate]. *)
Definition WorkspaceCreate (name slug : string) : M (string * option Error) :=
  c ← get_self;
  let payload := workspace_payload name slug in
  let endpoint := workspaceURL c in
  '(body, status, err) ← doRequest "POST" endpoint (Some payload);
  match err with
  | Some e => mret (EmptyString, Some e)
  | None =>
      if Z.ltb status 200 || Z.leb 300 status then
        if Z.eqb status 500 && Contains body "WorkspaceAccess_userId_fkey"
        then mret (EmptyString,
                   Some ("workspace creation failed due to missing/invalid user session context: "
                         +:+ body))
        else mret (EmptyString, Some (status_error "POST" endpoint status body))
      else
        match json_Unmarshal_object lib body with
        | Err e => mret (EmptyString, Some ("unmarshaling response: " +:+ e))
        | Ok result =>
            let '(id, _) := string_field "id" result in
            if String.eqb id EmptyString
            then mret (EmptyString,
                       Some ("POST " +:+ endpoint +:+ " did not return workspace id"))
            else mret (id, None)
        end
  end.

(** [func (c *Client) WorkspaceRead]. *)
Definition WorkspaceRead (idOrSlug : string) : M (option object * option Error) :=
  c ← get_self;
  let endpoint := workspaceItemURL c idOrSlug in
  '(body, status, err) ← doRequest "GET" endpoint None;
  match err with
  | Some e => mret (None, Some e)
  | None =>
      if Z.eqb status 404 then mret (None, None)
      else if Z.ltb status 200 || Z.leb 300 status
      then mret (None, Some (status_error "GET" endpoint status body))
      else
        match json_Unmarshal_object lib body with
        | Err e => mret (None, Some ("unmarshaling response: " +:+ e))
        | Ok result =>
            let '(deleted, ok) := bool_field "deleted" result in
            if ok && deleted then mret (None, None)
            else mret (result, None)
        end
  end.

(** [func (c *Client) WorkspaceUpdate]. *)
Definition WorkspaceUpdate (idOrSlug name slug : string)
  : M (option object * option Error) :=
  c ← get_self;
  let payload := workspace_payload name slug in
  let endpoint := workspaceItemURL c idOrSlug in
  '(body, status, err) ← doRequest "PUT" endpoint (Some payload);
  match err with
  | Some e => mret (None, Some e)
  | None =>
      if Z.ltb status 200 || Z.leb 300 status
      then mret (None, Some (status_error "PUT" endpoint status body))
      else mret (decode_object body)
  end.

(** [func (c *Client) WorkspaceDelete]. *)
Definition WorkspaceDelete (workspaceID : string) : M (option Error) :=
  c ← get_self;
  let payload : object := {[ "workspaceId" := VString workspaceID ]} in
  let endpoint := workspaceURL c in
  '(body, status, err) ← doRequest "DELETE" endpoint (Some payload);
  match err with
  | Some e => mret (Some e)
  | None =>
      if Z.eqb status 404 then mret None
      else if Z.ltb status 200 || Z.leb 300 status
      then mret (Some (status_error "DELETE" endpoint status body))
      else mret None
  end.

End WithEnv.
End client.

(** ** The workspace resource *)

Module resources.
Import client.

(** [types.String] of the plugin framework. *)
Inductive tfString : Type :=
| StringNull
| StringUnknown
| StringValue (s : string).

Definition ValueString (v : tfString) : string :=
  match v with
  | StringValue s => s
  | _ => EmptyString
  end.

(** [type workspaceModel struct]. *)
Record workspaceModel : Type := {
  ID : tfString;
  Name : tfString;
  Slug : tfString
}.

Inductive Severity : Type := SeverityError | SeverityWarning.

Record Diagnostic : Type := {
  severity : Severity;
  summary : string;
  detail : string
}.

Definition Severity_eqb (a b : Severity) : bool :=
  match a, b with
  | SeverityError, SeverityError | SeverityWarning, SeverityWarning => true
  | _, _ => false
  end.

Definition Diagnostic_Equal (a b : Diagnostic) : bool :=
  Severity_eqb (severity a) (severity b) && String.eqb (summary a) (summary b)
  && String.eqb (detail a) (detail b).

(** [Diagnostics.Append]: a diagnostic already present is not added again. *)
Fixpoint Append (new diags : list Diagnostic) : list Diagnostic :=
  match new with
  | [] => diags
  | d :: new' =>
      Append new' (if existsb (Diagnostic_Equal d) diags then diags
                   else diags ++ [d])
  end.

Definition AddError (summary' detail' : string) (diags : list Diagnostic)
  : list Diagnostic :=
  Append [{| severity := SeverityError; summary := summary';
             detail := detail' |}] diags.

Definition HasError (diags : list Diagnostic) : bool :=
  existsb (fun d => Severity_eqb (severity d) SeverityError) diags.

(** [resource.CreateRequest], reduced to what [req.Plan.Get] yields for
    [workspaceModel]: its diagnostics and the plan it fills in. *)
Record CreateRequest : Type := {
  Plan_Get : list Diagnostic * workspaceModel
}.

(** [resource.CreateResponse]: the diagnostics and the state to record
    ([None]: nothing recorded). *)
Record CreateResponse : Type := {
  Diagnostics : list Diagnostic;
  State : option workspaceModel
}.

Definition with_diagnostics (f : list Diagnostic -> list Diagnostic)
    (resp : CreateResponse) : CreateResponse :=
  {| Diagnostics := f (Diagnostics resp); State := State resp |}.

(** [resp.State.Set(ctx, &state)]: the model has the shape of the schema, so
    the conversion yields no diagnostic and the state is stored. *)
Definition State_Set (state : workspaceModel) (resp : CreateResponse)
  : CreateResponse :=
  {| Diagnostics := Append [] (Diagnostics resp); State := Some state |}.

Section WithEnv.
Context (lib : Lib) (env : Env).

(** [func (r *workspaceResource) Create]; [r.client] is the client of the
    world the computation runs in. *)
Definition workspaceResource_Create (req : CreateRequest) (resp : CreateResponse)
  : M CreateResponse :=
  let '(diags, plan) := Plan_Get req in
  let resp := with_diagnostics (Append diags) resp in
  if HasError (Diagnostics resp) then mret resp
  else
    '(id, err) ← WorkspaceCreate lib env (ValueString (Name plan))
                   (ValueString (Slug plan));
    match err with
    | Some e =>
        mret (with_diagnostics (AddError "Error creating workspace" e) resp)
    | None =>
        '(_, err) ← WorkspaceUpdate lib env id (ValueString (Name plan))
                      (ValueString (Slug plan));
        match err with
        | Some e =>
            rollbackErr ← WorkspaceDelete lib env id;
            match rollbackErr with
            | Some re =>
                mret (with_diagnostics
                        (AddError "Error finalizing workspace creation"
                           (e +:+ ". Rollback failed for workspace " +:+
                            Quote lib id +:+ ": " +:+ re)) resp)
            | None =>
                mret (with_diagnostics
                        (AddError "Error finalizing workspace creation"
                           (e +:+ ". Rolled back newly-created workspace " +:+
                            Quote lib id +:+ ".")) resp)
            end
        | None =>
            let state := {| ID := StringValue id; Name := Name plan;
                            Slug := Slug plan |} in
            mret (State_Set state resp)
        end
    end.

End WithEnv.
End resources.

(** ** The backing store, as the reconciler's statements read it *)

Module Store.

(** A row of [newjitsu.ConfigurationObject] and of
    [newjitsu.ConfigurationObjectLink], reduced to the columns the
    reconciler's predicates mention. *)
Record ObjectRow : Type := {
  o_id : string;
  o_deleted : bool
}.

Record LinkRow : Type := {
  l_id : string;
  l_fromId : string;
  l_toId : string;
  l_deleted : bool
}.

Record Database : Type := {
  ConfigurationObject : list ObjectRow;
  ConfigurationObjectLink : list LinkRow
}.

(** The two statements of [hardDeleteSoftDeleted]. *)
Inductive Statement : Type :=
| DeleteReferencingLinks
| DeleteSoftDeleted (table : string).

Definition sql_text (lib : Lib) (st : Statement) : string :=
  match st with
  | DeleteReferencingLinks =>
      "DELETE FROM newjitsu." +:+ dq +:+ "ConfigurationObjectLink" +:+ dq +:+
      " WHERE deleted = true AND (" +:+ dq +:+ "fromId" +:+ dq +:+
      " = $1 OR " +:+ dq +:+ "toId" +:+ dq +:+ " = $1)"
  | DeleteSoftDeleted table =>
      "DELETE FROM newjitsu." +:+ QuoteIdentifier lib table +:+
      " WHERE id = $1 AND deleted = true"
  end.

(** The rows a statement deletes, with [$1] bound to [arg]. *)
Definition link_hit (st : Statement) (arg : string) (l : LinkRow) : bool :=
  match st with
  | DeleteReferencingLinks =>
      l_deleted l && (String.eqb (l_fromId l) arg || String.eqb (l_toId l) arg)
  | DeleteSoftDeleted table =>
      String.eqb table "ConfigurationObjectLink" &&
      (String.eqb (l_id l) arg && l_deleted l)
  end.

Definition object_hit (st : Statement) (arg : string) (o : ObjectRow) : bool :=
  match st with
  | DeleteReferencingLinks => false
  | DeleteSoftDeleted table =>
      String.eqb table "ConfigurationObject" &&
      (String.eqb (o_id o) arg && o_deleted o)
  end.

Definition exec (st : Statement) (arg : string) (d : Database) : Database :=
  {| ConfigurationObject :=
       List.filter (fun o => negb (object_hit st arg o)) (ConfigurationObject d);
     ConfigurationObjectLink :=
       List.filter (fun l => negb (link_hit st arg l)) (ConfigurationObjectLink d) |}.

End Store.

(** ** Reading traces *)

Definition is_send (e : Event) : bool :=
  match e with EvHttp SiteSend _ _ => true | _ => false end.

Definition is_csrf_fetch (e : Event) : bool :=
  match e with EvHttp SiteRaw _ _ => true | _ => false end.

Definition is_login (e : Event) : bool :=
  match e with EvHttp SiteLogin _ _ => true | _ => false end.

Definition is_http (e : Event) : bool :=
  match e with EvHttp _ _ _ => true | _ => false end.

Definition is_invalidation (e : Event) : bool :=
  match e with EvSetAuthenticated false => true | _ => false end.

Definition is_exec (e : Event) : bool :=
  match e with EvSqlExec _ _ _ => true | _ => false end.

Definition is_purge_warning (e : Event) : bool :=
  match e with
  | EvLog LevelWarn msg _ =>
      String.eqb msg "hard-deleting soft-deleted row for re-creation"
  | _ => false
  end.

Definition count (p : Event -> bool) (evs : list Event) : nat :=
  length (List.filter p evs).

(** The database statements of a trace, in order. *)
Definition statements (evs : list Event)
  : list (string * list string * option Error) :=
  omap (fun e => match e with
                 | EvSqlExec q args err => Some (q, args, err)
                 | _ => None
                 end) evs.

(** The requests sent by [send], in order. *)
Definition sent (evs : list Event) : list Request :=
  omap (fun e => match e with
                 | EvHttp SiteSend rq _ => Some rq
                 | _ => None
                 end) evs.

(** The requests sent by [send] with what came back, in order. *)
Definition exchanges (evs : list Event) : list (Request * HttpOutcome) :=
  omap (fun e => match e with
                 | EvHttp SiteSend rq out => Some (rq, out)
                 | _ => None
                 end) evs.

(** The requests and the statements that left the client, in order: the
    method and URL of a request, the text of a statement. *)
Definition actions (evs : list Event) : list string :=
  omap (fun e => match e with
                 | EvHttp SiteSend rq _ => Some (rq_method rq +:+ " " +:+ rq_url rq)
                 | EvSqlExec query _ _ => Some query
                 | _ => None
                 end) evs.

(** The error of [getDB] when no connection string is configured. *)
Definition database_url_missing : Error :=
  "database_url not configured in provider; " +:+
  "Jitsu uses soft-delete, so re-creating objects with the same ID requires database_url to hard-delete stale rows".

(** ** The worlds a client can be in *)

Section Reachable.
Import client.
Context (lib : Lib) (env : Env).

(** A client starts as [New] returns it and is only ever changed by the
    session manager, the executor and the reconciler; the facade is composed
    of these. *)
Inductive reachable : World -> Prop :=
| reach_New consoleURL' username' password' databaseURL' userAgent' :
    reachable {| self := New consoleURL' username' password' databaseURL'
                             userAgent';
                 trace := [] |}
| reach_authenticate w :
    reachable w -> reachable (snd (authenticate lib env w))
| reach_markUnauthenticated w :
    reachable w -> reachable (snd (markUnauthenticated w))
| reach_doRequest w method requestURL body :
    reachable w -> reachable (snd (doRequest lib env method requestURL body w))
| reach_hardDeleteSoftDeleted w id table :
    reachable w -> reachable (snd (hardDeleteSoftDeleted lib env id table w)).

(** A session marked authenticated belongs to a client with credentials. *)
Definition credentialed (c : Client) : Prop :=
  authenticated c = true ->
  username c <> EmptyString /\ password c <> EmptyString.

End Reachable.

(** ** Reading the results of Create *)

Section CreateResults.
Import client.
Context (lib : Lib).

(** The storage table of a resource type. *)
Definition table_of (resourceType : string) : string :=
  if String.eqb resourceType "link" then "ConfigurationObjectLink"
  else "ConfigurationObject".

(** What [Create] returns for the last response it received. *)
Definition create_result (endpoint : string)
    (r : string * Z * option Error) : option object * option Error :=
  match r with
  | (_, _, Some e) => (None, Some e)
  | (body, status, None) =>
      if Z.ltb status 200 || Z.leb 300 status
      then (None, Some (status_error "POST" endpoint status body))
      else decode_object lib body
  end.

Definition is_conflict (status : Z) (body : string) : bool :=
  Z.eqb status 500 && Contains body "Unique constraint failed".

End CreateResults.

(** ** What the remote side answers to a credential exchange

    The observations [authenticate] makes on a session that is not yet
    authenticated, read off the environment at the world [w]. *)

Section Exchange.
Import client.
Context (lib : Lib) (env : Env) (w : World).

Definition credentials_absent : Prop :=
  username (self w) = EmptyString \/ password (self w) = EmptyString.

(** Status and body of the token response, when one was read. *)
Definition token_reply : option (Z * string) :=
  match NewRequest lib "GET" (csrf_url (self w)) with
  | Some _ => None
  | None =>
      match http_roundtrip env (trace w) SiteRaw (csrf_request (self w)) with
      | Response status body => Some (status, body)
      | DoError _ | ReadError _ _ => None
      end
  end.

(** The outcome of the credential exchange that follows the token response
    [(status, body)] and submits [token]. *)
Definition exchange_outcome (status : Z) (body token : string) : HttpOutcome :=
  http_roundtrip env
    (trace w ++ [EvHttp SiteRaw (csrf_request (self w)) (Response status body)])
    SiteLogin (login_request lib (self w) token).

(** The causes of failure the specification lists: no credentials, a token
    fetch that fails (no response, or a body that does not decode) or is
    answered outside 2xx, an empty token, an exchange answered outside
    [200, 400). *)
Definition listed_failure : Prop :=
  credentials_absent
  \/ token_reply = None
  \/ (exists status body,
        token_reply = Some (status, body) /\ ~ (200 <= status < 300))
  \/ (exists status body e,
        token_reply = Some (status, body) /\
        json_Unmarshal_csrf lib body = Err e)
  \/ (exists status body,
        token_reply = Some (status, body) /\
        json_Unmarshal_csrf lib body = Ok EmptyString)
  \/ (exists status body token code reply,
        token_reply = Some (status, body) /\
        json_Unmarshal_csrf lib body = Ok token /\
        exchange_outcome status body token = Response code reply /\
        ~ (200 <= code < 400)).

(** The remaining cause: a token was obtained but the exchange request could
    not be built, sent, or its response read. *)
Definition exchange_not_completed : Prop :=
  exists status body token,
    token_reply = Some (status, body) /\ 200 <= status < 300 /\
    json_Unmarshal_csrf lib body = Ok token /\ token <> EmptyString /\
    (NewRequest lib "POST" (login_url (self w)) <> None
     \/ (exists e, exchange_outcome status body token = DoError e)
     \/ (exists status' e,
           exchange_outcome status body token = ReadError status' e)).

End Exchange.

(** ** A concrete library and scripted environments

    [sample_lib] agrees with the Go functions on the inputs the examples
    use: identifiers made of letters, digits and dashes need no escaping,
    and the JSON codec handles the flat documents listed below. *)

Module Examples.
Import client resources.

Definition quoted (s : string) : string := dq +:+ s +:+ dq.

Fixpoint insert_sorted (kv : string * string) (l : list (string * string))
  : list (string * string) :=
  match l with
  | [] => [kv]
  | kv' :: l' =>
      if String.leb (fst kv) (fst kv') then kv :: l
      else kv' :: insert_sorted kv l'
  end.

Definition sort_members (l : list (string * string)) : list (string * string) :=
  foldr insert_sorted [] l.

Fixpoint join (sep : string) (l : list string) : string :=
  match l with
  | [] => EmptyString
  | [x] => x
  | x :: l' => x +:+ sep +:+ join sep l'
  end.

(** Encoding of a scalar; composite members are outside the sample codec. *)
Definition encode_scalar (v : value) : option string :=
  match v with
  | VNil => Some "null"
  | VBool true => Some "true"
  | VBool false => Some "false"
  | VNumber lit => Some lit
  | VString s => Some (quoted s)
  | VList _ | VMap _ => None
  end.

(** Encoding of a flat object, members in key order as [json.Marshal]
    writes them. *)
Definition encode_object (m : object) : result string :=
  match mapM (fun kv : string * value =>
                v ← encode_scalar (snd kv); Some (fst kv, v))
             (map_to_list m) with
  | None => Err "json: unsupported type"
  | Some members =>
      Ok ("{" +:+
          join "," (List.map (fun kv : string * string =>
                                quoted (fst kv) +:+ ":" +:+ snd kv)
                      (sort_members members)) +:+
          "}")
  end.

Definition text_of (m : object) : string :=
  match encode_object m with
  | Ok s => s
  | Err _ => EmptyString
  end.

(** The documents the sample decoders know. *)
Definition stream_s1 : object :=
  <["id" := VString "s1"]> (<["type" := VString "stream"]> ∅).

Definition stream_s1_deleted : object :=
  <["deleted" := VBool true]> stream_s1.

Definition link_l1 : object :=
  <["id" := VString "l1"]>
    (<["fromId" := VString "s1"]> (<["toId" := VString "d1"]> ∅)).

Definition workspace_w1 : object :=
  <["id" := VString "w1"]>
    (<["name" := VString "Main"]> (<["slug" := VString "main"]> ∅)).

Definition known_objects : list object :=
  [stream_s1; stream_s1_deleted; link_l1; workspace_w1; ∅].

Definition csrf_doc : string := "{" +:+ quoted "csrfToken" +:+ ":" +:+ quoted "tok" +:+ "}".

Definition array_of (docs : list string) : string := "[" +:+ join "," docs +:+ "]".

Definition wrapper_doc (key raw : string) : string :=
  "{" +:+ quoted key +:+ ":" +:+ raw +:+ "}".

Definition wrapper_doc2 (key1 raw1 key2 raw2 : string) : string :=
  "{" +:+ quoted key1 +:+ ":" +:+ raw1 +:+ "," +:+ quoted key2 +:+ ":" +:+ raw2 +:+ "}".

Definition known_items : list (string * list (option object)) :=
  [ (array_of [text_of stream_s1], [Some stream_s1]);
    (array_of [text_of link_l1], [Some link_l1]);
    (array_of [], []) ].

Definition known_wrappers : list (string * gmap string string) :=
  [ (wrapper_doc "objects" (array_of [text_of stream_s1]),
     {[ "objects" := array_of [text_of stream_s1] ]});
    (wrapper_doc "links" (array_of [text_of link_l1]),
     {[ "links" := array_of [text_of link_l1] ]});
    (wrapper_doc2 "links" "5" "objects" (array_of [text_of stream_s1]),
     <["links" := "5"]> {[ "objects" := array_of [text_of stream_s1] ]});
    ("{}", ∅) ].

Definition lookup_doc {A : Type} (body : string) (table : list (string * A))
  : result A :=
  match List.find (fun kv => String.eqb (fst kv) body) table with
  | Some kv => Ok (snd kv)
  | None => Err "invalid character looking for beginning of value"
  end.

Definition sample_lib : Lib :=
  {| PathEscape := fun s => s;
     QueryEscape := fun s => s;
     QuoteIdentifier := quoted;
     Quote := quoted;
     Values_Encode := fun form =>
       join "&" (List.map (fun kv : string * string => fst kv +:+ "=" +:+ snd kv)
                   (sort_members (map_to_list form)));
     NewRequest := fun _ _ => None;
     json_Marshal := encode_object;
     json_Unmarshal_csrf := fun body =>
       lookup_doc body [(csrf_doc, "tok"); ("{}", EmptyString)];
     json_Unmarshal_object := fun body =>
       if String.eqb body "null" then Ok None
       else lookup_doc body
              (List.map (fun m => (text_of m, Some m)) known_objects);
     json_Unmarshal_wrapper := fun body =>
       if String.eqb body "null" then Ok None
       else lookup_doc body
              (List.map (fun kv => (fst kv, Some (snd kv))) known_wrappers);
     json_Unmarshal_items := fun raw =>
       if String.eqb raw "null" then Ok []
       else if String.eqb raw "5" then
         Err "json: cannot unmarshal number into Go value of type []map[string]interface {}"
       else lookup_doc raw known_items |}.

(** An environment that answers the n-th HTTP exchange with the n-th entry of
    [https] and the n-th database statement with the n-th entry of [sqls]. *)
Definition scripted (https : list HttpOutcome) (open : option Error)
    (sqls : list (option Error)) : Env :=
  {| http_roundtrip := fun tr _ _ =>
       nth (count is_http tr) https (DoError "connection refused");
     sql_Open := fun _ _ => open;
     sql_ExecContext := fun tr _ _ => nth (count is_exec tr) sqls None |}.

Definition sample_client : Client :=
  New "https://jitsu.example.com/" "admin" "secret"
      "postgres://console@db/jitsu" "terraform-provider-jitsu/dev".

Definition sample_client_no_db : Client :=
  New "https://jitsu.example.com/" "admin" "secret" EmptyString
      "terraform-provider-jitsu/dev".

Definition fresh (c : Client) : World := {| self := c; trace := [] |}.

Definition logged_in (c : Client) : World :=
  {| self := set_authenticated true c; trace := [] |}.

(** The two exchanges of a successful login. *)
Definition login_ok : list HttpOutcome :=
  [Response 200 csrf_doc; Response 302 EmptyString].

End Examples.

(** ** Further readings of traces *)

Definition is_open (e : Event) : bool :=
  match e with EvSqlOpen _ _ => true | _ => false end.

(** The events that address the database. *)
Definition touches_database (e : Event) : bool :=
  match e with EvSqlOpen _ _ | EvSqlExec _ _ _ => true | _ => false end.

(** The events since the world [w], in a later world [w']. *)
Definition events_since (w w' : client.World) : list Event :=
  drop (length (client.trace w)) (client.trace w').

(** ** The calls of the facade that are a single request *)

Section ApiCalls.
Import client.
Context (lib : Lib) (env : Env).

(** The operations of the facade other than [Create], with their
    arguments. *)
Inductive ApiCall : Type :=
| CallRead (workspaceID resourceType id : string)
| CallUpdate (workspaceID resourceType id : string) (payload : object)
| CallDelete (workspaceID resourceType id : string)
| CallList (workspaceID resourceType : string)
| CallDeleteLink (workspaceID id : string)
| CallWorkspaceCreate (name slug : string)
| CallWorkspaceRead (idOrSlug : string)
| CallWorkspaceUpdate (idOrSlug name slug : string)
| CallWorkspaceDelete (workspaceID : string).

(** The world a call leaves behind. *)
Definition world_after (call : ApiCall) (w : World) : World :=
  match call with
  | CallRead ws ty id => snd (Read lib env ws ty id w)
  | CallUpdate ws ty id payload => snd (Update lib env ws ty id payload w)
  | CallDelete ws ty id => snd (Delete lib env ws ty id w)
  | CallList ws ty => snd (List lib env ws ty w)
  | CallDeleteLink ws id => snd (DeleteLink lib env ws id w)
  | CallWorkspaceCreate name slug => snd (WorkspaceCreate lib env name slug w)
  | CallWorkspaceRead idOrSlug => snd (WorkspaceRead lib env idOrSlug w)
  | CallWorkspaceUpdate idOrSlug name slug =>
      snd (WorkspaceUpdate lib env idOrSlug name slug w)
  | CallWorkspaceDelete ws => snd (WorkspaceDelete lib env ws w)
  end.

(** The method, URL and payload of the request a call makes. *)
Definition request_of (call : ApiCall) (c : Client)
  : string * string * option object :=
  match call with
  | CallRead ws ty id => ("GET", configItemURL lib c ws ty id, None)
  | CallUpdate ws ty id payload =>
      ("PUT", configItemURL lib c ws ty id, Some payload)
  | CallDelete ws ty id => ("DELETE", configItemURL lib c ws ty id, None)
  | CallList ws ty => ("GET", configURL lib c ws ty, None)
  | CallDeleteLink ws id =>
      ("DELETE",
       consoleURL c +:+ "/api/" +:+ PathEscape lib ws +:+ "/config/link?id=" +:+
       QueryEscape lib id, None)
  | CallWorkspaceCreate name slug =>
      ("POST", workspaceURL c, Some (workspace_payload name slug))
  | CallWorkspaceRead idOrSlug => ("GET", workspaceItemURL lib c idOrSlug, None)
  | CallWorkspaceUpdate idOrSlug name slug =>
      ("PUT", workspaceItemURL lib c idOrSlug, Some (workspace_payload name slug))
  | CallWorkspaceDelete ws =>
      ("DELETE", workspaceURL c, Some {[ "workspaceId" := VString ws ]})
  end.

End ApiCalls.

(** ** The connection pool cell *)

(** The pool cell is filled exactly when the trace holds an open, and then
    it holds one. *)
Definition pool_opened_once (w : client.World) : Prop :=
  count is_open (client.trace w)
  = match client.db (client.self w) with Some _ => 1%nat | None => 0%nat end.

(** ** Trailing characters *)

Fixpoint last_char (s : string) : option ascii :=
  match s with
  | EmptyString => None
  | String c EmptyString => Some c
  | String _ s' => last_char s'
  end.

(** Every character of [t] is in [cutset]. *)
Fixpoint all_in (t cutset : string) : bool :=
  match t with
  | EmptyString => true
  | String c t' => mem_char c cutset && all_in t' cutset
  end.

(** ** Resource handlers: import identifiers *)

Module handlers.
Import client resources.

(** [strings.Split s sep] for a separator of one byte. *)
Fixpoint Split (s : string) (sep : ascii) : list string :=
  match s with
  | EmptyString => [EmptyString]
  | String a s' =>
      if Ascii.eqb a sep then EmptyString :: Split s' sep
      else match Split s' sep with
           | p :: ps => String a p :: ps
           | [] => [String a EmptyString]
           end
  end.

(** [strings.Join parts sep]. *)
Fixpoint Join (parts : list string) (sep : string) : string :=
  match parts with
  | [] => EmptyString
  | [p] => p
  | p :: ps => p +:+ sep +:+ Join ps sep
  end.

Definition slash : ascii := ascii_of_nat 47.

(** [func splitImportID]; [None] is the nil slice. *)
Definition splitImportID (id : string) (expectedParts : Z) : option (list string) :=
  if Z.leb expectedParts 0 then None
  else
    let parts := Split id slash in
    if negb (Z.eqb (Z.of_nat (length parts)) expectedParts) then None
    else if existsb (fun p => String.eqb p EmptyString) parts then None
    else Some parts.

(** ** Resource handlers: requests and responses *)

(** [resource.CreateRequest], reduced to what [req.Plan.Get] yields for the
    model of the resource: its diagnostics and the plan it fills in. *)
Record PlanRequest (model : Type) : Type := {
  Plan_Get : list Diagnostic * model
}.
Arguments Plan_Get {model} _.

(** [resource.ReadRequest] and [resource.DeleteRequest], reduced to what
    [req.State.Get] yields. *)
Record StateRequest (model : Type) : Type := {
  State_Get : list Diagnostic * model
}.
Arguments State_Get {model} _.

(** [resource.UpdateRequest]: the plan and the prior state. *)
Record UpdateRequest (model : Type) : Type := {
  UPlan_Get : list Diagnostic * model;
  UState_Get : list Diagnostic * model
}.
Arguments UPlan_Get {model} _.
Arguments UState_Get {model} _.

(** [resource.ImportStateRequest]: [req.ID]. *)
Record ImportStateRequest : Type := {
  ImportID : string
}.

(** The responses of the handlers: the diagnostics and the state the
    response holds ([None]: the null state, no resource). *)
Record HandlerResponse (model : Type) : Type := {
  Diagnostics : list Diagnostic;
  State : option model
}.
Arguments Diagnostics {model} _.
Arguments State {model} _.

Section Responses.
Context {model : Type}.

(** [resp.Diagnostics.Append(diags...)]. *)
Definition append_diags (diags : list Diagnostic) (resp : HandlerResponse model)
  : HandlerResponse model :=
  {| Diagnostics := Append diags (Diagnostics resp); State := State resp |}.

(** [resp.Diagnostics.AddError(summary, detail)]. *)
Definition add_error (summary' detail' : string) (resp : HandlerResponse model)
  : HandlerResponse model :=
  {| Diagnostics := AddError summary' detail' (Diagnostics resp);
     State := State resp |}.

(** [resp.Diagnostics.Append(resp.State.Set(ctx, &state)...)]: the model has
    the shape of the schema, so the conversion yields no diagnostic and the
    state is stored. *)
Definition State_Set (state : model) (resp : HandlerResponse model)
  : HandlerResponse model :=
  {| Diagnostics := Append [] (Diagnostics resp); State := Some state |}.

(** [resp.State.RemoveResource(ctx)]. *)
Definition State_RemoveResource (resp : HandlerResponse model)
  : HandlerResponse model :=
  {| Diagnostics := Diagnostics resp; State := None |}.

End Responses.

(** [types.List]; its elements are kept as the framework holds them. *)
Inductive tfList (elem : Type) : Type :=
| ListNull
| ListUnknown
| ListValue (elems : list elem).
Arguments ListNull {elem}.
Arguments ListUnknown {elem}.
Arguments ListValue {elem} elems.

(** [diags.Errors()]. *)
Definition Errors (diags : list Diagnostic) : list Diagnostic :=
  List.filter (fun d => Severity_eqb (severity d) SeverityError) diags.

(** [if v, ok := result[key].(string); ok { field = types.StringValue(v) }]. *)
Definition string_or (key : string) (result : option object) (old : tfString)
  : tfString :=
  let '(v, ok) := string_field key result in
  if ok then StringValue v else old.

(** The same with the guard [ok && v != ""]. *)
Definition nonempty_string_or (key : string) (result : option object)
    (old : tfString) : tfString :=
  let '(v, ok) := string_field key result in
  if ok && negb (String.eqb v EmptyString) then StringValue v else old.

(** [parts[i]] of an import identifier; [splitImportID] has checked the
    length, so the index is in range. *)
Definition part (i : nat) (parts : list string) : string :=
  nth i parts EmptyString.

(** ** The workspace resource: Read, Update, Delete, ImportState *)

Section WithEnv.
Context (lib : Lib) (env : Env).

(** [func (r *workspaceResource) Read]. *)
Definition workspaceResource_Read (req : StateRequest workspaceModel)
    (resp : HandlerResponse workspaceModel)
  : M (HandlerResponse workspaceModel) :=
  let '(diags, state) := State_Get req in
  let resp := append_diags diags resp in
  if HasError (Diagnostics resp) then mret resp
  else
    '(result, err) ← WorkspaceRead lib env (ValueString (ID state));
    match err with
    | Some e => mret (add_error "Error reading workspace" e resp)
    | None =>
        match result with
        | None => mret (State_RemoveResource resp)
        | Some _ =>
            let state := {| ID := string_or "id" result (ID state);
                            Name := string_or "name" result (Name state);
                            Slug := string_or "slug" result (Slug state) |} in
            mret (State_Set state resp)
        end
    end.

(** [func (r *workspaceResource) Update]. *)
Definition workspaceResource_Update (req : UpdateRequest workspaceModel)
    (resp : HandlerResponse workspaceModel)
  : M (HandlerResponse workspaceModel) :=
  let '(diags, plan) := UPlan_Get req in
  let resp := append_diags diags resp in
  if HasError (Diagnostics resp) then mret resp
  else
    let '(diags, state) := UState_Get req in
    let resp := append_diags diags resp in
    if HasError (Diagnostics resp) then mret resp
    else
      '(result, err) ← WorkspaceUpdate lib env (ValueString (ID state))
                         (ValueString (Name plan)) (ValueString (Slug plan));
      match err with
      | Some e => mret (add_error "Error updating workspace" e resp)
      | None =>
          let newState := {| ID := nonempty_string_or "id" result (ID state);
                             Name := Name plan;
                             Slug := Slug plan |} in
          mret (State_Set newState resp)
      end.

(** [func (r *workspaceResource) Delete]. *)
Definition workspaceResource_Delete (req : StateRequest workspaceModel)
    (resp : HandlerResponse workspaceModel)
  : M (HandlerResponse workspaceModel) :=
  let '(diags, state) := State_Get req in
  let resp := append_diags diags resp in
  if HasError (Diagnostics resp) then mret resp
  else
    err ← WorkspaceDelete lib env (ValueString (ID state));
    match err with
    | Some e => mret (add_error "Error deleting workspace" e resp)
    | None => mret resp
    end.

(** [func (r *workspaceResource) ImportState]; the fields the handler does
    not assign keep the zero value of [types.String], which is null. *)
Definition workspaceResource_ImportState (req : ImportStateRequest)
    (resp : HandlerResponse workspaceModel)
  : M (HandlerResponse workspaceModel) :=
  match splitImportID (ImportID req) 1 with
  | None =>
      mret (add_error "Invalid import ID"
              "Expected format: workspace_id_or_slug" resp)
  | Some parts =>
      '(result, err) ← WorkspaceRead lib env (part 0 parts);
      match err with
      | Some e => mret (add_error "Error importing workspace" e resp)
      | None =>
          match result with
          | None =>
              mret (add_error "Workspace not found"
                      ("Workspace " +:+ part 0 parts +:+ " not found") resp)
          | Some _ =>
              let state :=
                {| ID := nonempty_string_or "id" result
                           (StringValue (part 0 parts));
                   Name := string_or "name" result StringNull;
                   Slug := string_or "slug" result StringNull |} in
              mret (State_Set state resp)
          end
      end
  end.

End WithEnv.
End handlers.

(** ** The function resource *)

Module function_resource.
Import client resources handlers.

(** [type functionModel struct]. *)
Record functionModel : Type := {
  WorkspaceID : tfString;
  ID : tfString;
  Name : tfString;
  Code : tfString
}.

(** The payload of [Create] and [Update]. *)
Definition payload_of (plan : functionModel) : object :=
  <["id" := VString (ValueString (ID plan))]>
    (<["workspaceId" := VString (ValueString (WorkspaceID plan))]>
       (<["type" := VString "function"]>
          (<["name" := VString (ValueString (Name plan))]>
             (<["code" := VString (ValueString (Code plan))]> ∅)))).

Section WithEnv.
Context (lib : Lib) (env : Env).

(** [func (r *functionResource) Create]. *)
Definition Create (req : PlanRequest functionModel)
    (resp : HandlerResponse functionModel) : M (HandlerResponse functionModel) :=
  let '(diags, plan) := Plan_Get req in
  let resp := append_diags diags resp in
  if HasError (Diagnostics resp) then mret resp
  else
    '(_, err) ← client.Create lib env (ValueString (WorkspaceID plan))
                  "function" (payload_of plan);
    match err with
    | Some e => mret (add_error "Error creating function" e resp)
    | None => mret (State_Set plan resp)
    end.

(** [func (r *functionResource) Read]. *)
Definition Read (req : StateRequest functionModel)
    (resp : HandlerResponse functionModel) : M (HandlerResponse functionModel) :=
  let '(diags, state) := State_Get req in
  let resp := append_diags diags resp in
  if HasError (Diagnostics resp) then mret resp
  else
    '(result, err) ← client.Read lib env (ValueString (WorkspaceID state))
                       "function" (ValueString (ID state));
    match err with
    | Some e => mret (add_error "Error reading function" e resp)
    | None =>
        match result with
        | None => mret (State_RemoveResource resp)
        | Some _ =>
            let state := {| WorkspaceID := WorkspaceID state;
                            ID := ID state;
                            Name := string_or "name" result (Name state);
                            Code := string_or "code" result (Code state) |} in
            mret (State_Set state resp)
        end
    end.

(** [func (r *functionResource) Update]. *)
Definition Update (req : UpdateRequest functionModel)
    (resp : HandlerResponse functionModel) : M (HandlerResponse functionModel) :=
  let '(diags, plan) := UPlan_Get req in
  let resp := append_diags diags resp in
  if HasError (Diagnostics resp) then mret resp
  else
    '(_, err) ← client.Update lib env (ValueString (WorkspaceID plan))
                  "function" (ValueString (ID plan)) (payload_of plan);
    match err with
    | Some e => mret (add_error "Error updating function" e resp)
    | None => mret (State_Set plan resp)
    end.

(** [func (r *functionResource) Delete]. *)
Definition Delete (req : StateRequest functionModel)
    (resp : HandlerResponse functionModel) : M (HandlerResponse functionModel) :=
  let '(diags, state) := State_Get req in
  let resp := append_diags diags resp in
  if HasError (Diagnostics resp) then mret resp
  else
    err ← client.Delete lib env (ValueString (WorkspaceID state))
            "function" (ValueString (ID state));
    match err with
    | Some e => mret (add_error "Error deleting function" e resp)
    | None => mret resp
    end.

(** [func (r *functionResource) ImportState]. *)
Definition ImportState (req : ImportStateRequest)
    (resp : HandlerResponse functionModel) : M (HandlerResponse functionModel) :=
  match splitImportID (ImportID req) 2 with
  | None =>
      mret (add_error "Invalid import ID"
              "Expected format: workspace_id/function_id" resp)
  | Some parts =>
      '(result, err) ← client.Read lib env (part 0 parts) "function"
                         (part 1 parts);
      match err with
      | Some e => mret (add_error "Error importing function" e resp)
      | None =>
          match result with
          | None =>
              mret (add_error "Function not found"
                      ("Function " +:+ part 1 parts +:+
                       " not found in workspace " +:+ part 0 parts) resp)
          | Some _ =>
              let state :=
                {| WorkspaceID := StringValue (part 0 parts);
                   ID := StringValue (part 1 parts);
                   Name := string_or "name" result StringNull;
                   Code := string_or "code" result StringNull |} in
              mret (State_Set state resp)
          end
      end
  end.

End WithEnv.
End function_resource.

(** ** The stream resource *)

Module stream_resource.
Import client resources handlers.

(** [type streamKeyModel struct]; its field [ID] is [KeyID] here, next to
    the [ID] of [streamModel]. *)
Record streamKeyModel : Type := {
  KeyID : tfString;
  Plaintext : tfString
}.

(** [type streamModel struct]. *)
Record streamModel (elem : Type) : Type := {
  WorkspaceID : tfString;
  ID : tfString;
  Name : tfString;
  PublicKeys : tfList elem;
  PrivateKeys : tfList elem
}.
Arguments WorkspaceID {elem} _.
Arguments ID {elem} _.
Arguments Name {elem} _.
Arguments PublicKeys {elem} _.
Arguments PrivateKeys {elem} _.

Section WithEnv.
Context (lib : Lib) (env : Env).
(** The framework: the values a list holds, [keys.ElementsAs(ctx, &models,
    false)] into [[]streamKeyModel], and [fmt.Sprintf] with the verb [%v] on
    diagnostics. *)
Context (elem : Type)
        (ElementsAs : list elem -> list Diagnostic * list streamKeyModel)
        (Sprint : list Diagnostic -> string).

(** One entry of the result of [keysToPayload], a [map[string]string], as
    [json.Marshal] encodes it. *)
Definition key_entry (m : streamKeyModel) : value :=
  VMap (<["id" := VString (ValueString (KeyID m))]>
          (<["plaintext" := VString (ValueString (Plaintext m))]> ∅)).

(** [func keysToPayload]; [None] is the nil slice. *)
Definition keysToPayload (keys : tfList elem)
  : option (list value) * option Error :=
  match keys with
  | ListNull | ListUnknown | ListValue [] => (None, None)
  | ListValue elems =>
      let '(diags, models) := ElementsAs elems in
      if HasError diags
      then (None, Some ("reading keys: " +:+ Sprint (Errors diags)))
      else (Some (List.map key_entry models), None)
  end.

(** The payload of the POST and the start of the payload of the PUT. *)
Definition base_payload (plan : streamModel elem) : object :=
  <["id" := VString (ValueString (ID plan))]>
    (<["workspaceId" := VString (ValueString (WorkspaceID plan))]>
       (<["type" := VString "stream"]>
          (<["name" := VString (ValueString (Name plan))]> ∅))).

(** [if keys != nil { payload[key] = keys }]. *)
Definition with_keys (key : string) (keys : option (list value))
    (payload : object) : object :=
  match keys with
  | Some l => <[key := VList l]> payload
  | None => payload
  end.

Definition is_nil {A : Type} (s : option A) : bool :=
  match s with Some _ => false | None => true end.

(** [func (r *streamResource) Create]. *)
Definition Create (req : PlanRequest (streamModel elem))
    (resp : HandlerResponse (streamModel elem))
  : M (HandlerResponse (streamModel elem)) :=
  let '(diags, plan) := Plan_Get req in
  let resp := append_diags diags resp in
  if HasError (Diagnostics resp) then mret resp
  else
    let '(pubKeys, err) := keysToPayload (PublicKeys plan) in
    match err with
    | Some e => mret (add_error "Error building public keys" e resp)
    | None =>
    let '(privKeys, err) := keysToPayload (PrivateKeys plan) in
    match err with
    | Some e => mret (add_error "Error building private keys" e resp)
    | None =>
    let hasKeys := negb (is_nil pubKeys) || negb (is_nil privKeys) in
    tflog LevelDebug "creating stream (step 1: POST without keys)"
      {[ "id" := VString (ValueString (ID plan)) ]};;
    '(_, err) ← client.Create lib env (ValueString (WorkspaceID plan))
                  "stream" (base_payload plan);
    match err with
    | Some e => mret (add_error "Error creating stream" e resp)
    | None =>
        if hasKeys then
          tflog LevelDebug "setting stream keys (step 2: PUT with plaintext keys)"
            {[ "id" := VString (ValueString (ID plan)) ]};;
          let updatePayload :=
            with_keys "privateKeys" privKeys
              (with_keys "publicKeys" pubKeys (base_payload plan)) in
          '(_, err) ← client.Update lib env (ValueString (WorkspaceID plan))
                        "stream" (ValueString (ID plan)) updatePayload;
          match err with
          | Some e =>
              rollbackErr ← client.Delete lib env
                              (ValueString (WorkspaceID plan)) "stream"
                              (ValueString (ID plan));
              match rollbackErr with
              | Some re =>
                  mret (add_error "Error setting stream keys"
                          (e +:+ ". Rollback failed for stream " +:+
                           Quote lib (ValueString (ID plan)) +:+ ": " +:+ re)
                          resp)
              | None =>
                  mret (add_error "Error setting stream keys"
                          (e +:+ ". Rolled back newly-created stream " +:+
                           Quote lib (ValueString (ID plan)) +:+ ".") resp)
              end
          | None => mret (State_Set plan resp)
          end
        else mret (State_Set plan resp)
    end
    end
    end.

(** [func (r *streamResource) Read]; the keys are left as the state has
    them. *)
Definition Read (req : StateRequest (streamModel elem))
    (resp : HandlerResponse (streamModel elem))
  : M (HandlerResponse (streamModel elem)) :=
  let '(diags, state) := State_Get req in
  let resp := append_diags diags resp in
  if HasError (Diagnostics resp) then mret resp
  else
    '(result, err) ← client.Read lib env (ValueString (WorkspaceID state))
                       "stream" (ValueString (ID state));
    match err with
    | Some e => mret (add_error "Error reading stream" e resp)
    | None =>
        match result with
        | None => mret (State_RemoveResource resp)
        | Some _ =>
            let state := {| WorkspaceID := WorkspaceID state;
                            ID := ID state;
                            Name := string_or "name" result (Name state);
                            PublicKeys := PublicKeys state;
                            PrivateKeys := PrivateKeys state |} in
            mret (State_Set state resp)
        end
    end.

(** [func (r *streamResource) Update]. *)
Definition Update (req : UpdateRequest (streamModel elem))
    (resp : HandlerResponse (streamModel elem))
  : M (HandlerResponse (streamModel elem)) :=
  let '(diags, plan) := UPlan_Get req in
  let resp := append_diags diags resp in
  if HasError (Diagnostics resp) then mret resp
  else
    let payload := base_payload plan in
    let '(pubKeys, err) := keysToPayload (PublicKeys plan) in
    match err with
    | Some e => mret (add_error "Error building public keys" e resp)
    | None =>
    let payload := with_keys "publicKeys" pubKeys payload in
    let '(privKeys, err) := keysToPayload (PrivateKeys plan) in
    match err with
    | Some e => mret (add_error "Error building private keys" e resp)
    | None =>
    let payload := with_keys "privateKeys" privKeys payload in
    '(_, err) ← client.Update lib env (ValueString (WorkspaceID plan))
                  "stream" (ValueString (ID plan)) payload;
    match err with
    | Some e => mret (add_error "Error updating stream" e resp)
    | None => mret (State_Set plan resp)
    end
    end
    end.

(** [func (r *streamResource) Delete]. *)
Definition Delete (req : StateRequest (streamModel elem))
    (resp : HandlerResponse (streamModel elem))
  : M (HandlerResponse (streamModel elem)) :=
  let '(diags, state) := State_Get req in
  let resp := append_diags diags resp in
  if HasError (Diagnostics resp) then mret resp
  else
    err ← client.Delete lib env (ValueString (WorkspaceID state))
            "stream" (ValueString (ID state));
    match err with
    | Some e => mret (add_error "Error deleting stream" e resp)
    | None => mret resp
    end.

(** [func (r *streamResource) ImportState]. *)
Definition ImportState (req : ImportStateRequest)
    (resp : HandlerResponse (streamModel elem))
  : M (HandlerResponse (streamModel elem)) :=
  match splitImportID (ImportID req) 2 with
  | None =>
      mret (add_error "Invalid import ID"
              "Expected format: workspace_id/stream_id" resp)
  | Some parts =>
      '(result, err) ← client.Read lib env (part 0 parts) "stream"
                         (part 1 parts);
      match err with
      | Some e => mret (add_error "Error importing stream" e resp)
      | None =>
          match result with
          | None =>
              mret (add_error "Stream not found"
                      ("Stream " +:+ part 1 parts +:+
                       " not found in workspace " +:+ part 0 parts) resp)
          | Some _ =>
              let state :=
                {| WorkspaceID := StringValue (part 0 parts);
                   ID := StringValue (part 1 parts);
                   Name := string_or "name" result StringNull;
                   PublicKeys := ListNull;
                   PrivateKeys := ListNull |} in
              mret (State_Set state resp)
          end
      end
  end.

End WithEnv.
End stream_resource.

(** ** The destination resource *)

Module destination_resource.
Import client resources handlers.

(** [type destinationModel struct]. *)
Record destinationModel (elem : Type) : Type := {
  WorkspaceID : tfString;
  ID : tfString;
  Name : tfString;
  DestinationType : tfString;
  Protocol : tfString;
  Hosts : tfList elem;
  Username : tfString;
  Password : tfString;
  Database : tfString
}.
Arguments WorkspaceID {elem} _.
Arguments ID {elem} _.
Arguments Name {elem} _.
Arguments DestinationType {elem} _.
Arguments Protocol {elem} _.
Arguments Hosts {elem} _.
Arguments Username {elem} _.
Arguments Password {elem} _.
Arguments Database {elem} _.

(** [!v.IsNull() && !v.IsUnknown()]. *)
Definition is_known (v : tfString) : bool :=
  match v with
  | StringValue _ => true
  | StringNull | StringUnknown => false
  end.

(** [if !v.IsNull() && !v.IsUnknown() { payload[key] = v.ValueString() }]. *)
Definition with_string (key : string) (v : tfString) (payload : object)
  : object :=
  if is_known v then <[key := VString (ValueString v)]> payload else payload.

(** A [[]string] in a payload, as [json.Marshal] encodes it: the nil slice
    is written as null. *)
Definition strings_value (hosts : option (list string)) : value :=
  match hosts with
  | Some l => VList (List.map VString l)
  | None => VNil
  end.

(** [if v, ok := result[key].(string); ok { ... } else { field =
    types.StringNull() }]. *)
Definition string_or_null (key : string) (result : option object) : tfString :=
  string_or key result StringNull.

(** The assertion [result[key].([]interface{})]. *)
Definition list_field (key : string) (m : option object) : list value * bool :=
  match m with
  | Some o =>
      match o !! key with
      | Some (VList l) => (l, true)
      | _ => ([], false)
      end
  | None => ([], false)
  end.

(** The strings among the hosts; other values are skipped. *)
Definition host_strings (hosts : list value) : list string :=
  omap (fun h => match h with VString s => Some s | _ => None end) hosts.

Section WithEnv.
Context (lib : Lib) (env : Env).
(** The framework: the values a list holds, [plan.Hosts.ElementsAs(ctx,
    &hosts, false)] into [[]string] ([None]: the slice stays nil),
    [types.ListValueFrom(ctx, types.StringType, hostStrs)], and [fmt.Sprintf]
    with the verb [%v] on diagnostics. *)
Context (elem : Type)
        (ElementsAs : tfList elem -> list Diagnostic * option (list string))
        (ListValueFrom : list string -> tfList elem * list Diagnostic)
        (Sprint : list Diagnostic -> string).

(** [func (r *destinationResource) buildPayload]: the payload, or the
    error next to the nil map. *)
Definition buildPayload (plan : destinationModel elem) : result object :=
  let payload : object :=
    <["id" := VString (ValueString (ID plan))]>
      (<["workspaceId" := VString (ValueString (WorkspaceID plan))]>
         (<["type" := VString "destination"]>
            (<["name" := VString (ValueString (Name plan))]>
               (<["destinationType" :=
                    VString (ValueString (DestinationType plan))]> ∅)))) in
  let payload := with_string "protocol" (Protocol plan) payload in
  let '(diags, hosts) := ElementsAs (Hosts plan) in
  if HasError diags
  then Err ("reading hosts: " +:+ Sprint (Errors diags))
  else
    let payload := <["hosts" := strings_value hosts]> payload in
    let payload := with_string "username" (Username plan) payload in
    let payload := with_string "password" (Password plan) payload in
    let payload := with_string "database" (Database plan) payload in
    Ok payload.

(** [func (r *destinationResource) readAPIIntoState]: the diagnostics it
    returns and the state it leaves. *)
Definition readAPIIntoState (result : option object)
    (state : destinationModel elem)
  : list Diagnostic * destinationModel elem :=
  let '(hosts, ok) := list_field "hosts" result in
  let '(diags, hostList) :=
    if ok then
      let '(hostList, d) := ListValueFrom (host_strings hosts) in
      (Append d [], if HasError d then ListNull else hostList)
    else ([], ListNull) in
  (diags,
   {| WorkspaceID := WorkspaceID state;
      ID := ID state;
      Name := string_or "name" result (Name state);
      DestinationType :=
        string_or "destinationType" result (DestinationType state);
      Protocol := string_or_null "protocol" result;
      Hosts := hostList;
      Username := string_or_null "username" result;
      Password := Password state;
      Database := string_or_null "database" result |}).

(** [func (r *destinationResource) Create]. *)
Definition Create (req : PlanRequest (destinationModel elem))
    (resp : HandlerResponse (destinationModel elem))
  : M (HandlerResponse (destinationModel elem)) :=
  let '(diags, plan) := Plan_Get req in
  let resp := append_diags diags resp in
  if HasError (Diagnostics resp) then mret resp
  else
    match buildPayload plan with
    | Err e => mret (add_error "Error building payload" e resp)
    | Ok payload =>
        '(_, err) ← client.Create lib env (ValueString (WorkspaceID plan))
                      "destination" payload;
        match err with
        | Some e => mret (add_error "Error creating destination" e resp)
        | None => mret (State_Set plan resp)
        end
    end.

(** [func (r *destinationResource) Read]. *)
Definition Read (req : StateRequest (destinationModel elem))
    (resp : HandlerResponse (destinationModel elem))
  : M (HandlerResponse (destinationModel elem)) :=
  let '(diags, state) := State_Get req in
  let resp := append_diags diags resp in
  if HasError (Diagnostics resp) then mret resp
  else
    '(result, err) ← client.Read lib env (ValueString (WorkspaceID state))
                       "destination" (ValueString (ID state));
    match err with
    | Some e => mret (add_error "Error reading destination" e resp)
    | None =>
        match result with
        | None => mret (State_RemoveResource resp)
        | Some _ =>
            let '(diags, state) := readAPIIntoState result state in
            mret (State_Set state (append_diags diags resp))
        end
    end.

(** [func (r *destinationResource) Update]. *)
Definition Update (req : UpdateRequest (destinationModel elem))
    (resp : HandlerResponse (destinationModel elem))
  : M (HandlerResponse (destinationModel elem)) :=
  let '(diags, plan) := UPlan_Get req in
  let resp := append_diags diags resp in
  if HasError (Diagnostics resp) then mret resp
  else
    match buildPayload plan with
    | Err e => mret (add_error "Error building payload" e resp)
    | Ok payload =>
        '(_, err) ← client.Update lib env (ValueString (WorkspaceID plan))
                      "destination" (ValueString (ID plan)) payload;
        match err with
        | Some e => mret (add_error "Error updating destination" e resp)
        | None => mret (State_Set plan resp)
        end
    end.

(** [func (r *destinationResource) Delete]. *)
Definition Delete (req : StateRequest (destinationModel elem))
    (resp : HandlerResponse (destinationModel elem))
  : M (HandlerResponse (destinationModel elem)) :=
  let '(diags, state) := State_Get req in
  let resp := append_diags diags resp in
  if HasError (Diagnostics resp) then mret resp
  else
    err ← client.Delete lib env (ValueString (WorkspaceID state))
            "destination" (ValueString (ID state));
    match err with
    | Some e => mret (add_error "Error deleting destination" e resp)
    | None => mret resp
    end.

(** [func (r *destinationResource) ImportState]. *)
Definition ImportState (req : ImportStateRequest)
    (resp : HandlerResponse (destinationModel elem))
  : M (HandlerResponse (destinationModel elem)) :=
  match splitImportID (ImportID req) 2 with
  | None =>
      mret (add_error "Invalid import ID"
              "Expected format: workspace_id/destination_id" resp)
  | Some parts =>
      '(result, err) ← client.Read lib env (part 0 parts) "destination"
                         (part 1 parts);
      match err with
      | Some e => mret (add_error "Error importing destination" e resp)
      | None =>
          match result with
          | None =>
              mret (add_error "Destination not found"
                      ("Destination " +:+ part 1 parts +:+
                       " not found in workspace " +:+ part 0 parts) resp)
          | Some _ =>
              let state :=
                {| WorkspaceID := StringValue (part 0 parts);
                   ID := StringValue (part 1 parts);
                   Name := StringNull;
                   DestinationType := StringNull;
                   Protocol := StringNull;
                   Hosts := ListNull;
                   Username := StringNull;
                   Password := StringNull;
                   Database := StringNull |} in
              let '(diags, state) := readAPIIntoState result state in
              mret (State_Set state (append_diags diags resp))
          end
      end
  end.

End WithEnv.
End destination_resource.

(** ** The provider *)

Module provider.
Import client resources.

(** [type jitsuProviderModel struct]. *)
Record jitsuProviderModel : Type := {
  ConsoleURL : tfString;
  Username : tfString;
  Password : tfString;
  DatabaseURL : tfString
}.

(** [provider.ConfigureRequest], reduced to what [req.Config.Get] yields. *)
Record ConfigureRequest : Type := {
  Config_Get : list Diagnostic * jitsuProviderModel
}.

(** [provider.ConfigureResponse]; [None] is the nil interface. *)
Record ConfigureResponse : Type := {
  Diagnostics : list Diagnostic;
  ResourceData : option Client;
  DataSourceData : option Client
}.

Definition IsNull (v : tfString) : bool :=
  match v with
  | StringNull => true
  | StringUnknown | StringValue _ => false
  end.

(** [Diagnostics.AddWarning]. *)
Definition AddWarning (summary' detail' : string) (diags : list Diagnostic)
  : list Diagnostic :=
  Append [{| severity := SeverityWarning; summary := summary';
             detail := detail' |}] diags.

Definition with_diags (f : list Diagnostic -> list Diagnostic)
    (resp : ConfigureResponse) : ConfigureResponse :=
  {| Diagnostics := f (Diagnostics resp); ResourceData := ResourceData resp;
     DataSourceData := DataSourceData resp |}.

Section WithEnvironment.
(** [os.Getenv]. *)
Context (Getenv : string -> string).

(** [x := os.Getenv(name); if !v.IsNull() { x = v.ValueString() }]. *)
Definition env_or_config (name : string) (v : tfString) : string :=
  if negb (IsNull v) then ValueString v else Getenv name.

(** [func (p *jitsuProvider) Configure]; [version] is [p.version]. *)
Definition Configure (version : string) (req : ConfigureRequest)
    (resp : ConfigureResponse) : ConfigureResponse :=
  let '(diags, config) := Config_Get req in
  let resp := with_diags (Append diags) resp in
  if HasError (Diagnostics resp) then resp
  else
    let consoleURL := env_or_config "JITSU_CONSOLE_URL" (ConsoleURL config) in
    if String.eqb consoleURL EmptyString then
      with_diags (AddError "Missing console_url"
                    "Set console_url in provider config or JITSU_CONSOLE_URL env var.")
        resp
    else
      let resp :=
        if negb (HasPrefix consoleURL "https://") then
          with_diags
            (AddWarning "Insecure console_url"
               ("console_url does not use HTTPS. Credentials will be sent unencrypted. " +:+
                "This is acceptable for local development but not recommended for production."))
            resp
        else resp in
      let username := env_or_config "JITSU_USERNAME" (Username config) in
      let password := env_or_config "JITSU_PASSWORD" (Password config) in
      if String.eqb username EmptyString || String.eqb password EmptyString then
        with_diags (AddError "Missing authentication"
                      "Set both username/password in provider config or via JITSU_USERNAME/JITSU_PASSWORD.")
          resp
      else
        let databaseURL :=
          env_or_config "JITSU_DATABASE_URL" (DatabaseURL config) in
        let userAgent := "terraform-provider-jitsu/" +:+ version in
        let c := New consoleURL username password databaseURL userAgent in
        {| Diagnostics := Diagnostics resp; ResourceData := Some c;
           DataSourceData := Some c |}.

End WithEnvironment.
End provider.

(** ** What the handlers leave behind *)

(** A handler that ends with an error in its diagnostics has left the state
    of the response as it found it. *)
Definition keeps_state_on_error {model : Type}
    (h : handlers.HandlerResponse model ->
         client.M (handlers.HandlerResponse model)) : Prop :=
  forall resp w,
    resources.HasError (handlers.Diagnostics resp) = false ->
    resources.HasError (handlers.Diagnostics (fst (h resp w))) = true ->
    handlers.State (fst (h resp w)) = handlers.State resp.

(** [id] is [a], a slash and [b], both non-empty and without a slash. *)
Definition two_part (id a b : string) : Prop :=
  a <> EmptyString /\ b <> EmptyString /\
  mem_char handlers.slash a = false /\ mem_char handlers.slash b = false /\
  id = a +:+ "/" +:+ b.

(** An import handler that takes [workspace/id] identifiers: an identifier
    of another shape is refused before anything is sent, and a state stored
    for an import carries the two parts of the identifier. *)
Definition imports_two_part_ids {model : Type}
    (h : handlers.ImportStateRequest -> handlers.HandlerResponse model ->
         client.M (handlers.HandlerResponse model))
    (workspace_of id_of : model -> resources.tfString) : Prop :=
  forall req resp w,
    ((forall a b, ~ two_part (handlers.ImportID req) a b) ->
     snd (h req resp w) = w /\
     handlers.State (fst (h req resp w)) = handlers.State resp /\
     resources.HasError (handlers.Diagnostics (fst (h req resp w))) = true) /\
    (forall st,
       handlers.State resp = None ->
       handlers.State (fst (h req resp w)) = Some st ->
       exists a b,
         workspace_of st = resources.StringValue a /\
         id_of st = resources.StringValue b /\
         two_part (handlers.ImportID req) a b).

(** The environment variable [name] is read for an attribute the
    configuration leaves null. *)
Definition consulted (config : provider.jitsuProviderModel) (name : string)
  : bool :=
  String.eqb name "JITSU_CONSOLE_URL" && provider.IsNull (provider.ConsoleURL config)
  || String.eqb name "JITSU_USERNAME" && provider.IsNull (provider.Username config)
  || String.eqb name "JITSU_PASSWORD" && provider.IsNull (provider.Password config)
  || String.eqb name "JITSU_DATABASE_URL" && provider.IsNull (provider.DatabaseURL config).


(** ** Sample plans for the handlers *)

Module HandlerExamples.
Import client resources handlers Examples.

Definition key_k1 : stream_resource.streamKeyModel :=
  {| stream_resource.KeyID := StringValue "k1";
     stream_resource.Plaintext := StringValue "pk" |}.

(** A stream with one public key; the lists of the examples hold key models
    as their elements. *)
Definition stream_plan : stream_resource.streamModel stream_resource.streamKeyModel :=
  {| stream_resource.WorkspaceID := StringValue "w1";
     stream_resource.ID := StringValue "s1";
     stream_resource.Name := StringValue "Events";
     stream_resource.PublicKeys := ListValue [key_k1];
     stream_resource.PrivateKeys := ListNull |}.

(** The conversion of such a list: its elements, no diagnostic. *)
Definition keys_as (elems : list stream_resource.streamKeyModel)
  : list Diagnostic * list stream_resource.streamKeyModel := ([], elems).

(** The summaries of the diagnostics, in place of their [%v] form. *)
Definition sprint (diags : list Diagnostic) : string :=
  join "; " (List.map summary diags).

(** The body of the PUT that sets the key of [stream_plan]. *)
Definition stream_update_doc : string :=
  "{" +:+ quoted "id" +:+ ":" +:+ quoted "s1" +:+ "," +:+
  quoted "name" +:+ ":" +:+ quoted "Events" +:+ "," +:+
  quoted "publicKeys" +:+ ":[{" +:+ quoted "id" +:+ ":" +:+ quoted "k1" +:+
  "," +:+ quoted "plaintext" +:+ ":" +:+ quoted "pk" +:+ "}]," +:+
  quoted "type" +:+ ":" +:+ quoted "stream" +:+ "," +:+
  quoted "workspaceId" +:+ ":" +:+ quoted "w1" +:+ "}".

(** [sample_lib] with an encoder that also knows the payload with keys. *)
Definition keys_lib : Lib :=
  {| PathEscape := PathEscape sample_lib;
     QueryEscape := QueryEscape sample_lib;
     QuoteIdentifier := QuoteIdentifier sample_lib;
     Quote := Quote sample_lib;
     Values_Encode := Values_Encode sample_lib;
     NewRequest := NewRequest sample_lib;
     json_Marshal := fun m =>
       match m !! "publicKeys" with
       | Some _ => Ok stream_update_doc
       | None => json_Marshal sample_lib m
       end;
     json_Unmarshal_csrf := json_Unmarshal_csrf sample_lib;
     json_Unmarshal_object := json_Unmarshal_object sample_lib;
     json_Unmarshal_wrapper := json_Unmarshal_wrapper sample_lib;
     json_Unmarshal_items := json_Unmarshal_items sample_lib |}.

End HandlerExamples.

(** ** A sample destination *)

Module DestinationExamples.
Import client resources handlers.

(** The framework on lists of strings: the elements are the strings. *)
Definition hosts_as (hosts : tfList string)
  : list Diagnostic * option (list string) :=
  match hosts with
  | ListValue l => ([], Some l)
  | ListNull => ([], None)
  | ListUnknown =>
      ([{| severity := SeverityError;
           summary := "Value Conversion Error";
           detail := "unhandled unknown value" |}], None)
  end.

Definition list_from (l : list string) : tfList string * list Diagnostic :=
  (ListValue l, []).

Definition clickhouse_plan : destination_resource.destinationModel string :=
  {| destination_resource.WorkspaceID := StringValue "w1";
     destination_resource.ID := StringValue "d1";
     destination_resource.Name := StringValue "Warehouse";
     destination_resource.DestinationType := StringValue "clickhouse";
     destination_resource.Protocol := StringValue "https";
     destination_resource.Hosts := ListValue ["ch.example.com:8443"];
     destination_resource.Username := StringValue "default";
     destination_resource.Password := StringValue "hunter2";
     destination_resource.Database := StringNull |}.

(** The payload of [clickhouse_plan]: no database, since the plan has
    none. *)
Definition clickhouse_payload : object :=
  <["id" := VString "d1"]>
    (<["workspaceId" := VString "w1"]>
       (<["type" := VString "destination"]>
          (<["name" := VString "Warehouse"]>
             (<["destinationType" := VString "clickhouse"]>
                (<["protocol" := VString "https"]>
                   (<["hosts" := VList [VString "ch.example.com:8443"]]>
                      (<["username" := VString "default"]>
                         (<["password" := VString "hunter2"]> ∅)))))))).

End DestinationExamples.

(** * Properties *)

Import client resources.
Close Scope string_scope.

(** Unfolding of the monad's plumbing. *)
Ltac run :=
  repeat (progress
    (unfold mbind, M_bind, mret, M_ret, get_self, tflog, emit,
       roundtrip, assign_authenticated, markUnauthenticated, ExecContext;
     cbn beta iota zeta delta [fst snd self trace])).

Section Facade.
Context (lib : Lib) (env : Env).

(** *** Read *)

Lemma Read_404 workspaceID resourceType id w body w1 :
  doRequest lib env "GET"
    (configItemURL lib (self w) workspaceID resourceType id) None w
    = ((body, 404, None), w1) ->
  Read lib env workspaceID resourceType id w = ((None, None), w1).
Proof.
  intros H. unfold Read. run. rewrite H. reflexivity.
Qed.

Lemma Read_soft_deleted workspaceID resourceType id w body status w1 o :
  doRequest lib env "GET"
    (configItemURL lib (self w) workspaceID resourceType id) None w
    = ((body, status, None), w1) ->
  200 <= status < 300 ->
  json_Unmarshal_object lib body = Ok (Some o) ->
  o !! "deleted" = Some (VBool true) ->
  Read lib env workspaceID resourceType id w = ((None, None), w1).
Proof.
  intros H Hs Hj Hd. unfold Read. run. rewrite H. cbn beta iota.
  replace (Z.eqb status 404) with false by lia.
  replace (Z.ltb status 200 || Z.leb 300 status) with false by lia.
  rewrite Hj. unfold bool_field. rewrite Hd. reflexivity.
Qed.

(** *** Delete and WorkspaceDelete *)

Lemma Delete_non_2xx workspaceID resourceType id w body status w1 :
  doRequest lib env "DELETE"
    (configItemURL lib (self w) workspaceID resourceType id) None w
    = ((body, status, None), w1) ->
  ~ (200 <= status < 300) ->
  Delete lib env workspaceID resourceType id w
  = (Some (status_error "DELETE"
             (configItemURL lib (self w) workspaceID resourceType id)
             status body), w1).
Proof.
  intros H Hs. unfold Delete. run. rewrite H. cbn beta iota.
  replace (Z.ltb status 200 || Z.leb 300 status) with true by lia.
  reflexivity.
Qed.

Lemma WorkspaceDelete_404 workspaceID w body w1 :
  doRequest lib env "DELETE" (workspaceURL (self w))
    (Some {[ "workspaceId" := VString workspaceID ]}) w
    = ((body, 404, None), w1) ->
  WorkspaceDelete lib env workspaceID w = (None, w1).
Proof.
  intros H. unfold WorkspaceDelete. run. rewrite H. reflexivity.
Qed.

(** *** List *)

Section ListEnvelope.
Context (workspaceID resourceType : string) (w w1 : World)
        (body : string) (status : Z) (wrapper : gmap string string).
Hypothesis Hreq :
  doRequest lib env "GET" (configURL lib (self w) workspaceID resourceType)
    None w = ((body, status, None), w1).
Hypothesis Hstatus : 200 <= status < 300.
Hypothesis Hwrapper : json_Unmarshal_wrapper lib body = Ok (Some wrapper).

Lemma List_unfold :
  List lib env workspaceID resourceType w =
  (match
     match wrapper !! "links" with
     | Some raw => Some raw
     | None => wrapper !! "objects"
     end
   with
   | None => ([], Some "unexpected response format: no 'objects' or 'links' key")
   | Some items =>
       match json_Unmarshal_items lib items with
       | Err e => ([], Some ("unmarshaling items: " +:+ e))
       | Ok result => (result, None)
       end
   end, w1).
Proof.
  unfold List. run. rewrite Hreq. cbn beta iota.
  replace (Z.ltb status 200 || Z.leb 300 status) with false by lia.
  rewrite Hwrapper. cbn.
  destruct (wrapper !! "links") as [raw|].
  - destruct (json_Unmarshal_items lib raw); reflexivity.
  - destruct (wrapper !! "objects") as [raw|]; [|reflexivity].
    destruct (json_Unmarshal_items lib raw); reflexivity.
Qed.

Lemma List_links raw items :
  wrapper !! "links" = Some raw ->
  json_Unmarshal_items lib raw = Ok items ->
  List lib env workspaceID resourceType w = ((items, None), w1).
Proof. intros Hl Hi. rewrite List_unfold, Hl, Hi. reflexivity. Qed.

Lemma List_objects raw items :
  wrapper !! "links" = None ->
  wrapper !! "objects" = Some raw ->
  json_Unmarshal_items lib raw = Ok items ->
  List lib env workspaceID resourceType w = ((items, None), w1).
Proof. intros Hl Ho Hi. rewrite List_unfold, Hl, Ho, Hi. reflexivity. Qed.

Lemma List_neither :
  wrapper !! "links" = None ->
  wrapper !! "objects" = None ->
  List lib env workspaceID resourceType w
  = (([], Some "unexpected response format: no 'objects' or 'links' key"), w1).
Proof. intros Hl Ho. rewrite List_unfold, Hl, Ho. reflexivity. Qed.

End ListEnvelope.

End Facade.

(** * The claims about the facade *)

(** C4.  [Read] gives the same answer, a nil object together with a nil
    error, when the control plane replies 404 and when it replies with a
    2xx status and a body whose [deleted] field is [true]: from the result
    the caller cannot tell an object that never existed from a soft-deleted
    one. *)
Theorem Read_absent_and_soft_deleted_agree
    (lib : Lib) (env env' : Env)
    (workspaceID resourceType id : string) (w w1 w' w1' : World)
    (body body' : string) (status : Z) (o : object) :
  doRequest lib env "GET"
    (configItemURL lib (self w) workspaceID resourceType id) None w
    = ((body, 404, None), w1) ->
  doRequest lib env' "GET"
    (configItemURL lib (self w') workspaceID resourceType id) None w'
    = ((body', status, None), w1') ->
  200 <= status < 300 ->
  json_Unmarshal_object lib body' = Ok (Some o) ->
  o !! "deleted" = Some (VBool true) ->
  fst (Read lib env workspaceID resourceType id w) = (None, None) /\
  fst (Read lib env' workspaceID resourceType id w') = (None, None) /\
  fst (Read lib env workspaceID resourceType id w)
  = fst (Read lib env' workspaceID resourceType id w').
Proof.
  intros H404 H2xx Hs Hj Hd.
  rewrite (Read_404 lib env _ _ _ _ _ _ H404).
  rewrite (Read_soft_deleted lib env' _ _ _ _ _ _ _ _ H2xx Hs Hj Hd).
  repeat split.
Qed.

Import Examples.

Lemma Read_absent_and_soft_deleted_agree_example :
  let gone := scripted [Response 404 "not found"] None [] in
  let soft := scripted [Response 200 (text_of stream_s1_deleted)] None [] in
  let w := logged_in sample_client in
  fst (Read sample_lib gone "ws" "stream" "s1" w) = (None, None) /\
  fst (Read sample_lib soft "ws" "stream" "s1" w) = (None, None) /\
  fst (Read sample_lib gone "ws" "stream" "s1" w)
  = fst (Read sample_lib soft "ws" "stream" "s1" w).
Proof.
  intros gone soft w.
  apply (Read_absent_and_soft_deleted_agree sample_lib gone soft
           "ws" "stream" "s1" w
           (snd (doRequest sample_lib gone "GET"
                   (configItemURL sample_lib (self w) "ws" "stream" "s1") None w))
           w
           (snd (doRequest sample_lib soft "GET"
                   (configItemURL sample_lib (self w) "ws" "stream" "s1") None w))
           "not found" (text_of stream_s1_deleted) 200 stream_s1_deleted).
  - vm_compute. reflexivity.
  - vm_compute. reflexivity.
  - lia.
  - vm_compute. reflexivity.
  - vm_compute. reflexivity.
Defined.

(** C10.  [WorkspaceDelete] returns a nil error when the DELETE is answered
    with 404: deleting a workspace that is absent or already deleted is not
    an error.  [Delete] of a configuration object has no such case: every
    status outside 2xx, so 404 too, comes back as an error carrying the
    method, the URL, the status and the body. *)
Theorem WorkspaceDelete_tolerates_404_Delete_does_not
    (lib : Lib) (env env' : Env)
    (workspaceID resourceType id : string) (w w1 w' w1' : World)
    (body body' : string) (status : Z) :
  doRequest lib env "DELETE" (workspaceURL (self w))
    (Some {[ "workspaceId" := VString workspaceID ]}) w
    = ((body, 404, None), w1) ->
  doRequest lib env' "DELETE"
    (configItemURL lib (self w') workspaceID resourceType id) None w'
    = ((body', status, None), w1') ->
  ~ (200 <= status < 300) ->
  WorkspaceDelete lib env workspaceID w = (None, w1) /\
  Delete lib env' workspaceID resourceType id w'
  = (Some ("DELETE " +:+ configItemURL lib (self w') workspaceID resourceType id
           +:+ " returned " +:+ itoa status +:+ ": " +:+ body'), w1').
Proof.
  intros Hw Hd Hs. split.
  - exact (WorkspaceDelete_404 lib env _ _ _ _ Hw).
  - exact (Delete_non_2xx lib env' _ _ _ _ _ _ _ Hd Hs).
Qed.

Lemma WorkspaceDelete_tolerates_404_Delete_does_not_example :
  let gone := scripted [Response 404 "not found"] None [] in
  let w := logged_in sample_client in
  fst (WorkspaceDelete sample_lib gone "w1" w) = None /\
  fst (Delete sample_lib gone "w1" "stream" "s1" w)
  = Some "DELETE https://jitsu.example.com/api/w1/config/stream/s1 returned 404: not found".
Proof.
  intros gone w.
  destruct (WorkspaceDelete_tolerates_404_Delete_does_not sample_lib gone gone
              "w1" "stream" "s1" w
              (snd (doRequest sample_lib gone "DELETE" (workspaceURL (self w))
                      (Some {[ "workspaceId" := VString "w1" ]}) w))
              w
              (snd (doRequest sample_lib gone "DELETE"
                      (configItemURL sample_lib (self w) "w1" "stream" "s1")
                      None w))
              "not found" "not found" 404) as [Hw Hd].
  - vm_compute. reflexivity.
  - vm_compute. reflexivity.
  - lia.
  - rewrite Hw, Hd. split; [reflexivity | vm_compute; reflexivity].
Defined.

(** C9.  On a 2xx response whose body is a JSON object, [List] returns the
    items of the array stored under [links], or, when there is no [links]
    key, of the array stored under [objects]; both envelopes give the same
    kind of sequence.  When neither key is present it fails with the error
    [unexpected response format: no 'objects' or 'links' key]. *)
Theorem List_reads_either_envelope
    (lib : Lib) (env : Env) (workspaceID resourceType : string)
    (w w1 : World) (body : string) (status : Z)
    (wrapper : gmap string string) :
  doRequest lib env "GET" (configURL lib (self w) workspaceID resourceType)
    None w = ((body, status, None), w1) ->
  200 <= status < 300 ->
  json_Unmarshal_wrapper lib body = Ok (Some wrapper) ->
  (forall raw items,
      wrapper !! "links" = Some raw ->
      json_Unmarshal_items lib raw = Ok items ->
      List lib env workspaceID resourceType w = ((items, None), w1)) /\
  (forall raw items,
      wrapper !! "links" = None ->
      wrapper !! "objects" = Some raw ->
      json_Unmarshal_items lib raw = Ok items ->
      List lib env workspaceID resourceType w = ((items, None), w1)) /\
  (wrapper !! "links" = None ->
   wrapper !! "objects" = None ->
   List lib env workspaceID resourceType w
   = (([], Some "unexpected response format: no 'objects' or 'links' key"), w1)).
Proof.
  intros Hreq Hs Hw. repeat split.
  - intros raw items. apply (List_links lib env _ _ _ _ _ _ _ Hreq Hs Hw).
  - intros raw items. apply (List_objects lib env _ _ _ _ _ _ _ Hreq Hs Hw).
  - apply (List_neither lib env _ _ _ _ _ _ _ Hreq Hs Hw).
Qed.

Lemma List_reads_either_envelope_example :
  let w := logged_in sample_client in
  let objects_doc := wrapper_doc "objects" (array_of [text_of stream_s1]) in
  let links_doc := wrapper_doc "links" (array_of [text_of link_l1]) in
  fst (List sample_lib (scripted [Response 200 objects_doc] None [])
         "ws" "stream" w) = ([Some stream_s1], None) /\
  fst (List sample_lib (scripted [Response 200 links_doc] None [])
         "ws" "link" w) = ([Some link_l1], None) /\
  fst (List sample_lib (scripted [Response 200 "{}"] None []) "ws" "stream" w)
  = ([], Some "unexpected response format: no 'objects' or 'links' key").
Proof.
  intros w objects_doc links_doc.
  pose (run := fun doc ty =>
          snd (doRequest sample_lib (scripted [Response 200 doc] None []) "GET"
                 (configURL sample_lib (self w) "ws" ty) None w)).
  destruct (List_reads_either_envelope sample_lib
              (scripted [Response 200 objects_doc] None []) "ws" "stream" w
              (run objects_doc "stream") objects_doc 200
              {[ "objects" := array_of [text_of stream_s1] ]})
    as (_ & Hobjects & _);
    [vm_compute; reflexivity | lia | vm_compute; reflexivity |].
  destruct (List_reads_either_envelope sample_lib
              (scripted [Response 200 links_doc] None []) "ws" "link" w
              (run links_doc "link") links_doc 200
              {[ "links" := array_of [text_of link_l1] ]})
    as (Hlinks & _ & _);
    [vm_compute; reflexivity | lia | vm_compute; reflexivity |].
  destruct (List_reads_either_envelope sample_lib
              (scripted [Response 200 "{}"] None []) "ws" "stream" w
              (run "{}" "stream") "{}" 200 ∅)
    as (_ & _ & Hneither);
    [vm_compute; reflexivity | lia | vm_compute; reflexivity |].
  rewrite (Hobjects (array_of [text_of stream_s1]) [Some stream_s1]);
    [| vm_compute; reflexivity ..].
  rewrite (Hlinks (array_of [text_of link_l1]) [Some link_l1]);
    [| vm_compute; reflexivity ..].
  rewrite Hneither; [| vm_compute; reflexivity ..].
  repeat split.
Defined.

(** * The reconciler *)

Section StringFacts.

Lemma append_nil t : EmptyString +:+ t = t.
Proof. reflexivity. Qed.

Lemma append_cons c s t : String c s +:+ t = String c (s +:+ t).
Proof. reflexivity. Qed.

Lemma HasPrefix_nil s : HasPrefix s EmptyString = true.
Proof. destruct s; reflexivity. Qed.

Lemma HasPrefix_app_l s t p : HasPrefix s p = true -> HasPrefix (s +:+ t) p = true.
Proof.
  revert p. induction s as [|c s IH]; intros p; destruct p as [|a p];
    rewrite ?append_nil, ?append_cons, ?HasPrefix_nil; cbn; try congruence.
  destruct (Ascii.eqb a c); [apply IH | congruence].
Qed.

Lemma Contains_app_l s t p : Contains s p = true -> Contains (s +:+ t) p = true.
Proof.
  induction s as [|c s IH].
  - cbn. rewrite orb_false_r. destruct p; [|discriminate].
    intros _. destruct t; reflexivity.
  - rewrite append_cons. cbn -[HasPrefix].
    intros [H|H]%orb_true_iff; apply orb_true_iff.
    + left. rewrite <- append_cons. exact (HasPrefix_app_l (String c s) t p H).
    + right. exact (IH H).
Qed.

Lemma Contains_app_r s t p : Contains t p = true -> Contains (s +:+ t) p = true.
Proof.
  intros H. induction s as [|c s IH]; [exact H|].
  rewrite append_cons. cbn -[HasPrefix]. rewrite IH. apply orb_true_r.
Qed.

End StringFacts.

Section TraceFacts.

Lemma count_app p (xs ys : list Event) :
  count p (xs ++ ys) = (count p xs + count p ys)%nat.
Proof. unfold count. rewrite List.filter_app, length_app. reflexivity. Qed.

Lemma statements_app (xs ys : list Event) :
  statements (xs ++ ys) = statements xs ++ statements ys.
Proof. apply omap_app. Qed.

Lemma sent_app (xs ys : list Event) : sent (xs ++ ys) = sent xs ++ sent ys.
Proof. apply omap_app. Qed.

End TraceFacts.

Section Reconciler.
Context (lib : Lib) (env : Env).

Lemma getDB_unconfigured w :
  databaseURL (self w) = EmptyString ->
  getDB env w = (Err database_url_missing, w).
Proof.
  intros H. unfold getDB. run. rewrite H. reflexivity.
Qed.

Lemma hardDeleteSoftDeleted_unconfigured id table w :
  databaseURL (self w) = EmptyString ->
  hardDeleteSoftDeleted lib env id table w
  = (Some ("cannot purge soft-deleted " +:+ Quote lib id +:+ ": " +:+
           database_url_missing), w).
Proof.
  intros H. unfold hardDeleteSoftDeleted. run.
  rewrite (getDB_unconfigured w H). reflexivity.
Qed.

(** [getDB] leaves the session alone and issues no statement. *)
Lemma getDB_trace w r w' :
  getDB env w = (r, w') ->
  exists evs,
    trace w' = trace w ++ evs /\ statements evs = [] /\
    count is_send evs = 0%nat /\ count is_purge_warning evs = 0%nat /\
    consoleURL (self w') = consoleURL (self w) /\
    authenticated (self w') = authenticated (self w) /\
    username (self w') = username (self w) /\
    password (self w') = password (self w).
Proof.
  unfold getDB. run.
  destruct (String.eqb (databaseURL (self w)) EmptyString).
  { intros [= <- <-]. exists []. rewrite app_nil_r. repeat split. }
  destruct (db (self w)) as [r0|].
  { intros [= <- <-]. exists []. rewrite app_nil_r. repeat split. }
  intros [= <- <-]. eexists. cbn [trace self]. repeat split.
Qed.

End Reconciler.

Section Purge.
Context (lib : Lib) (env : Env).

(** The shape of a purge of an object id: which statements reach the
    database, in which order, and what comes back. *)
Lemma hardDeleteSoftDeleted_object_shape id w :
  let q1 := Store.sql_text lib Store.DeleteReferencingLinks in
  let q2 := Store.sql_text lib (Store.DeleteSoftDeleted "ConfigurationObject") in
  exists evs,
    trace (snd (hardDeleteSoftDeleted lib env id "ConfigurationObject" w))
    = trace w ++ evs /\
    let r := fst (hardDeleteSoftDeleted lib env id "ConfigurationObject" w) in
    (statements evs = [] /\ r <> None /\ count is_purge_warning evs = 0%nat)
    \/ (exists e, statements evs = [(q1, [id], Some e)] /\ r <> None /\
                  count is_purge_warning evs = 1%nat)
    \/ (exists e2, statements evs = [(q1, [id], None); (q2, [id], e2)] /\
                   (r = None <-> e2 = None) /\
                   count is_purge_warning evs = 1%nat).
Proof.
  intros q1 q2. unfold hardDeleteSoftDeleted. run.
  destruct (getDB env w) as [[d|e] w0] eqn:Hdb;
    destruct (getDB_trace env _ _ _ Hdb) as (evs0 & Htr & Hst & _ & Hpw & _).
  2:{ exists evs0. cbn [fst snd]. split; [exact Htr|]. left. repeat split; auto. }
  change (String.eqb "ConfigurationObject" "ConfigurationObject") with true.
  run.
  set (tr1 := trace w0 ++ [_]).
  destruct (sql_ExecContext env tr1 _ [id]) as [e|] eqn:H1; run.
  - exists (evs0 ++ [EvLog LevelWarn "hard-deleting soft-deleted row for re-creation"
                       (<["id":=VString id]> (<["table":=VString "ConfigurationObject"]> ∅));
                     EvSqlExec q1 [id] (Some e)]).
    split.
    { subst tr1. rewrite Htr, <- !app_assoc. reflexivity. }
    right. left. exists e. rewrite statements_app, count_app, Hst, Hpw. repeat split. discriminate.
  - set (tr2 := tr1 ++ [_]).
    destruct (sql_ExecContext env tr2 _ [id]) as [e2|] eqn:H2; run.
    + exists (evs0 ++ [EvLog LevelWarn "hard-deleting soft-deleted row for re-creation"
                         (<["id":=VString id]> (<["table":=VString "ConfigurationObject"]> ∅));
                       EvSqlExec q1 [id] None; EvSqlExec q2 [id] (Some e2)]).
      split.
      { subst tr2 tr1. rewrite Htr, <- !app_assoc. reflexivity. }
      right. right. exists (Some e2). rewrite statements_app, count_app, Hst, Hpw.
      repeat split; discriminate.
    + exists (evs0 ++ [EvLog LevelWarn "hard-deleting soft-deleted row for re-creation"
                         (<["id":=VString id]> (<["table":=VString "ConfigurationObject"]> ∅));
                       EvSqlExec q1 [id] None; EvSqlExec q2 [id] None]).
      split.
      { subst tr2 tr1. rewrite Htr, <- !app_assoc. reflexivity. }
      right. right. exists None. rewrite statements_app, count_app, Hst, Hpw.
      repeat split.
Qed.

End Purge.

(** * The session manager *)

Section Session.
Context (lib : Lib) (env : Env).

Lemma set_authenticated_same c :
  authenticated c = true -> set_authenticated true c = c.
Proof. destruct c; unfold set_authenticated; cbn; intros ->; reflexivity. Qed.

Lemma authenticate_no_credentials w :
  username (self w) = EmptyString \/ password (self w) = EmptyString ->
  authenticate lib env w
  = (Some "no authentication configured: set username/password", w).
Proof.
  intros H. unfold authenticate. run.
  destruct H as [-> | ->]; [reflexivity|]. rewrite orb_true_r. reflexivity.
Qed.

Lemma authenticate_already w :
  username (self w) <> EmptyString ->
  password (self w) <> EmptyString ->
  authenticated (self w) = true ->
  authenticate lib env w = (None, w).
Proof.
  intros Hu Hp Ha. unfold authenticate. run.
  apply String.eqb_neq in Hu, Hp. rewrite Hu, Hp, Ha. reflexivity.
Qed.

Ltac auth_done :=
  intros [= <- <-]; cbn [trace self]; eexists;
  (split; [rewrite <- ?app_assoc; reflexivity|]);
  cbn; repeat split; try (discriminate || lia || congruence || auto);
  try (intros Hnn; exfalso; apply Hnn; reflexivity).

(** The events of one call of [authenticate] and what it leaves behind. *)
Lemma authenticate_inv w r w' :
  authenticate lib env w = (r, w') ->
  exists evs,
    trace w' = trace w ++ evs /\
    count is_send evs = 0%nat /\
    count is_invalidation evs = 0%nat /\
    count is_purge_warning evs = 0%nat /\
    statements evs = [] /\ sent evs = [] /\
    (count is_csrf_fetch evs <= 1)%nat /\
    (count is_login evs <= 1)%nat /\
    (authenticated (self w) = false -> r = None ->
     count is_csrf_fetch evs = 1%nat /\ count is_login evs = 1%nat) /\
    (authenticated (self w) = true -> evs = []) /\
    (r = None ->
     self w' = set_authenticated true (self w) /\
     username (self w) <> EmptyString /\ password (self w) <> EmptyString) /\
    (r <> None -> self w' = self w).
Proof.
  unfold authenticate, rawRequest. run.
  destruct (String.eqb (username (self w)) EmptyString) eqn:Hu;
    [intros [= <- <-]; exists []; rewrite app_nil_r;
     repeat split; (discriminate || lia || auto)|].
  destruct (String.eqb (password (self w)) EmptyString) eqn:Hp;
    [intros [= <- <-]; exists []; rewrite app_nil_r;
     repeat split; (discriminate || lia || auto)|].
  apply String.eqb_neq in Hu, Hp. cbn [orb].
  destruct (authenticated (self w)) eqn:Ha.
  { intros [= <- <-]. exists []. rewrite app_nil_r.
    repeat split; try (discriminate || lia || auto).
    symmetry. apply set_authenticated_same, Ha. }
  destruct (NewRequest lib "GET" (csrf_url (self w))) as [e|].
  { run. intros [= <- <-]. exists []. rewrite app_nil_r.
    repeat split; (discriminate || lia || auto). }
  run.
  destruct (http_roundtrip env (trace w) SiteRaw _) as [e|st e|st body]; run;
    try auth_done.
  destruct (Z.ltb st 200 || Z.leb 300 st); run; try auth_done.
  destruct (json_Unmarshal_csrf lib body) as [token|e]; run; try auth_done.
  destruct (String.eqb token EmptyString); run; try auth_done.
  destruct (NewRequest lib "POST" (login_url (self w))) as [e|]; run;
    try auth_done.
  destruct (http_roundtrip env _ SiteLogin _) as [e|st' e|code lbody]; run;
    try auth_done.
  destruct (Z.ltb code 200 || Z.leb 400 code); run; auth_done.
Qed.

(** On a session that is not yet authenticated, [authenticate] fails exactly
    for one of the listed causes or because the exchange was not completed. *)
Lemma authenticate_fresh_fails_iff w :
  authenticated (self w) = false ->
  fst (authenticate lib env w) <> None <->
  listed_failure lib env w \/ exchange_not_completed lib env w.
Proof.
  intros Ha. unfold listed_failure, exchange_not_completed, credentials_absent,
    token_reply, exchange_outcome, authenticate, rawRequest, csrf_request.
  run.
  destruct (String.eqb (username (self w)) EmptyString) eqn:Hu.
  { apply String.eqb_eq in Hu. cbn. split; [auto | discriminate]. }
  destruct (String.eqb (password (self w)) EmptyString) eqn:Hp.
  { apply String.eqb_eq in Hp. cbn. split; [auto | discriminate]. }
  apply String.eqb_neq in Hu, Hp. cbn [orb]. rewrite Ha.
  destruct (NewRequest lib "GET" (csrf_url (self w))) as [e|]; run.
  { cbn. split; [auto | discriminate]. }
  destruct (http_roundtrip env (trace w) SiteRaw _) as [e|st e|st body] eqn:H1;
    run; try (cbn; split; [auto | discriminate]).
  destruct (Z.ltb st 200 || Z.leb 300 st) eqn:Hst; run.
  { cbn. split; [|discriminate]. intros _. left. right. right. left.
    exists st, body. split; [reflexivity | lia]. }
  destruct (json_Unmarshal_csrf lib body) as [token|e] eqn:Hj; run.
  2:{ cbn. split; [|discriminate]. intros _. left. do 3 right. left.
      exists st, body, e. auto. }
  destruct (String.eqb token EmptyString) eqn:Ht; run.
  { apply String.eqb_eq in Ht. subst token. cbn. split; [|discriminate].
    intros _. left. do 4 right. left. exists st, body. auto. }
  apply String.eqb_neq in Ht.
  destruct (NewRequest lib "POST" (login_url (self w))) as [e|] eqn:Hn; run.
  { cbn. split; [|discriminate]. intros _. right.
    exists st, body, token. repeat split; try lia; auto;
    try (left; congruence). }
  destruct (http_roundtrip env _ SiteLogin _) as [e|st' e|code reply] eqn:H2; run.
  { cbn. split; [|discriminate]. intros _. right.
    exists st, body, token. repeat split; try lia; auto;
    try (right; left; eauto). }
  { cbn. split; [|discriminate]. intros _. right.
    exists st, body, token. repeat split; try lia; auto;
    try (right; right; eauto). }
  destruct (Z.ltb code 200 || Z.leb 400 code) eqn:Hc; run.
  { cbn. split; [|discriminate]. intros _. left. do 5 right.
    exists st, body, token, code, reply. repeat split; auto. lia. }
  cbn. split; [intros Hnn; exfalso; apply Hnn; reflexivity|].
  intros [H|H]; exfalso.
  - destruct H as [[H|H]|[H|[H|[H|[H|H]]]]]; try congruence.
    + destruct H as (? & ? & [= <- <-] & H). lia.
    + destruct H as (? & ? & ? & [= <- <-] & H). congruence.
    + destruct H as (? & ? & [= <- <-] & H). congruence.
    + destruct H as (? & ? & ? & ? & ? & [= <- <-] & Hj' & H & Hr).
      rewrite Hj in Hj'. injection Hj' as <-. rewrite H2 in H.
      injection H as <- <-. lia.
  - destruct H as (? & ? & ? & [= <- <-] & _ & Hj' & _ & H).
    rewrite Hj in Hj'. injection Hj' as <-.
    destruct H as [H|[[? H]|[? [? H]]]]; congruence.
Qed.

(** A completed exchange answered in [200, 400) authenticates the session. *)
Lemma authenticate_accepts_2xx_3xx w status body token code reply :
  authenticated (self w) = false ->
  ~ credentials_absent w ->
  token_reply lib env w = Some (status, body) ->
  200 <= status < 300 ->
  json_Unmarshal_csrf lib body = Ok token ->
  token <> EmptyString ->
  NewRequest lib "POST" (login_url (self w)) = None ->
  exchange_outcome lib env w status body token = Response code reply ->
  200 <= code < 400 ->
  authenticate lib env w
  = (None,
     {| self := set_authenticated true (self w);
        trace := trace w ++
                 [EvHttp SiteRaw (csrf_request (self w)) (Response status body);
                  EvHttp SiteLogin (login_request lib (self w) token)
                    (Response code reply);
                  EvSetAuthenticated true] |}).
Proof.
  unfold credentials_absent, token_reply, exchange_outcome, authenticate,
    rawRequest, csrf_request.
  intros Ha Hc Ht Hs Hj Hne Hn He Hcode. run.
  destruct (String.eqb (username (self w)) EmptyString) eqn:Hu;
    [apply String.eqb_eq in Hu; tauto|].
  destruct (String.eqb (password (self w)) EmptyString) eqn:Hp;
    [apply String.eqb_eq in Hp; tauto|].
  cbn [orb]. rewrite Ha.
  destruct (NewRequest lib "GET" (csrf_url (self w))); [discriminate|]. run.
  destruct (http_roundtrip env (trace w) SiteRaw _) as [?|? ?|st b];
    try discriminate.
  injection Ht as -> ->. run.
  replace (Z.ltb status 200 || Z.leb 300 status) with false by lia.
  rewrite Hj. apply String.eqb_neq in Hne. rewrite Hne, Hn. run.
  rewrite He. run.
  replace (Z.ltb code 200 || Z.leb 400 code) with false by lia.
  run. rewrite <- !app_assoc. reflexivity.
Qed.

End Session.

(** * The request executor *)

Section Executor.
Context (lib : Lib) (env : Env).

Lemma count_is_send evs : count is_send evs = length (sent evs).
Proof.
  induction evs as [|e evs IH]; [reflexivity|].
  destruct e as [[] ? ?| | | |]; cbn in *; auto.
Qed.

Lemma same_config_refl c : same_config c c.
Proof. repeat split. Qed.

Lemma same_config_set_authenticated b c : same_config c (set_authenticated b c).
Proof. repeat split. Qed.

Lemma same_config_trans c1 c2 c3 :
  same_config c1 c2 -> same_config c2 c3 -> same_config c1 c3.
Proof. unfold same_config. intuition congruence. Qed.

Lemma wire_request_config c c' method url body :
  same_config c c' ->
  wire_request lib c' method url body = wire_request lib c method url body.
Proof.
  intros (_ & _ & _ & _ & Hua).
  unfold wire_request, api_request, agent_header. rewrite Hua. reflexivity.
Qed.

Ltac send_done :=
  intros [= <- <-]; cbn [trace self]; (split; [reflexivity|]); eexists;
  (split; [rewrite <- ?app_assoc; first [reflexivity | symmetry; apply app_nil_r]|]);
  cbn; repeat split; try (discriminate || lia || congruence || auto).

(** The events of one call of [send]. *)
Lemma send_inv method url body w r w' :
  send lib env method url body w = (r, w') ->
  self w' = self w /\
  exists evs,
    trace w' = trace w ++ evs /\
    count is_invalidation evs = 0%nat /\
    count is_purge_warning evs = 0%nat /\
    count is_csrf_fetch evs = 0%nat /\
    count is_login evs = 0%nat /\
    statements evs = [] /\
    sent evs = match wire_request lib (self w) method url body with
               | Some rq => [rq]
               | None => []
               end /\
    (snd r = None -> wire_request lib (self w) method url body <> None).
Proof.
  unfold send, wire_request. run.
  destruct body as [b|].
  - destruct (json_Marshal lib b) as [jsonBytes|e]; run; [|send_done].
    destruct (NewRequest lib method url) as [e|]; run; [send_done|].
    destruct (http_roundtrip env _ SiteSend _) as [e|st e|st rb]; run; send_done.
  - destruct (NewRequest lib method url) as [e|]; run; [send_done|].
    destruct (http_roundtrip env _ SiteSend _) as [e|st e|st rb]; run; send_done.
Qed.

Lemma doRequest_no_retry method url body w w1 w2 b1 s1 :
  authenticate lib env w = (None, w1) ->
  send lib env method url body w1 = ((b1, s1, None), w2) ->
  isAuthFailureStatus s1 = false ->
  doRequest lib env method url body w = ((b1, s1, None), w2).
Proof.
  intros Ha Hs Hf. unfold doRequest. run. rewrite Ha, Hs. run. rewrite Hf.
  reflexivity.
Qed.

Lemma doRequest_retry method url body w w1 w2 b1 s1 :
  authenticate lib env w = (None, w1) ->
  send lib env method url body w1 = ((b1, s1, None), w2) ->
  isAuthFailureStatus s1 = true ->
  doRequest lib env method url body w =
  match authenticate lib env (after_invalidation method url s1 w2) with
  | (Some e, w4) =>
      ((EmptyString, 0,
        Some ("re-authenticating after " +:+ itoa s1 +:+ " response: " +:+ e)), w4)
  | (None, w4) =>
      match send lib env method url body w4 with
      | ((_, _, Some e), w5) => ((EmptyString, 0, Some e), w5)
      | ((b2, s2, None), w5) => ((b2, s2, None), w5)
      end
  end.
Proof.
  intros Ha Hs Hf. unfold doRequest. run. rewrite Ha, Hs. run. rewrite Hf.
  run. rewrite <- app_assoc. cbn [app].
  fold (after_invalidation method url s1 w2).
  destruct (authenticate lib env (after_invalidation method url s1 w2))
    as [[e|] w4]; [reflexivity|].
  destruct (send lib env method url body w4) as [[[b2 s2] [e|]] w5]; reflexivity.
Qed.

Ltac conjs :=
  repeat match goal with |- _ /\ _ => split end;
  first [assumption | lia | reflexivity | congruence].

(** Bounds that hold for every call of [doRequest]: at most two sends, at
    most one invalidation, nothing addressed to the database. *)
Lemma doRequest_inv method url body w r w' :
  doRequest lib env method url body w = (r, w') ->
  exists evs,
    trace w' = trace w ++ evs /\
    (count is_send evs <= 2)%nat /\
    (count is_invalidation evs <= 1)%nat /\
    count is_purge_warning evs = 0%nat /\
    statements evs = [] /\
    same_config (self w) (self w') /\
    db (self w') = db (self w).
Proof.
  unfold doRequest. run.
  destruct (authenticate lib env w) as [r1 w1] eqn:Ha.
  destruct (authenticate_inv lib env _ _ _ Ha)
    as (evsA & HtrA & HsA & HiA & HpA & HstA & _ & _ & _ & _ & _ & HokA & HerrA).
  assert (HcfgA : same_config (self w) (self w1) /\ db (self w1) = db (self w)).
  { destruct r1 as [e|].
    - rewrite HerrA by discriminate. split; [apply same_config_refl|reflexivity].
    - destruct (HokA eq_refl) as (-> & _). split;
        [apply same_config_set_authenticated|reflexivity]. }
  destruct HcfgA as [HcfgA HdbA].
  destruct r1 as [e|]; run.
  { intros [= <- <-]. exists evsA. rewrite HsA, HiA. conjs. }
  destruct (send lib env method url body w1) as [[[b1 s1] e1] w2] eqn:Hs.
  destruct (send_inv _ _ _ _ _ _ Hs)
    as (Hself2 & evsS & HtrS & HiS & HpS & _ & _ & HstS & HsentS & _).
  assert (HsS : (count is_send evsS <= 1)%nat).
  { rewrite count_is_send, HsentS.
    destruct (wire_request lib (self w1) method url body); cbn; lia. }
  assert (Hbase : trace w2 = trace w ++ evsA ++ evsS)
    by (rewrite HtrS, HtrA, app_assoc; reflexivity).
  destruct e1 as [e|]; run.
  { intros [= <- <-]. exists (evsA ++ evsS).
    rewrite !count_app, statements_app, HsA, HiA, HpA, HstA, HiS, HpS, HstS,
      Hself2.
    conjs. }
  destruct (isAuthFailureStatus s1); run.
  2:{ intros [= <- <-]. exists (evsA ++ evsS).
      rewrite !count_app, statements_app, HsA, HiA, HpA, HstA, HiS, HpS, HstS,
        Hself2.
      conjs. }
  rewrite <- app_assoc. cbn [app].
  fold (after_invalidation method url s1 w2).
  destruct (authenticate lib env (after_invalidation method url s1 w2))
    as [r4 w4] eqn:Ha2.
  destruct (authenticate_inv lib env _ _ _ Ha2)
    as (evsR & HtrR & HsR & HiR & HpR & HstR & _ & _ & _ & _ & _ & HokR & HerrR).
  cbn [after_invalidation trace self] in HtrR, HokR, HerrR.
  rewrite <- app_assoc in HtrR.
  assert (Hcfg4 : same_config (self w) (self w4) /\ db (self w4) = db (self w)).
  { destruct r4 as [e|].
    - rewrite HerrR by discriminate. rewrite Hself2. split;
        [eapply same_config_trans; [exact HcfgA|apply same_config_set_authenticated]
        |exact HdbA].
    - destruct (HokR eq_refl) as (-> & _). rewrite Hself2. split;
        [eapply same_config_trans; [exact HcfgA|];
         eapply same_config_trans; apply same_config_set_authenticated
        |exact HdbA]. }
  destruct Hcfg4 as [Hcfg4 Hdb4].
  destruct r4 as [e|]; run.
  { intros [= <- <-]. eexists. split.
    { rewrite HtrR, Hbase, <- !app_assoc. reflexivity. }
    rewrite !count_app, !statements_app, HsA, HiA, HpA, HstA, HiS, HpS, HstS,
      HsR, HiR, HpR, HstR.
    cbn. conjs. }
  destruct (send lib env method url body w4) as [[[b2 s2] e2] w5] eqn:Hs2.
  destruct (send_inv _ _ _ _ _ _ Hs2)
    as (Hself5 & evsS2 & HtrS2 & HiS2 & HpS2 & _ & _ & HstS2 & HsentS2 & _).
  assert (HsS2 : (count is_send evsS2 <= 1)%nat).
  { rewrite count_is_send, HsentS2.
    destruct (wire_request lib (self w4) method url body); cbn; lia. }
  assert (Hfin : exists evs,
    trace w5 = trace w ++ evs /\
    (count is_send evs <= 2)%nat /\
    (count is_invalidation evs <= 1)%nat /\
    count is_purge_warning evs = 0%nat /\
    statements evs = [] /\
    same_config (self w) (self w5) /\
    db (self w5) = db (self w)).
  { eexists. split.
    { rewrite HtrS2, HtrR, Hbase, <- !app_assoc. reflexivity. }
    rewrite !count_app, !statements_app, HsA, HiA, HpA, HstA, HiS, HpS, HstS,
      HsR, HiR, HpR, HstR, HiS2, HpS2, HstS2, Hself5.
    cbn. conjs. }
  destruct e2 as [e|]; run; intros [= <- <-]; exact Hfin.
Qed.

End Executor.

(** * The claims about the request executor *)

(** C3.  Let a call of [doRequest] authenticate and receive a first response
    with status [s1].  If [s1] is neither 401 nor 403 (a 5xx for instance),
    that response is returned and nothing is sent again.  If [s1] is 401 or
    403, the session is invalidated exactly once and [authenticate] runs
    exactly once more, performing one credential exchange; when it succeeds
    the same request is sent exactly once more and whatever comes back, a
    second 401 or 403 included, is returned without a further retry.  When
    re-authentication fails, its error is returned and nothing is re-sent. *)
Theorem doRequest_retries_auth_failure_once
    (lib : Lib) (env : Env) (method url : string) (body : option object)
    (w w1 w2 : World) (b1 : string) (s1 : Z) :
  authenticate lib env w = (None, w1) ->
  send lib env method url body w1 = ((b1, s1, None), w2) ->
  exists rq evs1,
    wire_request lib (self w) method url body = Some rq /\
    trace w2 = trace w ++ evs1 /\ sent evs1 = [rq] /\
    count is_invalidation evs1 = 0%nat /\
    (s1 <> 401 -> s1 <> 403 ->
     doRequest lib env method url body w = ((b1, s1, None), w2)) /\
    (s1 = 401 \/ s1 = 403 ->
     exists evs2,
       trace (snd (doRequest lib env method url body w)) = trace w2 ++ evs2 /\
       count is_invalidation evs2 = 1%nat /\
       (count is_csrf_fetch evs2 <= 1)%nat /\
       (count is_login evs2 <= 1)%nat /\
       match authenticate lib env (after_invalidation method url s1 w2) with
       | (Some e, w4) =>
           sent evs2 = [] /\
           doRequest lib env method url body w
           = ((EmptyString, 0,
               Some ("re-authenticating after " +:+ itoa s1 +:+ " response: "
                     +:+ e)), w4)
       | (None, w4) =>
           count is_csrf_fetch evs2 = 1%nat /\
           count is_login evs2 = 1%nat /\
           sent evs2 = [rq] /\
           match send lib env method url body w4 with
           | ((_, _, Some e), w5) =>
               doRequest lib env method url body w = ((EmptyString, 0, Some e), w5)
           | ((b2, s2, None), w5) =>
               doRequest lib env method url body w = ((b2, s2, None), w5)
           end
       end).
Proof.
  intros Ha Hs.
  destruct (authenticate_inv lib env _ _ _ Ha)
    as (evsA & HtrA & _ & HinvA & _ & _ & HsentA & _ & _ & _ & _ & Hself1 & _).
  destruct (Hself1 eq_refl) as (Hself1' & _ & _). clear Hself1.
  destruct (send_inv lib env _ _ _ _ _ _ Hs)
    as (Hself2 & evsS & HtrS & HinvS & _ & _ & _ & _ & HsentS & Hwire).
  assert (Hcfg1 : same_config (self w) (self w1))
    by (rewrite Hself1'; apply same_config_set_authenticated).
  rewrite (wire_request_config lib _ _ _ _ _ Hcfg1) in HsentS, Hwire.
  destruct (wire_request lib (self w) method url body) as [rq|] eqn:Hrq;
    [|exfalso; apply Hwire; reflexivity].
  exists rq, (evsA ++ evsS). split; [reflexivity|].
  split; [rewrite HtrS, HtrA, app_assoc; reflexivity|].
  split; [rewrite sent_app, HsentA, HsentS; reflexivity|].
  split; [rewrite count_app, HinvA, HinvS; reflexivity|].
  split.
  { intros H1 H2. apply (doRequest_no_retry lib env _ _ _ _ _ _ _ _ Ha Hs).
    unfold isAuthFailureStatus. lia. }
  intros H401.
  assert (Hf : isAuthFailureStatus s1 = true)
    by (unfold isAuthFailureStatus; lia).
  rewrite (doRequest_retry lib env _ _ _ _ _ _ _ _ Ha Hs Hf).
  destruct (authenticate lib env (after_invalidation method url s1 w2))
    as [r4 w4] eqn:Ha2.
  destruct (authenticate_inv lib env _ _ _ Ha2)
    as (evsR & HtrR & _ & HinvR & _ & _ & HsentR & HcsrfR & HloginR & HoneR
        & _ & HselfR & HselfR').
  cbn [after_invalidation trace self] in HtrR. rewrite <- app_assoc in HtrR.
  destruct r4 as [e|].
  - exists ([EvLog LevelWarn
               "API request returned auth failure; re-authenticating and retrying once"
               (<["method" := VString method]>
                  (<["url" := VString url]>
                     (<["status_code" := VNumber (itoa s1)]> ∅)));
             EvSetAuthenticated false] ++ evsR).
    cbn [snd]. split; [exact HtrR|].
    rewrite !count_app, sent_app, HinvR, HsentR. cbn.
    repeat split; auto.
  - destruct (HoneR eq_refl eq_refl) as [Hc1 Hl1].
    destruct (HselfR eq_refl) as (Hself4 & _ & _).
    destruct (send lib env method url body w4) as [[[b2 s2] e2] w5] eqn:Hs2.
    destruct (send_inv lib env _ _ _ _ _ _ Hs2)
      as (_ & evsS2 & HtrS2 & HinvS2 & _ & HcsrfS2 & HloginS2 & _ & HsentS2 & _).
    assert (Hcfg4 : same_config (self w) (self w4)).
    { rewrite Hself4. cbn [after_invalidation self]. rewrite Hself2.
      eapply same_config_trans; [exact Hcfg1|].
      eapply same_config_trans; apply same_config_set_authenticated. }
    rewrite (wire_request_config lib _ _ _ _ _ Hcfg4), Hrq in HsentS2.
    exists ([EvLog LevelWarn
               "API request returned auth failure; re-authenticating and retrying once"
               (<["method" := VString method]>
                  (<["url" := VString url]>
                     (<["status_code" := VNumber (itoa s1)]> ∅)));
             EvSetAuthenticated false] ++ evsR ++ evsS2).
    assert (Htr5 : trace w5 = trace w2 ++
               [EvLog LevelWarn
                  "API request returned auth failure; re-authenticating and retrying once"
                  (<["method" := VString method]>
                     (<["url" := VString url]>
                        (<["status_code" := VNumber (itoa s1)]> ∅)));
                EvSetAuthenticated false] ++ evsR ++ evsS2).
    { rewrite HtrS2, HtrR, <- !app_assoc. reflexivity. }
    split; [destruct e2; exact Htr5|].
    rewrite !count_app, !sent_app, HinvR, HinvS2, HsentR, HsentS2, Hc1, Hl1,
      HcsrfS2, HloginS2.
    cbn. repeat split; auto. destruct e2; reflexivity.
Qed.

Lemma doRequest_retries_auth_failure_once_example :
  let env := scripted [Response 401 "expired"; Response 200 csrf_doc;
                       Response 302 EmptyString; Response 403 "forbidden"]
               None [] in
  let w := logged_in sample_client in
  let url := configItemURL sample_lib (self w) "ws" "stream" "s1" in
  let w2 := snd (send sample_lib env "GET" url None w) in
  fst (doRequest sample_lib env "GET" url None w) = ("forbidden", 403, None) /\
  exists evs2,
    trace (snd (doRequest sample_lib env "GET" url None w)) = trace w2 ++ evs2 /\
    count is_invalidation evs2 = 1%nat /\
    count is_csrf_fetch evs2 = 1%nat /\
    count is_login evs2 = 1%nat /\
    length (sent evs2) = 1%nat.
Proof.
  intros env w url w2.
  destruct (doRequest_retries_auth_failure_once sample_lib env "GET" url None
              w w w2 "expired" 401)
    as (rq & evs1 & _ & _ & _ & _ & _ & Hretry);
    [vm_compute; reflexivity | vm_compute; reflexivity |].
  destruct (Hretry (or_introl eq_refl)) as (evs2 & Htr & Hinv & _ & _ & Hm).
  set (w3 := after_invalidation "GET" url 401 w2) in Hm.
  assert (Ha : authenticate sample_lib env w3
               = (None, snd (authenticate sample_lib env w3)))
    by (vm_compute; reflexivity).
  rewrite Ha in Hm. destruct Hm as (Hc & Hl & Hsent & Hm).
  set (w4 := snd (authenticate sample_lib env w3)) in Hm.
  assert (Hs : send sample_lib env "GET" url None w4
               = (("forbidden", 403, None),
                  snd (send sample_lib env "GET" url None w4)))
    by (vm_compute; reflexivity).
  rewrite Hs in Hm. rewrite Hm. split; [reflexivity|].
  exists evs2. rewrite Hsent. rewrite Hm in Htr. auto.
Defined.

(** * What a request puts on the wire *)

Section ExecutorMore.
Context (lib : Lib) (env : Env).

Lemma send_keeps_self method url body w :
  self (snd (send lib env method url body w)) = self w.
Proof.
  destruct (send lib env method url body w) as [r w'] eqn:H.
  destruct (send_inv lib env _ _ _ _ _ _ H) as (Hs & _). exact Hs.
Qed.

(** Every request [doRequest] sends is the one request of the call, and a
    nil error comes with a session marked authenticated. *)
Lemma doRequest_sent_and_flag method url body w r w' :
  doRequest lib env method url body w = (r, w') ->
  exists evs,
    trace w' = trace w ++ evs /\
    Forall (fun rq => wire_request lib (self w) method url body = Some rq)
      (sent evs) /\
    (snd r = None -> authenticated (self w') = true).
Proof.
  unfold doRequest. run.
  destruct (authenticate lib env w) as [r1 w1] eqn:Ha.
  destruct (authenticate_inv lib env _ _ _ Ha)
    as (evsA & HtrA & _ & _ & _ & _ & HsentA & _ & _ & _ & _ & HokA & _).
  destruct r1 as [e|]; run.
  { intros [= <- <-]. exists evsA. rewrite HsentA.
    repeat split; [exact HtrA|constructor|discriminate]. }
  destruct (HokA eq_refl) as (Hself1 & _ & _).
  assert (Hcfg1 : same_config (self w) (self w1))
    by (rewrite Hself1; apply same_config_set_authenticated).
  destruct (send lib env method url body w1) as [[[b1 s1] e1] w2] eqn:Hs.
  destruct (send_inv lib env _ _ _ _ _ _ Hs)
    as (Hself2 & evsS & HtrS & _ & _ & _ & _ & _ & HsentS & _).
  rewrite (wire_request_config lib _ _ _ _ _ Hcfg1) in HsentS.
  assert (HallS : Forall (fun rq => wire_request lib (self w) method url body
                                    = Some rq) (sent evsS)).
  { rewrite HsentS.
    destruct (wire_request lib (self w) method url body); repeat constructor. }
  destruct e1 as [e|]; run.
  { intros [= <- <-]. exists (evsA ++ evsS).
    rewrite sent_app, HsentA. cbn [app].
    repeat split; [rewrite HtrS, HtrA, app_assoc; reflexivity|exact HallS
                  |discriminate]. }
  destruct (isAuthFailureStatus s1); run.
  2:{ intros [= <- <-]. exists (evsA ++ evsS).
      rewrite sent_app, HsentA. cbn [app].
      repeat split; [rewrite HtrS, HtrA, app_assoc; reflexivity|exact HallS|].
      intros _. rewrite Hself2, Hself1. reflexivity. }
  rewrite <- app_assoc. cbn [app].
  fold (after_invalidation method url s1 w2).
  destruct (authenticate lib env (after_invalidation method url s1 w2))
    as [r4 w4] eqn:Ha2.
  destruct (authenticate_inv lib env _ _ _ Ha2)
    as (evsR & HtrR & _ & _ & _ & _ & HsentR & _ & _ & _ & _ & HokR & _).
  cbn [after_invalidation trace self] in HtrR, HokR.
  rewrite <- app_assoc in HtrR.
  destruct r4 as [e|]; run.
  { intros [= <- <-]. eexists. split.
    { rewrite HtrR, HtrS, HtrA, <- !app_assoc. reflexivity. }
    rewrite !sent_app, HsentA, HsentR. cbn. rewrite app_nil_r.
    split; [exact HallS|discriminate]. }
  destruct (HokR eq_refl) as (Hself4 & _ & _).
  assert (Hcfg4 : same_config (self w) (self w4)).
  { rewrite Hself4, Hself2.
    eapply same_config_trans; [exact Hcfg1|].
    eapply same_config_trans; apply same_config_set_authenticated. }
  destruct (send lib env method url body w4) as [[[b2 s2] e2] w5] eqn:Hs2.
  destruct (send_inv lib env _ _ _ _ _ _ Hs2)
    as (Hself5 & evsS2 & HtrS2 & _ & _ & _ & _ & _ & HsentS2 & _).
  rewrite (wire_request_config lib _ _ _ _ _ Hcfg4) in HsentS2.
  assert (Hfin : exists evs,
    trace w5 = trace w ++ evs /\
    Forall (fun rq => wire_request lib (self w) method url body = Some rq)
      (sent evs) /\ authenticated (self w5) = true).
  { eexists. split.
    { rewrite HtrS2, HtrR, HtrS, HtrA, <- !app_assoc. reflexivity. }
    rewrite !sent_app, HsentA, HsentR, HsentS2. cbn [app].
    split; [|rewrite Hself5, Hself4; reflexivity].
    apply Forall_app. split; [exact HallS|].
    destruct (wire_request lib (self w) method url body); repeat constructor. }
  destruct Hfin as (evs & Htr & Hall & Hflag).
  destruct e2 as [e|]; run; intros [= <- <-]; exists evs; auto.
Qed.

End ExecutorMore.

Lemma exchanges_app evs evs' :
  exchanges (evs ++ evs') = exchanges evs ++ exchanges evs'.
Proof. apply omap_app. Qed.

Section Wire.
Context (lib : Lib) (env : Env).

Lemma send_answer method url body w b s w' :
  send lib env method url body w = ((b, s, None), w') ->
  exists rq,
    wire_request lib (self w) method url body = Some rq /\
    exists evs, trace w' = trace w ++ evs /\
                exchanges evs = [(rq, Response s b)].
Proof.
  unfold send, wire_request. run.
  destruct body as [p|].
  - destruct (json_Marshal lib p) as [jsonBytes|e]; run; [|discriminate].
    destruct (NewRequest lib method url) as [e|]; run; [discriminate|].
    destruct (http_roundtrip env _ SiteSend _) as [e|st e|st rb] eqn:Hh; run;
      try discriminate.
    intros [= <- <- <-]. eexists. split; [reflexivity|].
    eexists. cbn [trace]. split; [rewrite <- !app_assoc; reflexivity|].
    cbn. reflexivity.
  - destruct (NewRequest lib method url) as [e|]; run; [discriminate|].
    destruct (http_roundtrip env _ SiteSend _) as [e|st e|st rb] eqn:Hh; run;
      try discriminate.
    intros [= <- <- <-]. eexists. split; [reflexivity|].
    eexists. cbn [trace]. split; [rewrite <- !app_assoc; reflexivity|].
    cbn. reflexivity.
Qed.

(** A call of [doRequest] that returns a nil error returns the answer to
    the last request it sent, and that request is the request of the
    call. *)
Lemma doRequest_answer method url body w b s w' :
  doRequest lib env method url body w = ((b, s, None), w') ->
  exists rq,
    wire_request lib (self w) method url body = Some rq /\
    exists evs pre,
      trace w' = trace w ++ evs /\
      exchanges evs = pre ++ [(rq, Response s b)].
Proof.
  unfold doRequest. run.
  destruct (authenticate lib env w) as [r1 w1] eqn:Ha.
  destruct (authenticate_inv lib env _ _ _ Ha)
    as (evsA & HtrA & _ & _ & _ & _ & HsentA & _ & _ & _ & _ & HokA & _).
  destruct r1 as [e|]; run; [discriminate|].
  destruct (HokA eq_refl) as (Hself1 & _).
  assert (HexA : exchanges evsA = []).
  { clear -HsentA. induction evsA as [|e evs IH]; [reflexivity|].
    destruct e as [[] ? ?| | | |]; cbn in *; try discriminate; auto. }
  destruct (send lib env method url body w1) as [[[b1 s1] e1] w2] eqn:Hs.
  destruct e1 as [e|]; run; [discriminate|].
  destruct (send_answer _ _ _ _ _ _ _ Hs) as (rq & Hrq & evsS & HtrS & HexS).
  assert (Hrq0 : wire_request lib (self w) method url body = Some rq).
  { rewrite <- Hrq, Hself1. symmetry. apply wire_request_config.
    apply same_config_set_authenticated. }
  destruct (isAuthFailureStatus s1); run.
  2:{ intros [= <- <- <-]. exists rq. split; [exact Hrq0|].
      exists (evsA ++ evsS), []. split.
      - rewrite HtrS, HtrA, app_assoc. reflexivity.
      - rewrite exchanges_app, HexA, HexS. reflexivity. }
  set (w3 := {| self := _; trace := _ |}).
  destruct (authenticate lib env w3) as [r4 w4] eqn:Ha2.
  destruct (authenticate_inv lib env _ _ _ Ha2)
    as (evsB & HtrB & _ & _ & _ & _ & HsentB & _ & _ & _ & _ & HokB & _).
  destruct r4 as [e|]; run; [discriminate|].
  destruct (HokB eq_refl) as (Hself4 & _).
  assert (HexB : exchanges evsB = []).
  { clear -HsentB. induction evsB as [|e evs IH]; [reflexivity|].
    destruct e as [[] ? ?| | | |]; cbn in *; try discriminate; auto. }
  destruct (send lib env method url body w4) as [[[b5 s5] e5] w5] eqn:Hs2.
  destruct e5 as [e|]; run; [discriminate|].
  destruct (send_answer _ _ _ _ _ _ _ Hs2) as (rq' & Hrq' & evsT & HtrT & HexT).
  destruct (send_inv lib env _ _ _ _ _ _ Hs) as (Hself2 & _).
  assert (Hsame : rq' = rq).
  { assert (same_config (self w1) (self w4)).
    { rewrite Hself4. subst w3. cbn [self]. rewrite Hself2. repeat split. }
    rewrite (wire_request_config lib _ _ _ _ _ H) in Hrq'. congruence. }
  subst rq'.
  intros [= <- <- <-]. exists rq. split; [exact Hrq0|].
  eexists. exists [(rq, Response s1 b1)]. split.
  - rewrite HtrT, HtrB. subst w3. cbn [trace]. rewrite HtrS, HtrA.
    rewrite <- !app_assoc. reflexivity.
  - rewrite !exchanges_app, HexA, HexS, HexB, HexT. reflexivity.
Qed.

Lemma sent_exchanges evs : sent evs = List.map fst (exchanges evs).
Proof.
  unfold sent, exchanges.
  induction evs as [|e evs IH]; [reflexivity|].
  destruct e as [[] ? ?| | | |]; cbn; rewrite ?IH; reflexivity.
Qed.

(** A purge that returns nil has logged its warning once and executed,
    after the statement on the links when the table is the object table, the
    guarded delete of the row, both with success; it sent nothing and left
    the session alone. *)
Lemma hardDeleteSoftDeleted_done id table w w2 :
  hardDeleteSoftDeleted lib env id table w = (None, w2) ->
  exists evs,
    trace w2 = trace w ++ evs /\
    exchanges evs = [] /\
    count is_purge_warning evs = 1%nat /\
    statements evs
    = (if String.eqb table "ConfigurationObject"
       then [(Store.sql_text lib Store.DeleteReferencingLinks, [id], None)]
       else [])
      ++ [(Store.sql_text lib (Store.DeleteSoftDeleted table), [id], None)] /\
    same_config (self w) (self w2) /\
    authenticated (self w2) = authenticated (self w).
Proof.
  unfold hardDeleteSoftDeleted, getDB. run.
  destruct (String.eqb (databaseURL (self w)) EmptyString); [discriminate|].
  destruct (db (self w)) as [[d|e]|]; run; try discriminate.
  - destruct (String.eqb table "ConfigurationObject"); run;
      repeat (destruct (sql_ExecContext env _ _ [id]); run); try discriminate;
      intros [= <-]; cbn [trace self]; eexists;
      (split; [rewrite <- ?app_assoc; reflexivity|]);
      cbn; repeat split.
  - destruct (sql_Open env (trace w) (databaseURL (self w))); run;
      [discriminate|].
    destruct (String.eqb table "ConfigurationObject"); run;
      repeat (destruct (sql_ExecContext env _ _ [id]); run); try discriminate;
      intros [= <-]; cbn [trace self]; eexists;
      (split; [rewrite <- ?app_assoc; reflexivity|]);
      cbn; repeat split.
Qed.

(** A purge that returns an error sent nothing, and its last statement, if
    it executed any, failed: the row was not removed. *)
Lemma hardDeleteSoftDeleted_failed id table w e w2 :
  hardDeleteSoftDeleted lib env id table w = (Some e, w2) ->
  exists evs,
    trace w2 = trace w ++ evs /\
    exchanges evs = [] /\
    (forall s, last (statements evs) = Some s -> snd s <> None).
Proof.
  unfold hardDeleteSoftDeleted, getDB. run.
  destruct (String.eqb (databaseURL (self w)) EmptyString).
  { intros [= <- <-]. exists []. rewrite app_nil_r. repeat split. discriminate. }
  destruct (db (self w)) as [[d|e0]|]; run.
  - destruct (String.eqb table "ConfigurationObject"); run;
      repeat (destruct (sql_ExecContext env _ _ [id]); run); try discriminate;
      intros [= <- <-]; cbn [trace self]; eexists;
      (split; [rewrite <- ?app_assoc; reflexivity|]);
      cbn; (split; [reflexivity|]); intros s [= <-]; discriminate.
  - intros [= <- <-]. exists []. rewrite app_nil_r. repeat split. discriminate.
  - destruct (sql_Open env (trace w) (databaseURL (self w))); run.
    { intros [= <- <-]. eexists. cbn [trace]. split; [reflexivity|].
      cbn. split; [reflexivity|]. discriminate. }
    destruct (String.eqb table "ConfigurationObject"); run;
      repeat (destruct (sql_ExecContext env _ _ [id]); run); try discriminate;
      intros [= <- <-]; cbn [trace self]; eexists;
      (split; [rewrite <- ?app_assoc; reflexivity|]);
      cbn; (split; [reflexivity|]); intros s [= <-]; discriminate.
Qed.


Lemma exchanges_no_send evs : sent evs = [] -> exchanges evs = [].
Proof.
  intros H. rewrite sent_exchanges in H.
  destruct (exchanges evs); [reflexivity|discriminate].
Qed.

(** A request that can be built is put on the wire. *)
Lemma send_sends method url body w rq :
  wire_request lib (self w) method url body = Some rq ->
  exists o evs,
    trace (snd (send lib env method url body w)) = trace w ++ evs /\
    exchanges evs = [(rq, o)].
Proof.
  unfold send, wire_request. run.
  destruct body as [p|].
  - destruct (json_Marshal lib p) as [jsonBytes|e]; run; [|discriminate].
    destruct (NewRequest lib method url) as [e|]; run; [discriminate|].
    intros [= <-].
    destruct (http_roundtrip env _ SiteSend _) as [e|st e|st rb] eqn:Hh; run;
      cbn [snd trace]; eexists; eexists;
      (split; [rewrite <- ?app_assoc; reflexivity|]); reflexivity.
  - destruct (NewRequest lib method url) as [e|]; run; [discriminate|].
    intros [= <-].
    destruct (http_roundtrip env _ SiteSend _) as [e|st e|st rb] eqn:Hh; run;
      cbn [snd trace]; eexists; eexists;
      (split; [rewrite <- ?app_assoc; reflexivity|]); reflexivity.
Qed.

(** On a session that is already authenticated, [doRequest] puts its
    request on the wire at once, and again at most once more. *)
Lemma doRequest_resends method url body w rq :
  authenticate lib env w = (None, w) ->
  wire_request lib (self w) method url body = Some rq ->
  exists evs o rest,
    trace (snd (doRequest lib env method url body w)) = trace w ++ evs /\
    exchanges evs = (rq, o) :: rest /\
    (length rest <= 1)%nat /\
    Forall (fun x => fst x = rq) rest.
Proof.
  intros Ha Hrq. unfold doRequest. run. rewrite Ha. run.
  destruct (send_sends method url body w rq Hrq) as (o & evsS & HtrS & HexS).
  destruct (send lib env method url body w) as [[[b1 s1] e1] w2] eqn:Hs.
  cbn [snd] in HtrS.
  destruct (send_inv lib env _ _ _ _ _ _ Hs) as (Hself2 & _).
  destruct e1 as [e|]; run.
  { exists evsS, o, []. cbn [snd]. repeat split; auto. }
  destruct (isAuthFailureStatus s1); run.
  2:{ exists evsS, o, []. cbn [snd]. repeat split; auto. }
  set (w3 := {| self := _; trace := _ |}).
  destruct (authenticate lib env w3) as [r4 w4] eqn:Ha2.
  destruct (authenticate_inv lib env _ _ _ Ha2)
    as (evsB & HtrB & _ & _ & _ & _ & HsentB & _ & _ & _ & _ & HokB & HerrB).
  apply exchanges_no_send in HsentB.
  assert (Htr4 : trace w4 = trace w ++ evsS ++ [EvLog LevelWarn
              "API request returned auth failure; re-authenticating and retrying once"
              (<["method" := VString method]>
                 (<["url" := VString url]>
                    (<["status_code" := VNumber (itoa s1)]> ∅)));
            EvSetAuthenticated false] ++ evsB).
  { rewrite HtrB. subst w3. cbn [trace]. rewrite HtrS, <- !app_assoc.
    reflexivity. }
  destruct r4 as [e|]; run.
  { eexists. exists o, []. cbn [snd]. split; [exact Htr4|].
    rewrite !exchanges_app, HexS, HsentB. cbn. repeat split; auto. }
  destruct (HokB eq_refl) as (Hself4 & _).
  destruct (send lib env method url body w4) as [[[b5 s5] e5] w5] eqn:Hs2.
  destruct (send_inv lib env _ _ _ _ _ _ Hs2)
    as (_ & evsT & HtrT & _ & _ & _ & _ & _ & HsentT & _).
  assert (Hcfg : same_config (self w) (self w4)).
  { rewrite Hself4. subst w3. cbn [self]. rewrite Hself2. repeat split. }
  rewrite (wire_request_config lib _ _ _ _ _ Hcfg), Hrq in HsentT.
  assert (HexT : exists o', exchanges evsT = [(rq, o')]).
  { rewrite sent_exchanges in HsentT.
    destruct (exchanges evsT) as [|[rq' o'] [|x l]]; try discriminate.
    injection HsentT as ->. eauto. }
  destruct HexT as (o' & HexT).
  assert (Hend : exists evs,
            trace w5 = trace w ++ evs /\ exchanges evs = [(rq, o); (rq, o')]).
  { eexists. split; [rewrite HtrT, Htr4, <- !app_assoc; reflexivity|].
    rewrite !exchanges_app, HexS, HsentB, HexT. reflexivity. }
  destruct Hend as (evs & Htr & Hex).
  destruct e5 as [e|]; run; exists evs, o, [(rq, o')]; cbn [snd];
    (split; [exact Htr|]); (split; [exact Hex|]); split; cbn; auto.
Qed.

(** After a call of [doRequest] that returned a nil error the session is
    authenticated and has credentials, and the request of the call could be
    built. *)
Lemma doRequest_leaves_session method url body w b s w' :
  doRequest lib env method url body w = ((b, s, None), w') ->
  authenticated (self w') = true /\
  username (self w') <> EmptyString /\ password (self w') <> EmptyString /\
  same_config (self w) (self w').
Proof.
  intros Hd.
  destruct (doRequest_sent_and_flag lib env _ _ _ _ _ _ Hd) as (_ & _ & _ & Hflag).
  destruct (doRequest_inv lib env _ _ _ _ _ _ Hd)
    as (_ & _ & _ & _ & _ & _ & Hcfg & _).
  assert (Hc : username (self w) <> EmptyString /\ password (self w) <> EmptyString).
  { revert Hd. unfold doRequest. run.
    destruct (authenticate lib env w) as [r1 w1] eqn:Ha.
    destruct (authenticate_inv lib env _ _ _ Ha)
      as (_ & _ & _ & _ & _ & _ & _ & _ & _ & _ & _ & HokA & _).
    destruct r1 as [e|]; run; [discriminate|].
    intros _. exact (proj2 (HokA eq_refl)). }
  destruct Hcfg as (Hurl & Hu & Hp & Hrest).
  split; [apply Hflag; reflexivity|]. rewrite Hu, Hp.
  split; [tauto|]. split; [tauto|]. repeat split; tauto.
Qed.

End Wire.

Section Rollbacks.
Context (lib : Lib) (env : Env).

Lemma Forall_exchanges (P : Request -> Prop) evs :
  Forall P (sent evs) -> Forall (fun x => P (fst x)) (exchanges evs).
Proof.
  rewrite sent_exchanges. induction (exchanges evs) as [|x l IH]; cbn.
  - constructor.
  - intros H. inversion H; subst. constructor; auto.
Qed.

(** The events of a call that is one request: what it sends is the request
    of the call, an immediate send when the session is ready, and the answer
    it reads when it returns a nil error. *)
Lemma doRequest_events method url body w :
  exists evs,
    trace (snd (doRequest lib env method url body w)) = trace w ++ evs /\
    Forall (fun x => wire_request lib (self w) method url body = Some (fst x))
      (exchanges evs) /\
    (forall rq,
       authenticate lib env w = (None, w) ->
       wire_request lib (self w) method url body = Some rq ->
       exists o rest, exchanges evs = (rq, o) :: rest) /\
    (forall b s,
       fst (doRequest lib env method url body w) = (b, s, None) ->
       exists rq,
         wire_request lib (self w) method url body = Some rq /\
         last (exchanges evs) = Some (rq, Response s b)).
Proof.
  destruct (doRequest lib env method url body w) as [[[b s] e] w'] eqn:Hd.
  destruct (doRequest_sent_and_flag lib env _ _ _ _ _ _ Hd)
    as (evs & Htr & Hall & _).
  exists evs. cbn [fst snd]. split; [exact Htr|].
  split; [apply Forall_exchanges in Hall; exact Hall|]. split.
  - intros rq Ha Hrq.
    destruct (doRequest_resends lib env _ _ _ _ _ Ha Hrq)
      as (evs' & o & rest & Htr' & Hex & _).
    rewrite Hd in Htr'. cbn [snd] in Htr'.
    assert (evs' = evs) by (rewrite Htr in Htr'; eapply app_inv_head; eauto).
    subst evs'. eauto.
  - intros b0 s0 [= -> -> ->].
    destruct (doRequest_answer lib env _ _ _ _ _ _ _ Hd)
      as (rq & Hrq & evs' & pre & Htr' & Hex).
    assert (evs' = evs) by (rewrite Htr in Htr'; eapply app_inv_head; eauto).
    subst evs'. exists rq. split; [exact Hrq|]. rewrite Hex. apply last_snoc.
Qed.

(** What [WorkspaceDelete] sends, and what a nil error means. *)
Lemma WorkspaceDelete_events workspaceID w :
  let payload : object := {[ "workspaceId" := VString workspaceID ]} in
  let request :=
    wire_request lib (self w) "DELETE" (workspaceURL (self w)) (Some payload) in
  exists evs,
    trace (snd (WorkspaceDelete lib env workspaceID w)) = trace w ++ evs /\
    Forall (fun x => request = Some (fst x)) (exchanges evs) /\
    (forall rq,
       authenticate lib env w = (None, w) -> request = Some rq ->
       exists o rest, exchanges evs = (rq, o) :: rest) /\
    (fst (WorkspaceDelete lib env workspaceID w) = None ->
     exists rq status body,
       request = Some rq /\
       last (exchanges evs) = Some (rq, Response status body) /\
       (status = 404 \/ 200 <= status < 300)).
Proof.
  intros payload request. subst request.
  destruct (doRequest_events "DELETE" (workspaceURL (self w)) (Some payload) w)
    as (evs & Htr & Hall & Hfirst & Hans).
  unfold WorkspaceDelete. run. fold payload.
  destruct (doRequest lib env "DELETE" (workspaceURL (self w)) (Some payload) w)
    as [[[b s] e] w'] eqn:Hd.
  cbn [fst snd] in *. exists evs.
  destruct e as [e|]; run.
  { cbn [fst snd]. repeat split; auto. discriminate. }
  destruct (Hans b s eq_refl) as (rq & Hrq & Hlast).
  destruct (Z.eqb_spec s 404) as [->|Hs]; run.
  { cbn [fst snd]. repeat split; auto. intros _. exists rq, 404, b. auto. }
  destruct (Z.ltb s 200 || Z.leb 300 s) eqn:Hst; run; cbn [fst snd];
    repeat split; auto; try discriminate.
  intros _. exists rq, s, b. repeat split; auto. right. lia.
Qed.

(** What [Delete] sends, and what a nil error means. *)
Lemma Delete_events workspaceID resourceType id w :
  let request :=
    wire_request lib (self w) "DELETE"
      (configItemURL lib (self w) workspaceID resourceType id) None in
  exists evs,
    trace (snd (Delete lib env workspaceID resourceType id w)) = trace w ++ evs /\
    Forall (fun x => request = Some (fst x)) (exchanges evs) /\
    (forall rq,
       authenticate lib env w = (None, w) -> request = Some rq ->
       exists o rest, exchanges evs = (rq, o) :: rest) /\
    (fst (Delete lib env workspaceID resourceType id w) = None ->
     exists rq status body,
       request = Some rq /\
       last (exchanges evs) = Some (rq, Response status body) /\
       200 <= status < 300).
Proof.
  intros request. subst request.
  destruct (doRequest_events "DELETE"
              (configItemURL lib (self w) workspaceID resourceType id) None w)
    as (evs & Htr & Hall & Hfirst & Hans).
  unfold Delete. run.
  destruct (doRequest lib env "DELETE"
              (configItemURL lib (self w) workspaceID resourceType id) None w)
    as [[[b s] e] w'] eqn:Hd.
  cbn [fst snd] in *. exists evs.
  destruct e as [e|]; run.
  { cbn [fst snd]. repeat split; auto. discriminate. }
  destruct (Hans b s eq_refl) as (rq & Hrq & Hlast).
  destruct (Z.ltb s 200 || Z.leb 300 s) eqn:Hst; run; cbn [fst snd];
    repeat split; auto; try discriminate.
  intros _. exists rq, s, b. repeat split; auto; lia.
Qed.

End Rollbacks.

(** * Create and the reconciler *)

Section CreateFacts.
Context (lib : Lib) (env : Env).

Lemma Create_no_conflict workspaceID resourceType payload w body status w1 :
  doRequest lib env "POST" (configURL lib (self w) workspaceID resourceType)
    (Some payload) w = ((body, status, None), w1) ->
  is_conflict status body = false ->
  Create lib env workspaceID resourceType payload w
  = (create_result lib (configURL lib (self w) workspaceID resourceType)
       (body, status, None), w1).
Proof.
  intros H Hc. unfold Create, is_conflict in *. run. rewrite H. run.
  rewrite Hc. run. unfold create_result.
  destruct (Z.ltb status 200 || Z.leb 300 status); reflexivity.
Qed.

Lemma Create_conflict workspaceID resourceType payload w body w1 id :
  doRequest lib env "POST" (configURL lib (self w) workspaceID resourceType)
    (Some payload) w = ((body, 500, None), w1) ->
  Contains body "Unique constraint failed" = true ->
  payload !! "id" = Some (VString id) ->
  id <> EmptyString ->
  Create lib env workspaceID resourceType payload w =
  match hardDeleteSoftDeleted lib env id (table_of resourceType) w1 with
  | (Some e, w2) =>
      ((None, Some ("POST failed (soft-delete conflict) and cleanup failed: "
                    +:+ e)), w2)
  | (None, w2) =>
      let '(r, w3) :=
        doRequest lib env "POST"
          (configURL lib (self w) workspaceID resourceType) (Some payload) w2 in
      (create_result lib (configURL lib (self w) workspaceID resourceType) r, w3)
  end.
Proof.
  intros H Hc Hid Hne. unfold Create, table_of. run. rewrite H. run.
  rewrite Hc. cbn [Z.eqb Pos.eqb andb]. unfold string_field. rewrite Hid.
  apply String.eqb_neq in Hne. rewrite Hne. cbn [negb orb]. run.
  destruct (hardDeleteSoftDeleted lib env id _ w1) as [[e|] w2]; [reflexivity|].
  run.
  destruct (doRequest lib env "POST" _ (Some payload) w2) as [[[b2 s2] [e2|]] w3];
    run; [reflexivity|].
  unfold create_result.
  destruct (Z.ltb s2 200 || Z.leb 300 s2); reflexivity.
Qed.

Lemma Create_conflict_without_id workspaceID resourceType payload w body w1 :
  doRequest lib env "POST" (configURL lib (self w) workspaceID resourceType)
    (Some payload) w = ((body, 500, None), w1) ->
  Contains body "Unique constraint failed" = true ->
  (forall id, payload !! "id" = Some (VString id) -> id = EmptyString) ->
  Create lib env workspaceID resourceType payload w
  = ((None, Some ("POST " +:+ configURL lib (self w) workspaceID resourceType +:+
                  " returned soft-delete conflict but payload has no 'id' field")),
     w1).
Proof.
  intros H Hc Hid. unfold Create. run. rewrite H. run.
  rewrite Hc. cbn [Z.eqb Pos.eqb andb]. unfold string_field.
  destruct (payload !! "id") as [[| | |id| |]|] eqn:E; try reflexivity.
  rewrite (Hid id eq_refl). reflexivity.
Qed.

(** Every call of [hardDeleteSoftDeleted]: at most one purge, at most two
    statements, no request. *)
Lemma hardDeleteSoftDeleted_inv id table w r w' :
  hardDeleteSoftDeleted lib env id table w = (r, w') ->
  exists evs,
    trace w' = trace w ++ evs /\
    count is_send evs = 0%nat /\
    (count is_purge_warning evs <= 1)%nat /\
    (length (statements evs) <= 2)%nat /\
    Forall (fun s => snd (fst s) = [id]) (statements evs) /\
    consoleURL (self w') = consoleURL (self w) /\
    authenticated (self w') = authenticated (self w) /\
    username (self w') = username (self w) /\
    password (self w') = password (self w).
Proof.
  unfold hardDeleteSoftDeleted. run.
  destruct (getDB env w) as [[d|e] w0] eqn:Hdb;
    destruct (getDB_trace env _ _ _ Hdb)
      as (evs0 & Htr & Hst & Hs0 & Hpw & Hurl & Hau & Hun & Hpa).
  2:{ run. intros [= <- <-]. exists evs0. rewrite Hst, Hs0, Hpw. cbn.
      repeat split; auto. }
  run.
  destruct (String.eqb table "ConfigurationObject"); run.
  - destruct (sql_ExecContext env _ _ [id]) as [e|]; run.
    + intros [= <- <-]. eexists. split; [rewrite Htr, <- !app_assoc; reflexivity|].
      rewrite !count_app, statements_app, Hst, Hs0, Hpw. cbn.
      repeat split; auto; repeat constructor.
    + destruct (sql_ExecContext env _ _ [id]) as [e|]; run;
        intros [= <- <-]; (eexists; split;
                           [rewrite Htr, <- !app_assoc; reflexivity|]);
        rewrite !count_app, statements_app, Hst, Hs0, Hpw; cbn;
        repeat split; auto; repeat constructor.
  - destruct (sql_ExecContext env _ _ [id]) as [e|]; run;
      intros [= <- <-]; (eexists; split;
                         [rewrite Htr, <- !app_assoc; reflexivity|]);
      rewrite !count_app, statements_app, Hst, Hs0, Hpw; cbn;
      repeat split; auto; repeat constructor.
Qed.

End CreateFacts.

(** * The claims about Create and the reconciler *)

(** C1.  Let the first POST of [Create] come back with [status] and [body].
    When the status is 500 and the body contains [Unique constraint failed],
    and the payload carries a non-empty string [id], the client purges that
    id in the table of the resource type ([link] is stored in
    [ConfigurationObjectLink], every other type in [ConfigurationObject]) and
    then runs the POST once more.  The purge sends nothing.  When it returns
    nil it has logged its warning once and executed with success, with [id]
    as their argument, the delete of the referencing links when the table is
    the object table and then the guarded delete of the row; only after these
    statements is the same request put on the wire again, at once and at most
    once more after that, with no further statement or purge.  The outcome of
    that second POST is final: a nil error returns the answer to the last
    request sent, decoded when the status is 2xx and an error otherwise, so a
    repeated conflict is returned as an error and never purged again.  When
    the purge fails, its last statement, if it executed any, failed, nothing
    is sent again and the cleanup error is returned.  Any other response
    outside 2xx is returned as an error made of the method, the URL, the
    status and the body. *)
Theorem Create_purges_and_retries_once
    (lib : Lib) (env : Env) (workspaceID resourceType : string)
    (payload : object) (w w1 : World) (body : string) (status : Z) :
  let endpoint := configURL lib (self w) workspaceID resourceType in
  doRequest lib env "POST" endpoint (Some payload) w
  = ((body, status, None), w1) ->
  (table_of "link" = "ConfigurationObjectLink" /\
   (resourceType <> "link" -> table_of resourceType = "ConfigurationObject")) /\
  (status = 500 -> Contains body "Unique constraint failed" = true ->
   forall id, payload !! "id" = Some (VString id) -> id <> EmptyString ->
   let table := table_of resourceType in
   let purge := hardDeleteSoftDeleted lib env id table w1 in
   let w2 := snd purge in
   let out := Create lib env workspaceID resourceType payload w in
   exists rq evsP,
     wire_request lib (self w) "POST" endpoint (Some payload) = Some rq /\
     trace w2 = trace w1 ++ evsP /\
     exchanges evsP = [] /\
     match fst purge with
     | Some e =>
         out = ((None, Some ("POST failed (soft-delete conflict) and cleanup failed: "
                             +:+ e)), w2) /\
         (count is_purge_warning evsP <= 1)%nat /\
         (length (statements evsP) <= 2)%nat /\
         Forall (fun s => snd (fst s) = [id]) (statements evsP) /\
         (forall s, last (statements evsP) = Some s -> snd s <> None)
     | None =>
         count is_purge_warning evsP = 1%nat /\
         statements evsP
         = (if String.eqb table "ConfigurationObject"
            then [(Store.sql_text lib Store.DeleteReferencingLinks, [id], None)]
            else [])
           ++ [(Store.sql_text lib (Store.DeleteSoftDeleted table), [id], None)] /\
         exists evsD o rest,
           trace (snd out) = trace w2 ++ evsD /\
           exchanges evsD = (rq, o) :: rest /\
           (length rest <= 1)%nat /\
           Forall (fun x => fst x = rq) rest /\
           statements evsD = [] /\
           count is_purge_warning evsD = 0%nat /\
           match doRequest lib env "POST" endpoint (Some payload) w2 with
           | ((_, _, Some e), w3) => out = ((None, Some e), w3)
           | ((body', status', None), w3) =>
               out = (if Z.leb 200 status' && Z.ltb status' 300
                      then decode_object lib body'
                      else (None, Some ("POST " +:+ endpoint +:+ " returned " +:+
                                        itoa status' +:+ ": " +:+ body')),
                      w3) /\
               last (exchanges evsD) = Some (rq, Response status' body')
           end
     end) /\
  (~ (status = 500 /\ Contains body "Unique constraint failed" = true) ->
   ~ (200 <= status < 300) ->
   Create lib env workspaceID resourceType payload w
   = ((None, Some ("POST " +:+ endpoint +:+ " returned " +:+ itoa status +:+
                   ": " +:+ body)), w1)).
Proof.
  intros endpoint H. split; [|split].
  - split; [reflexivity|]. intros Hne. unfold table_of.
    apply String.eqb_neq in Hne. rewrite Hne. reflexivity.
  - intros -> Hc id Hid Hne table purge w2 out. subst out purge w2 table.
    rewrite (Create_conflict lib env _ _ _ _ _ _ _ H Hc Hid Hne).
    fold endpoint.
    destruct (doRequest_answer lib env _ _ _ _ _ _ _ H) as (rq & Hrq & _).
    destruct (doRequest_leaves_session lib env _ _ _ _ _ _ _ H)
      as (Hflag1 & Hu1 & Hp1 & Hcfg1).
    exists rq.
    destruct (hardDeleteSoftDeleted lib env id (table_of resourceType) w1)
      as [r2 w2] eqn:Hp. cbn [fst snd].
    destruct r2 as [e|].
    { destruct (hardDeleteSoftDeleted_failed lib env _ _ _ _ _ Hp)
        as (evsP & HtrP & HexP & Hlast).
      destruct (hardDeleteSoftDeleted_inv lib env _ _ _ _ _ Hp)
        as (evsP' & HtrP' & _ & HpwP & HlenP & HargP & _).
      assert (evsP' = evsP)
        by (rewrite HtrP in HtrP'; eapply app_inv_head; eauto).
      subst evsP'. exists evsP. repeat split; auto. }
    destruct (hardDeleteSoftDeleted_done lib env _ _ _ _ Hp)
      as (evsP & HtrP & HexP & HpwP & HstP & Hcfg2 & Hflag2).
    exists evsP. split; [exact Hrq|]. split; [exact HtrP|]. split; [exact HexP|].
    split; [exact HpwP|]. split; [exact HstP|].
    assert (Hcfg : same_config (self w) (self w2))
      by (eapply same_config_trans; eassumption).
    assert (Hrq2 : wire_request lib (self w2) "POST" endpoint (Some payload)
                   = Some rq)
      by (rewrite (wire_request_config lib _ _ _ _ _ Hcfg); exact Hrq).
    assert (Ha2 : authenticate lib env w2 = (None, w2)).
    { destruct Hcfg2 as (_ & Hu & Hpw & _).
      apply authenticate_already; [rewrite Hu; exact Hu1|rewrite Hpw; exact Hp1|].
      rewrite Hflag2. exact Hflag1. }
    destruct (doRequest_resends lib env _ _ _ _ _ Ha2 Hrq2)
      as (evsD & o & rest & HtrD & HexD & Hlen & Hall).
    destruct (doRequest lib env "POST" endpoint (Some payload) w2)
      as [[[b' s'] e'] w3] eqn:Hd.
    destruct (doRequest_inv lib env _ _ _ _ _ _ Hd)
      as (evsD' & HtrD' & _ & _ & HpD & HstD & _).
    cbn [snd] in HtrD.
    assert (evsD' = evsD) by (rewrite HtrD in HtrD'; eapply app_inv_head; eauto).
    subst evsD'.
    exists evsD, o, rest.
    destruct e' as [e|].
    { cbn [snd]. repeat split; auto. }
    destruct (doRequest_answer lib env _ _ _ _ _ _ _ Hd)
      as (rq' & Hrq' & evs'' & pre & Htr'' & Hex'').
    assert (evs'' = evsD) by (rewrite HtrD in Htr''; eapply app_inv_head; eauto).
    subst evs''. rewrite Hrq2 in Hrq'. injection Hrq' as <-.
    unfold create_result.
    replace (Z.leb 200 s' && Z.ltb s' 300)
      with (negb (Z.ltb s' 200 || Z.leb 300 s')) by lia.
    destruct (Z.ltb s' 200 || Z.leb 300 s'); cbn [snd negb];
      repeat split; auto; rewrite Hex''; apply last_snoc.
  - intros Hnc Hs.
    rewrite (Create_no_conflict lib env _ _ _ _ _ _ _ H).
    + unfold create_result.
      replace (Z.ltb status 200 || Z.leb 300 status) with true by lia.
      reflexivity.
    + unfold is_conflict.
      destruct (Z.eqb_spec status 500) as [->|]; [|reflexivity].
      destruct (Contains body "Unique constraint failed"); [|reflexivity].
      exfalso. apply Hnc. split; reflexivity.
Qed.

Lemma Create_purges_and_retries_once_example :
  let env := scripted [Response 500 "Unique constraint failed on the fields: (id)";
                       Response 201 (text_of stream_s1)]
               None [None; None] in
  let w := logged_in sample_client in
  let endpoint := configURL sample_lib (self w) "ws" "stream" in
  let w1 := snd (doRequest sample_lib env "POST" endpoint (Some stream_s1) w) in
  let w2 := snd (hardDeleteSoftDeleted sample_lib env "s1" "ConfigurationObject" w1) in
  let out := Create sample_lib env "ws" "stream" stream_s1 w in
  fst out = (Some stream_s1, None) /\
  statements (events_since w1 w2)
  = [(Store.sql_text sample_lib Store.DeleteReferencingLinks, ["s1"], None);
     (Store.sql_text sample_lib (Store.DeleteSoftDeleted "ConfigurationObject"),
      ["s1"], None)] /\
  actions (trace (snd out))
  = ["POST https://jitsu.example.com/api/ws/config/stream";
     Store.sql_text sample_lib Store.DeleteReferencingLinks;
     Store.sql_text sample_lib (Store.DeleteSoftDeleted "ConfigurationObject");
     "POST https://jitsu.example.com/api/ws/config/stream"] /\
  List.map snd (exchanges (trace (snd out)))
  = [Response 500 "Unique constraint failed on the fields: (id)";
     Response 201 (text_of stream_s1)].
Proof.
  intros env w endpoint w1 w2 out.
  destruct (Create_purges_and_retries_once sample_lib env "ws" "stream"
              stream_s1 w w1 "Unique constraint failed on the fields: (id)" 500)
    as (_ & Hconflict & _); [vm_compute; reflexivity|].
  destruct (Hconflict eq_refl ltac:(vm_compute; reflexivity) "s1"
              ltac:(vm_compute; reflexivity) ltac:(discriminate))
    as (rq & evsP & Hrq & HtrP & HexP & Hm).
  assert (Hp : fst (hardDeleteSoftDeleted sample_lib env "s1"
                      (table_of "stream") w1) = None)
    by (vm_compute; reflexivity).
  rewrite Hp in Hm. destruct Hm as (_ & Hst & _).
  split; [vm_compute; reflexivity|]. split.
  - unfold events_since. change (trace w2) with
      (trace (snd (hardDeleteSoftDeleted sample_lib env "s1"
                     (table_of "stream") w1))).
    rewrite HtrP, drop_app_length. exact Hst.
  - split; vm_compute; reflexivity.
Defined.

Section StoreFacts.
Import Store.

Lemma exec_keeps_active_object st arg d o :
  In o (ConfigurationObject d) -> o_deleted o = false ->
  In o (ConfigurationObject (exec st arg d)).
Proof.
  intros Hin Hd. unfold exec. cbn. apply List.filter_In. split; [exact Hin|].
  unfold object_hit. destruct st; [reflexivity|]. rewrite Hd.
  rewrite !andb_false_r. reflexivity.
Qed.

Lemma exec_keeps_active_link st arg d l :
  In l (ConfigurationObjectLink d) -> l_deleted l = false ->
  In l (ConfigurationObjectLink (exec st arg d)).
Proof.
  intros Hin Hd. unfold exec. cbn. apply List.filter_In. split; [exact Hin|].
  unfold link_hit. destruct st; rewrite Hd; [reflexivity|].
  rewrite !andb_false_r. reflexivity.
Qed.

Lemma exec_objects id d o :
  In o (ConfigurationObject (exec (DeleteSoftDeleted "ConfigurationObject") id d))
  <-> In o (ConfigurationObject d) /\ ~ (o_id o = id /\ o_deleted o = true).
Proof.
  unfold exec. cbn. rewrite List.filter_In.
  change (String.eqb "ConfigurationObject" "ConfigurationObject") with true.
  cbn [andb]. rewrite negb_true_iff, andb_false_iff, String.eqb_neq.
  destruct (o_deleted o); intuition congruence.
Qed.

Lemma exec_links id d l :
  In l (ConfigurationObjectLink (exec DeleteReferencingLinks id d))
  <-> In l (ConfigurationObjectLink d) /\
      ~ (l_deleted l = true /\ (l_fromId l = id \/ l_toId l = id)).
Proof.
  unfold exec. cbn. rewrite List.filter_In.
  rewrite negb_true_iff, andb_false_iff, orb_false_iff, !String.eqb_neq.
  destruct (l_deleted l); intuition congruence.
Qed.

Lemma sql_text_guarded lib st :
  Contains (sql_text lib st) "deleted = true" = true.
Proof.
  destruct st as [|table]; unfold sql_text.
  - vm_compute. reflexivity.
  - apply Contains_app_r, Contains_app_r. vm_compute. reflexivity.
Qed.

End StoreFacts.

(** C5.  With no connection string configured, a purge fails at once with an
    error that names the missing [database_url] and says it is required to
    hard-delete stale rows; the world is unchanged, so no statement and no
    connection attempt was made.  [Create] does not skip the recovery in
    silence: on a soft-delete conflict it returns that error. *)
Theorem purge_without_database_url_fails
    (lib : Lib) (env : Env) (id table : string) (w : World) :
  databaseURL (self w) = EmptyString ->
  let err := "cannot purge soft-deleted " +:+ Quote lib id +:+ ": " +:+
             "database_url not configured in provider; " +:+
             "Jitsu uses soft-delete, so re-creating objects with the same ID requires database_url to hard-delete stale rows" in
  hardDeleteSoftDeleted lib env id table w = (Some err, w) /\
  trace (snd (hardDeleteSoftDeleted lib env id table w)) = trace w /\
  Contains err "database_url not configured" = true /\
  Contains err "requires database_url to hard-delete stale rows" = true /\
  (forall workspaceID resourceType payload w0 body,
      doRequest lib env "POST" (configURL lib (self w0) workspaceID resourceType)
        (Some payload) w0 = ((body, 500, None), w) ->
      Contains body "Unique constraint failed" = true ->
      payload !! "id" = Some (VString id) -> id <> EmptyString ->
      Create lib env workspaceID resourceType payload w0
      = ((None,
          Some ("POST failed (soft-delete conflict) and cleanup failed: "
                +:+ "cannot purge soft-deleted " +:+ Quote lib id +:+ ": " +:+
                "database_url not configured in provider; " +:+
                "Jitsu uses soft-delete, so re-creating objects with the same ID requires database_url to hard-delete stale rows")),
         w)).
Proof.
  intros Hdb err. repeat split.
  - exact (hardDeleteSoftDeleted_unconfigured lib env id table w Hdb).
  - rewrite (hardDeleteSoftDeleted_unconfigured lib env id table w Hdb).
    reflexivity.
  - unfold err. do 3 apply Contains_app_r. vm_compute. reflexivity.
  - unfold err. do 4 apply Contains_app_r. vm_compute. reflexivity.
  - intros workspaceID resourceType payload w0 body H Hc Hid Hne.
    rewrite (Create_conflict lib env _ _ _ _ _ _ _ H Hc Hid Hne).
    rewrite (hardDeleteSoftDeleted_unconfigured lib env id _ w Hdb).
    reflexivity.
Qed.

Lemma purge_without_database_url_fails_example :
  let env := scripted [] None [] in
  let w := logged_in sample_client_no_db in
  hardDeleteSoftDeleted sample_lib env "s1" "ConfigurationObject" w
  = (Some ("cannot purge soft-deleted " +:+ quoted "s1" +:+
           ": database_url not configured in provider; Jitsu uses soft-delete, so re-creating objects with the same ID requires database_url to hard-delete stale rows"),
     w).
Proof.
  intros env w.
  destruct (purge_without_database_url_fails sample_lib env "s1"
              "ConfigurationObject" w) as (H & _); [reflexivity|].
  rewrite H. reflexivity.
Defined.

(** C2.  A purge of an object id addresses the database in a fixed order:
    first the statement deleting the soft-deleted links whose [fromId] or
    [toId] is the id, and only after it succeeded the statement deleting the
    soft-deleted object row with that id.  Both statements carry
    [deleted = true] in their predicate; read as relations, the first removes
    exactly the links with [deleted] set that reference the id, the second
    exactly the object row with that id and [deleted] set, and neither
    removes a row whose [deleted] column is false. *)
Theorem purge_object_deletes_links_first
    (lib : Lib) (env : Env) (id : string) (w : World) :
  let q1 := "DELETE FROM newjitsu." +:+ dq +:+ "ConfigurationObjectLink" +:+ dq +:+
            " WHERE deleted = true AND (" +:+ dq +:+ "fromId" +:+ dq +:+
            " = $1 OR " +:+ dq +:+ "toId" +:+ dq +:+ " = $1)" in
  let q2 := "DELETE FROM newjitsu." +:+ QuoteIdentifier lib "ConfigurationObject"
            +:+ " WHERE id = $1 AND deleted = true" in
  let r := fst (hardDeleteSoftDeleted lib env id "ConfigurationObject" w) in
  let w' := snd (hardDeleteSoftDeleted lib env id "ConfigurationObject" w) in
  (exists evs,
      trace w' = trace w ++ evs /\
      ((statements evs = [] /\ r <> None)
       \/ (exists e, statements evs = [(q1, [id], Some e)] /\ r <> None)
       \/ (exists e2, statements evs = [(q1, [id], None); (q2, [id], e2)] /\
                      (r = None <-> e2 = None)))) /\
  Contains q1 "deleted = true" = true /\
  Contains q2 "deleted = true" = true /\
  q1 = Store.sql_text lib Store.DeleteReferencingLinks /\
  q2 = Store.sql_text lib (Store.DeleteSoftDeleted "ConfigurationObject") /\
  (forall st d,
      In st [Store.DeleteReferencingLinks;
             Store.DeleteSoftDeleted "ConfigurationObject"] ->
      (forall o, In o (Store.ConfigurationObject d) ->
                 Store.o_deleted o = false ->
                 In o (Store.ConfigurationObject (Store.exec st id d))) /\
      (forall l, In l (Store.ConfigurationObjectLink d) ->
                 Store.l_deleted l = false ->
                 In l (Store.ConfigurationObjectLink (Store.exec st id d)))) /\
  (forall d l,
      In l (Store.ConfigurationObjectLink
              (Store.exec Store.DeleteReferencingLinks id d))
      <-> In l (Store.ConfigurationObjectLink d) /\
          ~ (Store.l_deleted l = true /\
             (Store.l_fromId l = id \/ Store.l_toId l = id))) /\
  (forall d o,
      In o (Store.ConfigurationObject
              (Store.exec (Store.DeleteSoftDeleted "ConfigurationObject") id d))
      <-> In o (Store.ConfigurationObject d) /\
          ~ (Store.o_id o = id /\ Store.o_deleted o = true)).
Proof.
  intros q1 q2 r w'.
  split; [|split; [|split; [|split; [|split; [|split; [|split]]]]]];
    [| | | | | | intros d l; apply exec_links | intros d o; apply exec_objects].
  - destruct (hardDeleteSoftDeleted_object_shape lib env id w)
      as (evs & Htr & Hshape).
    exists evs. split; [exact Htr|].
    destruct Hshape as [(H1 & H2 & _)|[(e & H1 & H2 & _)|(e2 & H1 & H2 & _)]].
    + left. auto.
    + right. left. exists e. auto.
    + right. right. exists e2. auto.
  - exact (sql_text_guarded lib Store.DeleteReferencingLinks).
  - exact (sql_text_guarded lib (Store.DeleteSoftDeleted "ConfigurationObject")).
  - reflexivity.
  - reflexivity.
  - intros st d _. split.
    + intros o. apply exec_keeps_active_object.
    + intros l. apply exec_keeps_active_link.
Qed.

Lemma purge_object_deletes_links_first_example :
  let env := scripted [] None [None; None] in
  let w := logged_in sample_client in
  exists evs,
    trace (snd (hardDeleteSoftDeleted sample_lib env "s1" "ConfigurationObject" w))
    = trace w ++ evs /\
    List.map (fun s => fst (fst s)) (statements evs)
    = [Store.sql_text sample_lib Store.DeleteReferencingLinks;
       Store.sql_text sample_lib (Store.DeleteSoftDeleted "ConfigurationObject")].
Proof.
  intros env w.
  destruct (purge_object_deletes_links_first sample_lib env "s1" w)
    as ((evs & Htr & Hshape) & _).
  exists evs. split; [exact Htr|].
  cbn [trace logged_in app] in Htr.
  assert (Hevs : evs = trace (snd (hardDeleteSoftDeleted sample_lib env "s1"
                                     "ConfigurationObject" w)))
    by (symmetry; exact Htr).
  rewrite Hevs. vm_compute. reflexivity.
Defined.

(** * The invariant of the session flag *)

Section SessionInvariant.
Context (lib : Lib) (env : Env).

Lemma credentialed_config c c' :
  same_config c c' ->
  username c <> EmptyString -> password c <> EmptyString ->
  credentialed c'.
Proof.
  intros (_ & Hu & Hp & _) Hnu Hnp _. rewrite Hu, Hp. auto.
Qed.

Lemma authenticate_credentialed w :
  credentialed (self w) -> credentialed (self (snd (authenticate lib env w))).
Proof.
  intros Hc. destruct (authenticate lib env w) as [r w'] eqn:Ha.
  destruct (authenticate_inv lib env _ _ _ Ha)
    as (_ & _ & _ & _ & _ & _ & _ & _ & _ & _ & _ & Hok & Herr).
  cbn [snd]. destruct r as [e|].
  - rewrite Herr by discriminate. exact Hc.
  - destruct (Hok eq_refl) as (-> & Hu & Hp). intros _. auto.
Qed.

Lemma doRequest_credentialed method url body w :
  credentialed (self w) ->
  credentialed (self (snd (doRequest lib env method url body w))).
Proof.
  intros Hc. destruct (doRequest lib env method url body w) as [r w'] eqn:Hd.
  destruct (doRequest_inv lib env _ _ _ _ _ _ Hd)
    as (_ & _ & _ & _ & _ & _ & Hcfg & _).
  cbn [snd]. revert Hd. unfold doRequest. run.
  destruct (authenticate lib env w) as [r1 w1] eqn:Ha.
  destruct (authenticate_inv lib env _ _ _ Ha)
    as (_ & _ & _ & _ & _ & _ & _ & _ & _ & _ & _ & Hok & Herr).
  destruct r1 as [e|]; run.
  - intros [= <- <-]. rewrite Herr by discriminate. exact Hc.
  - intros _. destruct (Hok eq_refl) as (_ & Hu & Hp).
    exact (credentialed_config _ _ Hcfg Hu Hp).
Qed.

Lemma hardDeleteSoftDeleted_credentialed id table w :
  credentialed (self w) ->
  credentialed (self (snd (hardDeleteSoftDeleted lib env id table w))).
Proof.
  intros Hc. destruct (hardDeleteSoftDeleted lib env id table w) as [r w'] eqn:Hp.
  destruct (hardDeleteSoftDeleted_inv lib env _ _ _ _ _ Hp)
    as (_ & _ & _ & _ & _ & _ & _ & Ha & Hu & Hpw).
  cbn [snd]. unfold credentialed in *. rewrite Ha, Hu, Hpw. exact Hc.
Qed.

(** In every reachable world, a session marked authenticated has
    credentials. *)
Lemma reachable_credentialed w : reachable lib env w -> credentialed (self w).
Proof.
  induction 1 as [| w _ IH | w _ IH | w method url body _ IH | w id table _ IH].
  - intros H. discriminate H.
  - exact (authenticate_credentialed w IH).
  - intros H. discriminate H.
  - exact (doRequest_credentialed method url body w IH).
  - exact (hardDeleteSoftDeleted_credentialed id table w IH).
Qed.

End SessionInvariant.

(** * The claims about the session manager *)

(** C7.  Two calls of [authenticate] in a row exchange credentials once: when
    the first call succeeds, at most one token fetch and one login were made,
    and the second call returns nil at once, adding no event and changing
    nothing.  More generally, in every world the client can reach, a session
    marked authenticated makes [authenticate] return nil without fetching a
    token or submitting credentials. *)
Theorem authenticate_twice_exchanges_once
    (lib : Lib) (env : Env) (w : World) :
  (forall w1,
      authenticate lib env w = (None, w1) ->
      authenticate lib env w1 = (None, w1) /\
      exists evs,
        trace (snd (authenticate lib env w1)) = trace w ++ evs /\
        (count is_csrf_fetch evs <= 1)%nat /\
        (count is_login evs <= 1)%nat) /\
  (reachable lib env w -> authenticated (self w) = true ->
   authenticate lib env w = (None, w)).
Proof.
  split.
  - intros w1 Ha.
    destruct (authenticate_inv lib env _ _ _ Ha)
      as (evs & Htr & _ & _ & _ & _ & _ & Hc & Hl & _ & _ & Hok & _).
    destruct (Hok eq_refl) as (Hself & Hu & Hp).
    assert (H2 : authenticate lib env w1 = (None, w1)).
    { apply authenticate_already; rewrite Hself; auto. }
    split; [exact H2|]. exists evs. rewrite H2. auto.
  - intros Hr Ha. destruct (reachable_credentialed lib env w Hr Ha) as [Hu Hp].
    apply authenticate_already; auto.
Qed.

Lemma authenticate_twice_exchanges_once_example :
  let env := scripted login_ok None [] in
  let w1 := snd (authenticate sample_lib env (fresh sample_client)) in
  authenticated (self w1) = true /\
  authenticate sample_lib env w1 = (None, w1) /\
  count is_http (trace w1) = 2%nat.
Proof.
  intros env w1.
  destruct (authenticate_twice_exchanges_once sample_lib env w1) as [_ H].
  split; [reflexivity|]. split; [|vm_compute; reflexivity].
  apply H; [|reflexivity].
  apply reach_authenticate. apply reach_New.
Defined.

(** C8, as amended.  On a session that is not yet authenticated,
    [authenticate] fails exactly when credentials are absent, the token fetch
    fails or is answered outside 2xx, the token is empty, the exchange is
    answered outside [200, 400), or the exchange request cannot be built,
    sent or read.  An exchange answered in [200, 400), redirects included,
    succeeds and marks the session authenticated.  On a session already
    authenticated, with credentials, it succeeds without any exchange. *)
Theorem authenticate_fails_iff
    (lib : Lib) (env : Env) (w : World) :
  (authenticated (self w) = false ->
   (fst (authenticate lib env w) <> None <->
    listed_failure lib env w \/ exchange_not_completed lib env w)) /\
  (authenticated (self w) = false ->
   forall status body token code reply,
     ~ credentials_absent w ->
     token_reply lib env w = Some (status, body) ->
     200 <= status < 300 ->
     json_Unmarshal_csrf lib body = Ok token ->
     token <> EmptyString ->
     NewRequest lib "POST" (login_url (self w)) = None ->
     exchange_outcome lib env w status body token = Response code reply ->
     200 <= code < 400 ->
     fst (authenticate lib env w) = None /\
     authenticated (self (snd (authenticate lib env w))) = true) /\
  (authenticated (self w) = true -> ~ credentials_absent w ->
   authenticate lib env w = (None, w)).
Proof.
  split; [|split].
  - apply authenticate_fresh_fails_iff.
  - intros Ha status body token code reply Hc Ht Hs Hj Hne Hn He Hcode.
    rewrite (authenticate_accepts_2xx_3xx lib env w _ _ _ _ _
               Ha Hc Ht Hs Hj Hne Hn He Hcode).
    split; reflexivity.
  - intros Ha Hc. unfold credentials_absent in Hc.
    apply authenticate_already; auto;
      intros H; apply Hc; auto.
Qed.

Lemma authenticate_fails_iff_example :
  let env := scripted login_ok None [] in
  let w := fresh sample_client in
  fst (authenticate sample_lib env w) = None /\
  authenticated (self (snd (authenticate sample_lib env w))) = true.
Proof.
  intros env w.
  destruct (authenticate_fails_iff sample_lib env w) as (_ & H & _).
  apply (H eq_refl 200 csrf_doc "tok" 302 EmptyString).
  - intros [H0|H0]; discriminate H0.
  - vm_compute. reflexivity.
  - lia.
  - vm_compute. reflexivity.
  - discriminate.
  - reflexivity.
  - vm_compute. reflexivity.
  - lia.
Defined.

(** C8 as stated fails: with credentials, a 200 token response carrying a
    token, and a login request that gets no response at all,
    [authenticate] returns an error although none of the listed causes
    holds. *)
Lemma authenticate_fails_outside_listed_causes :
  let env := scripted [Response 200 csrf_doc; DoError "connection reset by peer"]
               None [] in
  let w := fresh sample_client in
  authenticated (self w) = false /\
  fst (authenticate sample_lib env w)
  = Some "executing login request: connection reset by peer" /\
  ~ listed_failure sample_lib env w /\
  ~ (fst (authenticate sample_lib env w) <> None <-> listed_failure sample_lib env w).
Proof.
  intros env w.
  assert (Hnot : ~ listed_failure sample_lib env w).
  { intros [H|[H|[H|[H|[H|H]]]]].
    - destruct H as [H|H]; discriminate H.
    - vm_compute in H. discriminate H.
    - destruct H as (st & b & Ht & Hs). vm_compute in Ht.
      injection Ht as <- <-. lia.
    - destruct H as (st & b & e & Ht & Hj). vm_compute in Ht.
      injection Ht as <- <-. vm_compute in Hj. discriminate Hj.
    - destruct H as (st & b & Ht & Hj). vm_compute in Ht.
      injection Ht as <- <-. vm_compute in Hj. discriminate Hj.
    - destruct H as (st & b & token & code & reply & Ht & Hj & He & _).
      vm_compute in Ht. injection Ht as <- <-.
      vm_compute in Hj. injection Hj as <-.
      vm_compute in He. discriminate He. }
  assert (Hfail : fst (authenticate sample_lib env w)
                  = Some "executing login request: connection reset by peer")
    by (vm_compute; reflexivity).
  repeat split; auto.
  intros [Hiff _]. apply Hnot, Hiff. rewrite Hfail. discriminate.
Qed.

(** * The workspace resource *)

Section Diagnostics.

Lemma existsb_Equal_error summary' detail' diags :
  HasError diags = false ->
  existsb (Diagnostic_Equal {| severity := SeverityError; summary := summary';
                               detail := detail' |}) diags = false.
Proof.
  induction diags as [|d diags IH]; [reflexivity|].
  cbn. intros [Hd Hrest]%orb_false_iff. rewrite (IH Hrest), orb_false_r.
  unfold Diagnostic_Equal. cbn.
  destruct (severity d); [discriminate Hd | reflexivity].
Qed.

(** Without an earlier error, [AddError] appends the diagnostic. *)
Lemma AddError_fresh summary' detail' diags :
  HasError diags = false ->
  AddError summary' detail' diags
  = diags ++ [{| severity := SeverityError; summary := summary';
                 detail := detail' |}].
Proof.
  intros H. unfold AddError. cbn.
  rewrite (existsb_Equal_error _ _ _ H). reflexivity.
Qed.

End Diagnostics.

(** C6.  When [WorkspaceCreate] succeeds and the follow-up [WorkspaceUpdate],
    which re-asserts the same name and slug, fails with [e], the handler
    calls [WorkspaceDelete] on the new workspace and reports one error whose
    detail is [e] followed by the outcome of the rollback: that the workspace
    was rolled back, or that the rollback failed and why.  The state of the
    response is left as it was: nothing is recorded for the workspace.  The
    rollback is a request on the wire: everything sent after the failed
    update is the DELETE of the workspace URL whose body names the new
    workspace; it is sent at once when the session is still authenticated and
    the request can be built; and the rollback is reported as done only when
    the last such request was answered 404 or 2xx. *)
Theorem workspace_Create_rolls_back_on_failed_update
    (lib : Lib) (env : Env) (req : CreateRequest) (resp : CreateResponse)
    (w w1 w2 : World) (id : string) (o : option object) (e : Error) :
  let plan := snd (Plan_Get req) in
  let name := ValueString (Name plan) in
  let slug := ValueString (Slug plan) in
  let diags := Append (fst (Plan_Get req)) (Diagnostics resp) in
  HasError diags = false ->
  WorkspaceCreate lib env name slug w = ((id, None), w1) ->
  WorkspaceUpdate lib env id name slug w1 = ((o, Some e), w2) ->
  let rollbackErr := fst (WorkspaceDelete lib env id w2) in
  let w3 := snd (WorkspaceDelete lib env id w2) in
  let outcome :=
    match rollbackErr with
    | None => ". Rolled back newly-created workspace " +:+ Quote lib id +:+ "."
    | Some re =>
        ". Rollback failed for workspace " +:+ Quote lib id +:+ ": " +:+ re
    end in
  let delete :=
    wire_request lib (self w2) "DELETE" (workspaceURL (self w2))
      (Some {[ "workspaceId" := VString id ]}) in
  workspaceResource_Create lib env req resp w
  = ({| Diagnostics :=
          diags ++ [{| severity := SeverityError;
                       summary := "Error finalizing workspace creation";
                       detail := e +:+ outcome |}];
        State := State resp |}, w3) /\
  exists evs,
    trace w3 = trace w2 ++ evs /\
    Forall (fun x => delete = Some (fst x)) (exchanges evs) /\
    (forall rq,
       authenticate lib env w2 = (None, w2) -> delete = Some rq ->
       exists out rest, exchanges evs = (rq, out) :: rest) /\
    (rollbackErr = None ->
     exists rq status body,
       delete = Some rq /\
       last (exchanges evs) = Some (rq, Response status body) /\
       (status = 404 \/ 200 <= status < 300)).
Proof.
  intros plan name slug diags Hne Hc Hu rollbackErr w3 outcome delete. split.
  - unfold workspaceResource_Create.
    destruct (Plan_Get req) as [ds pl] eqn:Hplan.
    cbn [fst snd] in *. unfold with_diagnostics. cbn [Diagnostics State].
    fold diags. rewrite Hne. run.
    fold plan name slug. subst plan. cbn [snd] in *.
    rewrite Hc. run. rewrite Hu. run.
    subst rollbackErr w3 outcome.
    destruct (WorkspaceDelete lib env id w2) as [[re|] w3]; cbn [fst snd];
      rewrite (AddError_fresh _ _ _ Hne); reflexivity.
  - exact (WorkspaceDelete_events lib env id w2).
Qed.

Lemma workspace_Create_rolls_back_on_failed_update_example :
  let env := scripted [Response 200 (text_of workspace_w1);
                       Response 500 "slug rejected";
                       Response 200 "{}"] None [] in
  let w := logged_in sample_client in
  let req := {| Plan_Get := ([], {| ID := StringUnknown;
                                    Name := StringValue "Main";
                                    Slug := StringValue "main" |}) |} in
  let resp := {| Diagnostics := []; State := None |} in
  let out := workspaceResource_Create sample_lib env req resp w in
  fst out
  = {| Diagnostics :=
         [{| severity := SeverityError;
             summary := "Error finalizing workspace creation";
             detail := "PUT https://jitsu.example.com/api/workspace/w1 returned 500: slug rejected. Rolled back newly-created workspace " +:+ quoted "w1" +:+ "." |}];
       State := None |} /\
  List.map (fun x => (rq_method (fst x), rq_url (fst x), rq_body (fst x), snd x))
    (exchanges (trace (snd out)))
  = [("POST", "https://jitsu.example.com/api/workspace",
      Some (text_of (workspace_payload "Main" "main")),
      Response 200 (text_of workspace_w1));
     ("PUT", "https://jitsu.example.com/api/workspace/w1",
      Some (text_of (workspace_payload "Main" "main")),
      Response 500 "slug rejected");
     ("DELETE", "https://jitsu.example.com/api/workspace",
      Some (text_of {[ "workspaceId" := VString "w1" ]}),
      Response 200 "{}")].
Proof.
  intros env w req resp out. subst out.
  set (w1 := snd (WorkspaceCreate sample_lib env "Main" "main" w)).
  set (w2 := snd (WorkspaceUpdate sample_lib env "w1" "Main" "main" w1)).
  destruct (workspace_Create_rolls_back_on_failed_update sample_lib env req resp
              w w1 w2 "w1" None
              "PUT https://jitsu.example.com/api/workspace/w1 returned 500: slug rejected")
    as (Heq & evs & Htr & Hall & Hfirst & Hok);
    [vm_compute; reflexivity | reflexivity | vm_compute; reflexivity|].
  rewrite Heq. split; [vm_compute; reflexivity|].
  vm_compute. reflexivity.
Defined.

(** * Further properties of the client *)

Close Scope string_scope.

Section NoDatabase.
Context (lib : Lib) (env : Env).

Lemma events_since_app w w' evs :
  trace w' = trace w ++ evs -> events_since w w' = evs.
Proof.
  intros H. unfold events_since. rewrite H. apply drop_app_length.
Qed.

Ltac quiet_done :=
  intros [= <- <-]; cbn [trace self]; eexists;
  (split; [rewrite <- ?app_assoc; first [reflexivity | symmetry; apply app_nil_r]|]);
  cbn; reflexivity.

Lemma authenticate_no_database w :
  exists evs,
    trace (snd (authenticate lib env w)) = trace w ++ evs /\
    count touches_database evs = 0%nat.
Proof.
  destruct (authenticate lib env w) as [r w'] eqn:H. cbn [snd]. revert H.
  unfold authenticate, rawRequest. run.
  destruct (String.eqb (username (self w)) EmptyString || String.eqb (password (self w)) EmptyString);
    [quiet_done|].
  destruct (authenticated (self w)); [quiet_done|].
  destruct (NewRequest lib "GET" (csrf_url (self w))) as [e|]; run; [quiet_done|].
  destruct (http_roundtrip env (trace w) SiteRaw _) as [e|st e|st body]; run;
    try quiet_done.
  destruct (Z.ltb st 200 || Z.leb 300 st); run; try quiet_done.
  destruct (json_Unmarshal_csrf lib body) as [token|e]; run; try quiet_done.
  destruct (String.eqb token EmptyString); run; try quiet_done.
  destruct (NewRequest lib "POST" (login_url (self w))) as [e|]; run;
    try quiet_done.
  destruct (http_roundtrip env _ SiteLogin _) as [e|st' e|code lbody]; run;
    try quiet_done.
  destruct (Z.ltb code 200 || Z.leb 400 code); run; quiet_done.
Qed.

Lemma send_no_database method url body w :
  exists evs,
    trace (snd (send lib env method url body w)) = trace w ++ evs /\
    count touches_database evs = 0%nat.
Proof.
  destruct (send lib env method url body w) as [r w'] eqn:H. cbn [snd]. revert H.
  unfold send. run.
  destruct body as [b|].
  - destruct (json_Marshal lib b) as [jsonBytes|e]; run; [|quiet_done].
    destruct (NewRequest lib method url) as [e|]; run; [quiet_done|].
    destruct (http_roundtrip env _ SiteSend _) as [e|st e|st rb]; run; quiet_done.
  - destruct (NewRequest lib method url) as [e|]; run; [quiet_done|].
    destruct (http_roundtrip env _ SiteSend _) as [e|st e|st rb]; run; quiet_done.
Qed.

Lemma doRequest_no_database method url body w :
  exists evs,
    trace (snd (doRequest lib env method url body w)) = trace w ++ evs /\
    count touches_database evs = 0%nat.
Proof.
  unfold doRequest. run.
  destruct (authenticate_no_database w) as (e1 & H1 & C1).
  destruct (authenticate lib env w) as [[e|] w1]; cbn [snd] in H1; run.
  { exists e1. auto. }
  destruct (send_no_database method url body w1) as (e2 & H2 & C2).
  destruct (send lib env method url body w1) as [[[b1 s1] [e|]] w2];
    cbn [snd] in H2; run.
  { exists (e1 ++ e2). rewrite H2, H1, app_assoc, count_app, C1, C2. auto. }
  destruct (isAuthFailureStatus s1); run.
  2:{ exists (e1 ++ e2). rewrite H2, H1, app_assoc, count_app, C1, C2. auto. }
  rewrite <- app_assoc. cbn [app].
  fold (after_invalidation method url s1 w2).
  destruct (authenticate_no_database (after_invalidation method url s1 w2))
    as (e3 & H3 & C3).
  cbn [after_invalidation trace] in H3. rewrite <- app_assoc in H3.
  destruct (authenticate lib env (after_invalidation method url s1 w2))
    as [[e|] w4]; cbn [snd] in H3; run.
  { eexists. split; [rewrite H3, H2, H1, <- !app_assoc; reflexivity|].
    rewrite !count_app, C1, C2, C3. reflexivity. }
  destruct (send_no_database method url body w4) as (e4 & H4 & C4).
  destruct (send lib env method url body w4) as [[[b2 s2] [e|]] w5];
    cbn [snd] in H4; run;
    (eexists; split; [rewrite H4, H3, H2, H1, <- !app_assoc; reflexivity|]);
    rewrite !count_app, C1, C2, C3, C4; reflexivity.
Qed.

End NoDatabase.

Section SingleRequest.
Context (lib : Lib) (env : Env).

(** Each call of the facade other than [Create] leaves the world of its one
    [doRequest]. *)
Lemma world_after_doRequest call w :
  world_after lib env call w
  = snd (let '(method, url, body) := request_of lib call (self w) in
         doRequest lib env method url body w).
Proof.
  destruct call; cbn [world_after request_of].
  - unfold Read. run.
    destruct (doRequest lib env "GET" _ None w) as [[[body status] [e|]] w1];
      [reflexivity|]. cbn [snd].
    destruct (Z.eqb status 404); [reflexivity|].
    destruct (Z.ltb status 200 || Z.leb 300 status); [reflexivity|].
    destruct (json_Unmarshal_object lib body) as [result|e]; [|reflexivity].
    destruct (bool_field "deleted" result) as [deleted ok].
    destruct (ok && deleted); reflexivity.
  - unfold Update. run.
    destruct (doRequest lib env "PUT" _ (Some payload) w)
      as [[[body status] [e|]] w1]; [reflexivity|]. cbn [snd].
    destruct (Z.ltb status 200 || Z.leb 300 status); reflexivity.
  - unfold Delete. run.
    destruct (doRequest lib env "DELETE" _ None w) as [[[body status] [e|]] w1];
      [reflexivity|]. cbn [snd].
    destruct (Z.ltb status 200 || Z.leb 300 status); reflexivity.
  - unfold List. run.
    destruct (doRequest lib env "GET" _ None w) as [[[body status] [e|]] w1];
      [reflexivity|]. cbn [snd].
    destruct (Z.ltb status 200 || Z.leb 300 status); [reflexivity|].
    destruct (json_Unmarshal_wrapper lib body) as [wrapper|e]; [|reflexivity].
    destruct wrapper as [m|]; cbn; [|reflexivity].
    destruct (m !! "links") as [raw|];
      [destruct (json_Unmarshal_items lib raw); reflexivity|].
    destruct (m !! "objects") as [raw|]; [|reflexivity].
    destruct (json_Unmarshal_items lib raw); reflexivity.
  - unfold DeleteLink. run.
    destruct (doRequest lib env "DELETE" _ None w) as [[[body status] [e|]] w1];
      [reflexivity|]. cbn [snd].
    destruct (Z.ltb status 200 || Z.leb 300 status); reflexivity.
  - unfold WorkspaceCreate. run.
    destruct (doRequest lib env "POST" _ _ w) as [[[body status] [e|]] w1];
      [reflexivity|]. cbn [snd].
    destruct (Z.ltb status 200 || Z.leb 300 status).
    { destruct (Z.eqb status 500 && _); reflexivity. }
    destruct (json_Unmarshal_object lib body) as [result|e]; [|reflexivity].
    destruct (string_field "id" result) as [id ok].
    destruct (String.eqb id EmptyString); reflexivity.
  - unfold WorkspaceRead. run.
    destruct (doRequest lib env "GET" _ None w) as [[[body status] [e|]] w1];
      [reflexivity|]. cbn [snd].
    destruct (Z.eqb status 404); [reflexivity|].
    destruct (Z.ltb status 200 || Z.leb 300 status); [reflexivity|].
    destruct (json_Unmarshal_object lib body) as [result|e]; [|reflexivity].
    destruct (bool_field "deleted" result) as [deleted ok].
    destruct (ok && deleted); reflexivity.
  - unfold WorkspaceUpdate. run.
    destruct (doRequest lib env "PUT" _ _ w) as [[[body status] [e|]] w1];
      [reflexivity|]. cbn [snd].
    destruct (Z.ltb status 200 || Z.leb 300 status); reflexivity.
  - unfold WorkspaceDelete. run.
    destruct (doRequest lib env "DELETE" _ _ w) as [[[body status] [e|]] w1];
      [reflexivity|]. cbn [snd].
    destruct (Z.eqb status 404); [reflexivity|].
    destruct (Z.ltb status 200 || Z.leb 300 status); reflexivity.
Qed.

End SingleRequest.

(** X1.  [Read], [Update], [Delete], [List], [DeleteLink] and the four
    workspace calls are each one request through the executor: whatever the
    remote side answers, the call sends at most twice, invalidates the session
    at most once, never opens the database or executes a statement, and logs
    no purge. *)
Theorem facade_calls_are_one_request
    (lib : Lib) (env : Env) (call : ApiCall) (w : World) :
  let evs := events_since w (world_after lib env call w) in
  trace (world_after lib env call w) = trace w ++ evs /\
  (count is_send evs <= 2)%nat /\
  (count is_invalidation evs <= 1)%nat /\
  count touches_database evs = 0%nat /\
  count is_purge_warning evs = 0%nat.
Proof.
  intros evs. subst evs. rewrite world_after_doRequest.
  destruct (request_of lib call (self w)) as [[method url] body].
  destruct (doRequest lib env method url body w) as [r w'] eqn:Hd.
  destruct (doRequest_inv lib env _ _ _ _ _ _ Hd)
    as (evs & Htr & Hs & Hi & Hp & _).
  destruct (doRequest_no_database lib env method url body w) as (evs' & Htr' & Hdb).
  rewrite Hd in Htr'. cbn [snd] in *.
  assert (evs' = evs) by (rewrite Htr in Htr'; eapply app_inv_head; eauto).
  subst evs'. rewrite (events_since_app _ _ _ Htr). auto.
Qed.

(** * The connection pool *)

Section Pool.
Context (lib : Lib) (env : Env).

Lemma count_le p q (evs : list Event) :
  (forall e, p e = true -> q e = true) ->
  (count p evs <= count q evs)%nat.
Proof.
  intros Hpq. induction evs as [|e evs IH]; [reflexivity|].
  unfold count in *. cbn. destruct (p e) eqn:Hp.
  - rewrite (Hpq e Hp). cbn. lia.
  - destruct (q e); cbn; lia.
Qed.

Lemma no_database_no_open evs :
  count touches_database evs = 0%nat -> count is_open evs = 0%nat.
Proof.
  intros H. assert (count is_open evs <= count touches_database evs)%nat; [|lia].
  apply count_le. intros [] He; try discriminate He; reflexivity.
Qed.

Lemma getDB_idempotent w :
  getDB env (snd (getDB env w)) = (fst (getDB env w), snd (getDB env w)).
Proof.
  unfold getDB. run.
  destruct (String.eqb (databaseURL (self w)) EmptyString) eqn:Hu.
  { cbn [fst snd]. rewrite Hu. reflexivity. }
  destruct (db (self w)) as [r|] eqn:Hdb.
  { cbn [fst snd]. rewrite Hu, Hdb. reflexivity. }
  cbn [fst snd self set_db databaseURL db]. rewrite Hu. reflexivity.
Qed.

Lemma pool_authenticate w :
  pool_opened_once w -> pool_opened_once (snd (authenticate lib env w)).
Proof.
  unfold pool_opened_once. intros H.
  destruct (authenticate_no_database lib env w) as (evs & Htr & Hdb).
  destruct (authenticate lib env w) as [r w'] eqn:Ha. cbn [snd] in *.
  destruct (authenticate_inv lib env _ _ _ Ha)
    as (_ & _ & _ & _ & _ & _ & _ & _ & _ & _ & _ & Hok & Herr).
  assert (Hsame : db (self w') = db (self w)).
  { destruct r as [e|].
    - rewrite Herr by discriminate. reflexivity.
    - destruct (Hok eq_refl) as (-> & _). reflexivity. }
  rewrite Htr, count_app, (no_database_no_open _ Hdb), Hsame, H. lia.
Qed.

Lemma pool_doRequest method url body w :
  pool_opened_once w ->
  pool_opened_once (snd (doRequest lib env method url body w)).
Proof.
  unfold pool_opened_once. intros H.
  destruct (doRequest_no_database lib env method url body w) as (evs & Htr & Hdb).
  destruct (doRequest lib env method url body w) as [r w'] eqn:Hd. cbn [snd] in *.
  destruct (doRequest_inv lib env _ _ _ _ _ _ Hd) as (_ & _ & _ & _ & _ & _ & _ & Hsame).
  rewrite Htr, count_app, (no_database_no_open _ Hdb), Hsame, H. lia.
Qed.

Lemma pool_hardDeleteSoftDeleted id table w :
  pool_opened_once w ->
  pool_opened_once (snd (hardDeleteSoftDeleted lib env id table w)).
Proof.
  unfold pool_opened_once, hardDeleteSoftDeleted, getDB. intros H. run.
  destruct (String.eqb (databaseURL (self w)) EmptyString).
  { cbn [snd]. exact H. }
  destruct (db (self w)) as [[d|e]|] eqn:Hdb; run.
  - destruct (String.eqb table "ConfigurationObject"); run.
    + destruct (sql_ExecContext env _ _ [id]) as [e|]; run.
      * rewrite <- !app_assoc, count_app, H, Hdb. cbn. lia.
      * destruct (sql_ExecContext env _ _ [id]) as [e|]; run;
          rewrite <- !app_assoc, count_app, H, Hdb; cbn; lia.
    + destruct (sql_ExecContext env _ _ [id]) as [e|]; run;
        rewrite <- !app_assoc, count_app, H, Hdb; cbn; lia.
  - rewrite Hdb. exact H.
  - destruct (sql_Open env (trace w) _) as [e|]; run.
    { rewrite count_app, H. cbn. lia. }
    destruct (String.eqb table "ConfigurationObject"); run.
    + destruct (sql_ExecContext env _ _ [id]) as [e|]; run.
      * rewrite <- !app_assoc, count_app, H. cbn. lia.
      * destruct (sql_ExecContext env _ _ [id]) as [e|]; run;
          rewrite <- !app_assoc, count_app, H; cbn; lia.
    + destruct (sql_ExecContext env _ _ [id]) as [e|]; run;
        rewrite <- !app_assoc, count_app, H; cbn; lia.
Qed.

Lemma reachable_pool w : reachable lib env w -> pool_opened_once w.
Proof.
  induction 1 as [| w _ IH | w _ IH | w method url body _ IH | w id table _ IH].
  - reflexivity.
  - exact (pool_authenticate w IH).
  - unfold pool_opened_once, markUnauthenticated, assign_authenticated in *.
    cbn [snd trace self]. rewrite count_app, IH. cbn. lia.
  - exact (pool_doRequest method url body w IH).
  - exact (pool_hardDeleteSoftDeleted id table w IH).
Qed.

End Pool.

(** X2.  The connection pool is opened at most once in the life of a client:
    in every world the client can reach the trace holds at most one call of
    [sql.Open], none while the pool cell is empty.  A second [getDB] returns
    what the first returned, a failure to open included, and does nothing. *)
Theorem pool_is_opened_at_most_once
    (lib : Lib) (env : Env) (w : World) :
  (reachable lib env w ->
   (count is_open (trace w) <= 1)%nat /\
   (db (self w) = None <-> count is_open (trace w) = 0%nat)) /\
  getDB env (snd (getDB env w)) = (fst (getDB env w), snd (getDB env w)) /\
  trace (snd (getDB env (snd (getDB env w)))) = trace (snd (getDB env w)).
Proof.
  split; [|split].
  - intros Hr. pose proof (reachable_pool lib env w Hr) as H.
    unfold pool_opened_once in H. rewrite H.
    destruct (db (self w)); split; try lia; split; (discriminate || reflexivity || lia).
  - apply getDB_idempotent.
  - rewrite getDB_idempotent. reflexivity.
Qed.

Lemma pool_is_opened_at_most_once_example :
  let env := scripted [] (Some "dial tcp: connection refused") [] in
  let w1 := snd (hardDeleteSoftDeleted sample_lib env "s1" "ConfigurationObject"
                   (fresh sample_client)) in
  let w2 := snd (hardDeleteSoftDeleted sample_lib env "s2" "ConfigurationObjectLink"
                   w1) in
  (count is_open (trace w2) <= 1)%nat /\
  fst (getDB env w2) = Err "dial tcp: connection refused".
Proof.
  intros env w1 w2.
  destruct (pool_is_opened_at_most_once sample_lib env w2) as (H & _).
  split; [|vm_compute; reflexivity].
  apply H. apply reach_hardDeleteSoftDeleted, reach_hardDeleteSoftDeleted.
  apply reach_New.
Defined.

(** X3.  Every call of [doRequest], whatever the remote side answers, puts at
    most two requests on the wire and both are the one request of the call;
    it invalidates the session at most once, never addresses the database,
    and leaves the configuration of the client and its pool cell as they
    were.  When it returns a nil error the session is marked authenticated. *)
Theorem doRequest_is_bounded
    (lib : Lib) (env : Env) (method url : string) (body : option object)
    (w : World) :
  let r := fst (doRequest lib env method url body w) in
  let w' := snd (doRequest lib env method url body w) in
  let evs := events_since w w' in
  trace w' = trace w ++ evs /\
  (count is_send evs <= 2)%nat /\
  (count is_invalidation evs <= 1)%nat /\
  count touches_database evs = 0%nat /\
  Forall (fun rq => wire_request lib (self w) method url body = Some rq)
    (sent evs) /\
  same_config (self w) (self w') /\
  db (self w') = db (self w) /\
  (snd r = None -> authenticated (self w') = true).
Proof.
  intros r w' evs. subst r w' evs.
  destruct (doRequest lib env method url body w) as [r w'] eqn:Hd. cbn [fst snd].
  destruct (doRequest_inv lib env _ _ _ _ _ _ Hd)
    as (evs & Htr & Hs & Hi & _ & _ & Hcfg & Hdb).
  destruct (doRequest_sent_and_flag lib env _ _ _ _ _ _ Hd)
    as (evs1 & Htr1 & Hall & Hflag).
  destruct (doRequest_no_database lib env method url body w) as (evs2 & Htr2 & Hnd).
  rewrite Hd in Htr2. cbn [snd] in Htr2.
  assert (evs1 = evs) by (rewrite Htr in Htr1; eapply app_inv_head; eauto).
  assert (evs2 = evs) by (rewrite Htr in Htr2; eapply app_inv_head; eauto).
  subst evs1 evs2. rewrite (events_since_app _ _ _ Htr).
  repeat match goal with |- _ /\ _ => split end; auto.
Qed.

(** * More on the reconciler and Create *)

Section PurgeMore.
Context (lib : Lib) (env : Env).

Lemma hardDeleteSoftDeleted_other_shape id table w :
  table <> "ConfigurationObject" ->
  exists evs,
    trace (snd (hardDeleteSoftDeleted lib env id table w)) = trace w ++ evs /\
    let r := fst (hardDeleteSoftDeleted lib env id table w) in
    (statements evs = [] /\ r <> None)
    \/ (exists e,
          statements evs
          = [(Store.sql_text lib (Store.DeleteSoftDeleted table), [id], e)] /\
          (r = None <-> e = None)).
Proof.
  intros Hne. apply String.eqb_neq in Hne.
  unfold hardDeleteSoftDeleted. run.
  destruct (getDB env w) as [[d|e] w0] eqn:Hdb;
    destruct (getDB_trace env _ _ _ Hdb) as (evs0 & Htr & Hst & _).
  2:{ exists evs0. cbn [fst snd]. split; [exact Htr|]. left.
      split; [exact Hst|discriminate]. }
  rewrite Hne. run.
  destruct (sql_ExecContext env _ _ [id]) as [e|] eqn:H1; run;
    (eexists; split; [rewrite Htr, <- !app_assoc; reflexivity|]);
    right; eexists; rewrite statements_app, Hst; cbn;
    (split; [reflexivity|]); split; (discriminate || reflexivity).
Qed.

Lemma exec_link_rows id d l :
  In l (Store.ConfigurationObjectLink
          (Store.exec (Store.DeleteSoftDeleted "ConfigurationObjectLink") id d))
  <-> In l (Store.ConfigurationObjectLink d) /\
      ~ (Store.l_id l = id /\ Store.l_deleted l = true).
Proof.
  unfold Store.exec. cbn. rewrite List.filter_In.
  change (String.eqb "ConfigurationObjectLink" "ConfigurationObjectLink")
    with true.
  cbn [andb]. rewrite negb_true_iff, andb_false_iff, String.eqb_neq.
  destruct (Store.l_deleted l); intuition congruence.
Qed.

Lemma exec_link_keeps_objects id d :
  Store.ConfigurationObject
    (Store.exec (Store.DeleteSoftDeleted "ConfigurationObjectLink") id d)
  = Store.ConfigurationObject d.
Proof.
  unfold Store.exec. cbn.
  change (String.eqb "ConfigurationObjectLink" "ConfigurationObject") with false.
  cbn. induction (Store.ConfigurationObject d) as [|o l IH]; [reflexivity|].
  cbn. rewrite IH. reflexivity.
Qed.

Lemma Create_request_error workspaceID resourceType payload w body status e w1 :
  doRequest lib env "POST" (configURL lib (self w) workspaceID resourceType)
    (Some payload) w = ((body, status, Some e), w1) ->
  Create lib env workspaceID resourceType payload w = ((None, Some e), w1).
Proof. intros H. unfold Create. run. rewrite H. reflexivity. Qed.

End PurgeMore.

(** X4.  A purge in any table other than [ConfigurationObject], the link
    table in particular, does not cascade: it issues at most one statement,
    the delete of the row with that id guarded by [deleted = true], and
    succeeds exactly when that statement does.  Read as a relation on the
    link table it removes exactly the soft-deleted link with that id and
    leaves the object table alone. *)
Theorem purge_of_a_link_is_one_statement
    (lib : Lib) (env : Env) (id table : string) (w : World) :
  table <> "ConfigurationObject" ->
  let r := fst (hardDeleteSoftDeleted lib env id table w) in
  let w' := snd (hardDeleteSoftDeleted lib env id table w) in
  let q := "DELETE FROM newjitsu." +:+ QuoteIdentifier lib table +:+
           " WHERE id = $1 AND deleted = true" in
  trace w' = trace w ++ events_since w w' /\
  ((statements (events_since w w') = [] /\ r <> None)
   \/ (exists e, statements (events_since w w') = [(q, [id], e)] /\
                 (r = None <-> e = None))) /\
  Contains q "deleted = true" = true /\
  (forall d l,
      In l (Store.ConfigurationObjectLink
              (Store.exec (Store.DeleteSoftDeleted "ConfigurationObjectLink") id d))
      <-> In l (Store.ConfigurationObjectLink d) /\
          ~ (Store.l_id l = id /\ Store.l_deleted l = true)) /\
  (forall d,
      Store.ConfigurationObject
        (Store.exec (Store.DeleteSoftDeleted "ConfigurationObjectLink") id d)
      = Store.ConfigurationObject d).
Proof.
  intros Hne r w' q. subst r w'.
  destruct (hardDeleteSoftDeleted_other_shape lib env id table w Hne)
    as (evs & Htr & Hshape).
  rewrite (events_since_app _ _ _ Htr).
  split; [exact Htr|]. split; [exact Hshape|].
  split; [exact (sql_text_guarded lib (Store.DeleteSoftDeleted table))|].
  split; [intros d l; apply exec_link_rows|apply exec_link_keeps_objects].
Qed.

Lemma purge_of_a_link_is_one_statement_example :
  let env := scripted [] None [None] in
  let w := logged_in sample_client in
  let w' := snd (hardDeleteSoftDeleted sample_lib env "l1"
                   "ConfigurationObjectLink" w) in
  fst (hardDeleteSoftDeleted sample_lib env "l1" "ConfigurationObjectLink" w)
  = None /\
  length (statements (events_since w w')) = 1%nat.
Proof.
  intros env w w'.
  destruct (purge_of_a_link_is_one_statement sample_lib env "l1"
              "ConfigurationObjectLink" w) as (_ & [[_ H]|(e & H & _)] & _).
  - discriminate.
  - exfalso. apply H. vm_compute. reflexivity.
  - split; [vm_compute; reflexivity|]. fold w' in H. rewrite H. reflexivity.
Defined.

(** X5.  [Create] reaches for the database only after a conflict: when the
    first POST fails to be sent, or its response is not a 500 carrying
    [Unique constraint failed], [Create] stops in the world that request left,
    with no retry and no database event; a 2xx body is then decoded and any
    other status is an error. *)
Theorem Create_without_conflict_never_purges
    (lib : Lib) (env : Env) (workspaceID resourceType : string)
    (payload : object) (w : World) :
  let endpoint := configURL lib (self w) workspaceID resourceType in
  let first := doRequest lib env "POST" endpoint (Some payload) w in
  let w' := snd (Create lib env workspaceID resourceType payload w) in
  match first with
  | ((body, status, err), w1) =>
      err <> None \/ is_conflict status body = false ->
      Create lib env workspaceID resourceType payload w
      = (create_result lib endpoint (body, status, err), w1) /\
      count touches_database (events_since w w') = 0%nat /\
      (count is_send (events_since w w') <= 2)%nat
  end.
Proof.
  intros endpoint first w'. subst first w'.
  destruct (doRequest lib env "POST" endpoint (Some payload) w)
    as [[[body status] err] w1] eqn:Hd.
  intros Hcase.
  assert (HC : Create lib env workspaceID resourceType payload w
               = (create_result lib endpoint (body, status, err), w1)).
  { destruct err as [e|].
    - exact (Create_request_error lib env _ _ _ _ _ _ _ _ Hd).
    - destruct Hcase as [H|H]; [exfalso; apply H; reflexivity|].
      exact (Create_no_conflict lib env _ _ _ _ _ _ _ Hd H). }
  rewrite HC. cbn [snd]. split; [reflexivity|].
  destruct (doRequest_inv lib env _ _ _ _ _ _ Hd) as (evs & Htr & Hs & _).
  destruct (doRequest_no_database lib env "POST" endpoint (Some payload) w)
    as (evs' & Htr' & Hnd).
  rewrite Hd in Htr'. cbn [snd] in Htr'.
  assert (evs' = evs) by (rewrite Htr in Htr'; eapply app_inv_head; eauto).
  subst evs'. rewrite (events_since_app _ _ _ Htr). auto.
Qed.

(** X6.  A conflict cannot be repaired without an id: when the first POST
    comes back with the conflict signature and the payload has no [id], or
    one that is not a string or is empty, [Create] returns an error naming
    the missing [id] field and stops in the world the first request left: no
    purge, no retry. *)
Theorem Create_conflict_needs_id
    (lib : Lib) (env : Env) (workspaceID resourceType : string)
    (payload : object) (w w1 : World) (body : string) :
  doRequest lib env "POST" (configURL lib (self w) workspaceID resourceType)
    (Some payload) w = ((body, 500, None), w1) ->
  Contains body "Unique constraint failed" = true ->
  (forall id, payload !! "id" = Some (VString id) -> id = EmptyString) ->
  Create lib env workspaceID resourceType payload w
  = ((None, Some ("POST " +:+ configURL lib (self w) workspaceID resourceType +:+
                  " returned soft-delete conflict but payload has no 'id' field")),
     w1) /\
  events_since w1 (snd (Create lib env workspaceID resourceType payload w)) = [].
Proof.
  intros H Hc Hid.
  rewrite (Create_conflict_without_id lib env _ _ _ _ _ _ H Hc Hid).
  split; [reflexivity|]. cbn [snd]. unfold events_since. apply drop_all.
Qed.

Lemma Create_conflict_needs_id_example :
  let env := scripted [Response 500 "Unique constraint failed on the fields: (id)"]
               None [] in
  let w := logged_in sample_client in
  let payload : object := {[ "id" := VNumber "7" ]} in
  fst (Create sample_lib env "ws" "stream" payload w)
  = (None,
     Some "POST https://jitsu.example.com/api/ws/config/stream returned soft-delete conflict but payload has no 'id' field").
Proof.
  intros env w payload.
  destruct (Create_conflict_needs_id sample_lib env "ws" "stream" payload w
              (snd (doRequest sample_lib env "POST"
                      (configURL sample_lib (self w) "ws" "stream")
                      (Some payload) w))
              "Unique constraint failed on the fields: (id)") as [H _].
  - vm_compute. reflexivity.
  - vm_compute. reflexivity.
  - intros id Hid. vm_compute in Hid. discriminate Hid.
  - rewrite H. vm_compute. reflexivity.
Defined.

(** * What the facade returns *)

(** X7.  [Read] and [WorkspaceRead] never hand out a soft-deleted object:
    an object returned with a nil error does not have [deleted] set to
    [true].  They also never return an object together with an error. *)
Theorem reads_never_return_soft_deleted
    (lib : Lib) (env : Env) (workspaceID resourceType id : string) (w : World) :
  match fst (Read lib env workspaceID resourceType id w) with
  | (Some o, None) => o !! "deleted" <> Some (VBool true)
  | (Some _, Some _) => False
  | (None, _) => True
  end /\
  match fst (WorkspaceRead lib env id w) with
  | (Some o, None) => o !! "deleted" <> Some (VBool true)
  | (Some _, Some _) => False
  | (None, _) => True
  end.
Proof.
  split.
  - unfold Read. run.
    destruct (doRequest lib env "GET" _ None w) as [[[body status] [e|]] w1];
      [exact I|]. run.
    destruct (Z.eqb status 404); [exact I|].
    destruct (Z.ltb status 200 || Z.leb 300 status); [exact I|].
    destruct (json_Unmarshal_object lib body) as [[o|]|e]; try exact I.
    unfold bool_field.
    destruct (o !! "deleted") as [[|[]| | | |]|] eqn:Hd; cbn [fst andb];
      first [exact I | rewrite Hd; discriminate].
  - unfold WorkspaceRead. run.
    destruct (doRequest lib env "GET" _ None w) as [[[body status] [e|]] w1];
      [exact I|]. run.
    destruct (Z.eqb status 404); [exact I|].
    destruct (Z.ltb status 200 || Z.leb 300 status); [exact I|].
    destruct (json_Unmarshal_object lib body) as [[o|]|e]; try exact I.
    unfold bool_field.
    destruct (o !! "deleted") as [[|[]| | | |]|] eqn:Hd; cbn [fst andb];
      first [exact I | rewrite Hd; discriminate].
Qed.

(** X8.  [WorkspaceCreate] returns a workspace id exactly when it returns no
    error, and that id is never empty: a 2xx response without a non-empty
    string [id] is an error, and every error comes with the empty id. *)
Theorem WorkspaceCreate_returns_id_or_error
    (lib : Lib) (env : Env) (name slug : string) (w : World) :
  match fst (WorkspaceCreate lib env name slug w) with
  | (id, None) => id <> EmptyString
  | (id, Some _) => id = EmptyString
  end.
Proof.
  unfold WorkspaceCreate. run.
  destruct (doRequest lib env "POST" _ _ w) as [[[body status] [e|]] w1];
    [reflexivity|]. run.
  destruct (Z.ltb status 200 || Z.leb 300 status).
  { destruct (Z.eqb status 500 && _); reflexivity. }
  destruct (json_Unmarshal_object lib body) as [result|e]; [|reflexivity].
  destruct (string_field "id" result) as [id ok].
  destruct (String.eqb id EmptyString) eqn:Hid; cbn [fst]; [reflexivity|].
  apply String.eqb_neq, Hid.
Qed.

(** X9.  Invalidation forces a new exchange: after [markUnauthenticated], a
    call of [authenticate] that succeeds has fetched one token and logged in
    once and leaves the session marked authenticated; one that fails leaves
    it unmarked, so the next call tries again. *)
Theorem markUnauthenticated_forces_exchange
    (lib : Lib) (env : Env) (w : World) :
  let w0 := snd (markUnauthenticated w) in
  authenticated (self w0) = false /\
  match authenticate lib env w0 with
  | (None, w1) =>
      count is_csrf_fetch (events_since w0 w1) = 1%nat /\
      count is_login (events_since w0 w1) = 1%nat /\
      authenticated (self w1) = true
  | (Some _, w1) => authenticated (self w1) = false
  end.
Proof.
  intros w0. split; [reflexivity|].
  destruct (authenticate lib env w0) as [r w1] eqn:Ha.
  destruct (authenticate_inv lib env _ _ _ Ha)
    as (evs & Htr & _ & _ & _ & _ & _ & _ & _ & Hone & _ & Hok & Herr).
  rewrite (events_since_app _ _ _ Htr).
  destruct r as [e|].
  - rewrite Herr by discriminate. reflexivity.
  - destruct (Hone eq_refl eq_refl) as [Hc Hl].
    destruct (Hok eq_refl) as (-> & _). auto.
Qed.

(** * New *)

Section Trim.

Lemma TrimRight_last s cutset :
  match last_char (TrimRight s cutset) with
  | Some c => mem_char c cutset = false
  | None => True
  end.
Proof.
  induction s as [|c s IH]; [exact I|].
  cbn [TrimRight].
  destruct (TrimRight s cutset) as [|c' t] eqn:Ht.
  - cbn. destruct (mem_char c cutset) eqn:Hm; cbn; [exact I|exact Hm].
  - cbn [String.eqb andb]. exact IH.
Qed.

Lemma TrimRight_split s cutset :
  exists t, s = TrimRight s cutset +:+ t /\ all_in t cutset = true.
Proof.
  induction s as [|c s (t & Hs & Ht)].
  - exists EmptyString. split; reflexivity.
  - cbn [TrimRight].
    destruct (TrimRight s cutset) as [|c' u] eqn:Hu.
    + cbn. destruct (mem_char c cutset) eqn:Hm; cbn.
      * exists (String c t). rewrite append_nil in Hs. subst s.
        split; [reflexivity|]. cbn. rewrite Hm, Ht. reflexivity.
      * exists t. rewrite append_cons, <- Hs. auto.
    + cbn [String.eqb andb]. exists t. rewrite append_cons, <- Hs. auto.
Qed.

End Trim.

(** X10.  [New] stores the console URL with its trailing slashes removed and
    nothing else changed: the stored URL does not end in a slash, and the
    given one is the stored one followed only by slashes; a URL that does
    not end in a slash is stored as given.  The client starts with no
    session and no pool, and with the credentials as given. *)
Theorem New_trims_console_url
    (consoleURL' username' password' databaseURL' userAgent' : string) :
  let c := New consoleURL' username' password' databaseURL' userAgent' in
  last_char (consoleURL c) <> Some handlers.slash /\
  (exists t, consoleURL' = consoleURL c +:+ t /\ all_in t "/" = true) /\
  (last_char consoleURL' <> Some handlers.slash -> consoleURL c = consoleURL') /\
  username c = username' /\ password c = password' /\
  databaseURL c = databaseURL' /\ userAgent c = userAgent' /\
  authenticated c = false /\ db c = None.
Proof.
  intros c. subst c. cbn [New consoleURL username password databaseURL
                            userAgent authenticated db].
  split; [|split; [|split]]; [| |intros Hlast|repeat split].
  - pose proof (TrimRight_last consoleURL' "/") as H.
    destruct (last_char (TrimRight consoleURL' "/")) as [c|]; [|discriminate].
    intros [= ->]. discriminate H.
  - apply TrimRight_split.
  - destruct (TrimRight_split consoleURL' "/") as (t & Hs & Ht).
    destruct t as [|c t].
    { rewrite Hs at 2. clear. induction (TrimRight consoleURL' "/") as [|a u IH];
        [reflexivity|]. rewrite append_cons, <- IH. reflexivity. }
    exfalso. apply Hlast. rewrite Hs. clear Hs Hlast.
    assert (Hall : forall u, all_in u "/" = true -> u <> EmptyString ->
                             last_char u = Some handlers.slash).
    { induction u as [|a u IH]; [congruence|]. cbn. intros Ha _.
      apply andb_true_iff in Ha as [Ha Hu].
      rewrite orb_false_r in Ha. apply Ascii.eqb_eq in Ha. subst a.
      destruct u as [|b u]; [reflexivity|]. apply IH; [exact Hu|discriminate]. }
    assert (Happ : forall u v, v <> EmptyString ->
                               last_char (u +:+ v) = last_char v).
    { induction u as [|a u IH]; intros v Hv; [reflexivity|].
      rewrite append_cons. cbn.
      destruct (u +:+ v) eqn:E.
      - destruct u; [rewrite append_nil in E; congruence|discriminate E].
      - rewrite <- E. apply IH, Hv. }
    rewrite Happ by discriminate. apply Hall; [exact Ht|discriminate].
Qed.

(** * Import identifiers *)

Section ImportID.
Import handlers.

Lemma Split_not_nil s sep : Split s sep <> [].
Proof.
  destruct s as [|a s]; cbn; [discriminate|].
  destruct (Ascii.eqb a sep); [discriminate|].
  destruct (Split s sep); discriminate.
Qed.

Lemma Join_cons p q ps sep :
  Join (p :: q :: ps) sep = p +:+ sep +:+ Join (q :: ps) sep.
Proof. reflexivity. Qed.

Lemma Join_cons_char a p ps sep :
  Join (String a p :: ps) sep = String a (Join (p :: ps) sep).
Proof. destruct ps; reflexivity. Qed.

(** Joining what [Split] returns gives the string back. *)
Lemma Join_Split s sep : Join (Split s sep) (String sep EmptyString) = s.
Proof.
  induction s as [|a s IH]; [reflexivity|]. cbn [Split].
  destruct (Ascii.eqb_spec a sep) as [->|Hne].
  - destruct (Split s sep) as [|q qs] eqn:E; [destruct (Split_not_nil _ _ E)|].
    rewrite Join_cons, IH. reflexivity.
  - destruct (Split s sep) as [|q qs] eqn:E; [destruct (Split_not_nil _ _ E)|].
    rewrite Join_cons_char, IH. reflexivity.
Qed.

(** No part returned by [Split] holds the separator. *)
Lemma Split_parts_free s sep :
  Forall (fun p => mem_char sep p = false) (Split s sep).
Proof.
  induction s as [|a s IH]; [repeat constructor|]. cbn [Split].
  destruct (Ascii.eqb_spec a sep) as [->|Hne].
  - constructor; [reflexivity|exact IH].
  - destruct (Split s sep) as [|q qs]; [repeat constructor|].
    + cbn. apply Ascii.eqb_neq in Hne. rewrite Ascii.eqb_sym, Hne. reflexivity.
    + inversion IH as [|? ? Hq Hqs]; subst. constructor; [|exact Hqs].
      cbn. apply Ascii.eqb_neq in Hne. rewrite Ascii.eqb_sym, Hne. exact Hq.
Qed.

Lemma Split_free p sep : mem_char sep p = false -> Split p sep = [p].
Proof.
  induction p as [|a p IH]; [reflexivity|]. cbn.
  intros [Ha Hp]%orb_false_iff. rewrite Ascii.eqb_sym, Ha, (IH Hp). reflexivity.
Qed.

Lemma Split_app p s sep :
  mem_char sep p = false ->
  Split (p +:+ String sep s) sep = p :: Split s sep.
Proof.
  induction p as [|a p IH].
  - intros _. rewrite append_nil. cbn. rewrite Ascii.eqb_refl. reflexivity.
  - cbn [mem_char]. intros [Ha Hp]%orb_false_iff.
    rewrite append_cons. cbn [Split]. rewrite Ascii.eqb_sym, Ha, (IH Hp).
    reflexivity.
Qed.

(** Splitting a join of separator-free parts gives the parts back. *)
Lemma Split_Join parts sep :
  parts <> [] ->
  Forall (fun p => mem_char sep p = false) parts ->
  Split (Join parts (String sep EmptyString)) sep = parts.
Proof.
  induction parts as [|p ps IH]; [congruence|]. intros _ Hall.
  inversion Hall as [|? ? Hp Hps]; subst.
  destruct ps as [|q qs]; [exact (Split_free p sep Hp)|].
  rewrite Join_cons. rewrite append_cons, append_nil.
  rewrite (Split_app p _ sep Hp), IH; [reflexivity|discriminate|exact Hps].
Qed.

Lemma existsb_empty_false parts :
  existsb (fun p => String.eqb p EmptyString) parts = false <->
  Forall (fun p => p <> EmptyString) parts.
Proof.
  induction parts as [|p ps IH]; cbn.
  - split; [constructor|reflexivity].
  - rewrite orb_false_iff, IH, String.eqb_neq. split.
    + intros [Hp Hps]. constructor; assumption.
    + intros H. inversion H; subst. auto.
Qed.

End ImportID.

Lemma splitImportID_Some id expectedParts parts :
  handlers.splitImportID id expectedParts = Some parts ->
  0 < expectedParts /\
  Z.of_nat (length parts) = expectedParts /\
  Forall (fun p => p <> EmptyString /\ mem_char handlers.slash p = false) parts /\
  handlers.Join parts "/" = id.
Proof.
  unfold handlers.splitImportID.
  destruct (Z.leb_spec expectedParts 0) as [|Hpos]; [discriminate|].
  destruct (Z.eqb_spec (Z.of_nat (length (handlers.Split id handlers.slash)))
              expectedParts) as [Hlen|]; [|discriminate].
  cbn [negb].
  destruct (existsb _ (handlers.Split id handlers.slash)) eqn:He; [discriminate|].
  intros [= <-]. repeat split; [exact Hpos|exact Hlen| |].
  - apply existsb_empty_false in He.
    pose proof (Split_parts_free id handlers.slash) as Hfree.
    revert He Hfree. generalize (handlers.Split id handlers.slash).
    induction l as [|p ps IH]; intros He Hfree; [constructor|].
    inversion He; inversion Hfree; subst. constructor; auto.
  - exact (Join_Split id handlers.slash).
Qed.

Lemma splitImportID_complete expectedParts parts :
  0 < expectedParts ->
  Z.of_nat (length parts) = expectedParts ->
  Forall (fun p => p <> EmptyString /\ mem_char handlers.slash p = false) parts ->
  handlers.splitImportID (handlers.Join parts "/") expectedParts = Some parts.
Proof.
  intros Hpos Hlen Hall. unfold handlers.splitImportID.
  assert (Hne : parts <> []) by (destruct parts; [cbn in Hlen; lia|discriminate]).
  assert (Hfree : Forall (fun p => mem_char handlers.slash p = false) parts).
  { eapply Forall_impl; [exact Hall|]. intros p [_ H]. exact H. }
  assert (Hnonempty : Forall (fun p => p <> EmptyString) parts).
  { eapply Forall_impl; [exact Hall|]. intros p [H _]. exact H. }
  change "/" with (String handlers.slash EmptyString).
  rewrite (Split_Join parts handlers.slash Hne Hfree).
  destruct (Z.leb_spec expectedParts 0); [lia|].
  rewrite Hlen, Z.eqb_refl. cbn [negb].
  apply existsb_empty_false in Hnonempty. rewrite Hnonempty. reflexivity.
Qed.

(** X11.  [splitImportID] accepts an identifier exactly when it is made of the
    expected, positive number of parts, none empty, joined by single slashes;
    it then returns those parts, so joining its result with slashes gives the
    identifier back.  Every other input, among them a non-positive count, the
    empty identifier, a leading, trailing or doubled slash, or a different
    number of parts, gives nil. *)
Theorem splitImportID_accepts_exactly
    (id : string) (expectedParts : Z) (parts : list string) :
  handlers.splitImportID id expectedParts = Some parts <->
  0 < expectedParts /\
  Z.of_nat (length parts) = expectedParts /\
  Forall (fun p => p <> EmptyString /\ mem_char handlers.slash p = false) parts /\
  handlers.Join parts "/" = id.
Proof.
  split.
  - apply splitImportID_Some.
  - intros (Hpos & Hlen & Hall & <-).
    apply splitImportID_complete; assumption.
Qed.

(** * Resource handlers *)

Section HandlerLemmas.
Import handlers.

Lemma Diagnostic_Equal_severity d d' :
  Diagnostic_Equal d d' = true -> severity d = severity d'.
Proof.
  unfold Diagnostic_Equal. intros [[H _]%andb_true_iff _]%andb_true_iff.
  destruct (severity d), (severity d'); first [reflexivity|discriminate].
Qed.

Lemma HasError_app diags diags' :
  HasError (diags ++ diags') = HasError diags || HasError diags'.
Proof. unfold HasError. apply existsb_app. Qed.

(** [Append] adds an error exactly when it is given one. *)
Lemma HasError_Append new diags :
  HasError (Append new diags) = HasError new || HasError diags.
Proof.
  revert diags. induction new as [|d new IH]; intros diags; [reflexivity|].
  cbn [Append]. rewrite IH.
  destruct (existsb (Diagnostic_Equal d) diags) eqn:He.
  - cbn [HasError existsb]. fold (HasError new).
    destruct (Severity_eqb (severity d) SeverityError) eqn:Hd; cbn [orb].
    + apply existsb_exists in He as (d' & Hin & Heq).
      apply Diagnostic_Equal_severity in Heq.
      assert (HasError diags = true) as ->.
      { apply existsb_exists. exists d'. split; [exact Hin|].
        rewrite <- Heq. exact Hd. }
      apply orb_true_r.
    + reflexivity.
  - rewrite HasError_app. cbn [HasError existsb]. fold (HasError new).
    rewrite orb_false_r. unfold HasError.
    destruct (Severity_eqb (severity d) SeverityError),
      (existsb (fun d0 => Severity_eqb (severity d0) SeverityError) new),
      (existsb (fun d0 => Severity_eqb (severity d0) SeverityError) diags);
      reflexivity.
Qed.

Lemma HasError_AddError summary' detail' diags :
  HasError (AddError summary' detail' diags) = true.
Proof. unfold AddError. rewrite HasError_Append. reflexivity. Qed.

Lemma Append_nil diags : Append [] diags = diags.
Proof. reflexivity. Qed.

Context {model : Type}.

Lemma State_add_error summary' detail' (resp : HandlerResponse model) :
  State (add_error summary' detail' resp) = State resp.
Proof. reflexivity. Qed.

Lemma State_append_diags diags (resp : HandlerResponse model) :
  State (append_diags diags resp) = State resp.
Proof. reflexivity. Qed.

Lemma HasError_add_error summary' detail' (resp : HandlerResponse model) :
  HasError (Diagnostics (add_error summary' detail' resp)) = true.
Proof. apply HasError_AddError. Qed.

Lemma Diagnostics_State_Set (state : model) (resp : HandlerResponse model) :
  Diagnostics (State_Set state resp) = Diagnostics resp.
Proof. reflexivity. Qed.

End HandlerLemmas.

(** The ways a handler ends that bear on the state it leaves. *)
Ltac ends_well Hd :=
  cbn [fst snd handlers.Diagnostics handlers.State handlers.State_Set
       handlers.State_RemoveResource handlers.add_error handlers.append_diags
       Append] in *;
  first [ reflexivity | rewrite Hd; discriminate ].

Section FailedHandlers.
Import handlers.
Context (lib : Lib) (env : Env).

Lemma workspaceResource_Create_keeps req (resp : CreateResponse) w :
  HasError (resources.Diagnostics resp) = false ->
  HasError (resources.Diagnostics
              (fst (workspaceResource_Create lib env req resp w))) = true ->
  resources.State (fst (workspaceResource_Create lib env req resp w))
  = resources.State resp.
Proof.
  intros Hne. unfold workspaceResource_Create.
  destruct (resources.Plan_Get req) as [diags plan].
  destruct (HasError (resources.Diagnostics
                        (with_diagnostics (Append diags) resp))) eqn:Hd;
    [reflexivity|].
  run. destruct (WorkspaceCreate lib env _ _ w) as [[id [e|]] w1];
    cbn [fst snd]; [reflexivity|].
  destruct (WorkspaceUpdate lib env _ _ _ w1) as [[o [e|]] w2]; cbn [fst snd].
  - destruct (WorkspaceDelete lib env _ w2) as [[re|] w3]; reflexivity.
  - unfold resources.State_Set, with_diagnostics in *.
    cbn [resources.Diagnostics Append] in *. rewrite Hd. discriminate.
Qed.

Lemma workspaceResource_Read_keeps req :
  keeps_state_on_error (workspaceResource_Read lib env req).
Proof.
  intros resp w Hne. unfold workspaceResource_Read.
  destruct (State_Get req) as [diags state].
  destruct (HasError (Diagnostics (append_diags diags resp))) eqn:Hd;
    [reflexivity|].
  run. destruct (WorkspaceRead lib env _ w) as [[result [e|]] w1];
    cbn [fst snd]; [reflexivity|].
  destruct result; ends_well Hd.
Qed.

Lemma workspaceResource_Update_keeps req :
  keeps_state_on_error (workspaceResource_Update lib env req).
Proof.
  intros resp w Hne. unfold workspaceResource_Update.
  destruct (UPlan_Get req) as [diags plan].
  destruct (HasError (Diagnostics (append_diags diags resp))) eqn:Hd;
    [reflexivity|].
  destruct (UState_Get req) as [diags' state].
  destruct (HasError (Diagnostics (append_diags diags'
                                     (append_diags diags resp)))) eqn:Hd';
    [reflexivity|].
  run. destruct (WorkspaceUpdate lib env _ _ _ w) as [[result [e|]] w1];
    cbn [fst snd]; [reflexivity|].
  ends_well Hd'.
Qed.

Lemma workspaceResource_Delete_keeps req :
  keeps_state_on_error (workspaceResource_Delete lib env req).
Proof.
  intros resp w Hne. unfold workspaceResource_Delete.
  destruct (State_Get req) as [diags state].
  destruct (HasError (Diagnostics (append_diags diags resp))) eqn:Hd;
    [reflexivity|].
  run. destruct (WorkspaceDelete lib env _ w) as [[e|] w1]; reflexivity.
Qed.

Lemma workspaceResource_ImportState_keeps req :
  keeps_state_on_error (workspaceResource_ImportState lib env req).
Proof.
  intros resp w Hne. unfold workspaceResource_ImportState.
  destruct (splitImportID (ImportID req) 1) as [parts|]; [|reflexivity].
  run. destruct (WorkspaceRead lib env _ w) as [[result [e|]] w1];
    cbn [fst snd]; [reflexivity|].
  destruct result; ends_well Hne.
Qed.

(** *** The function resource *)

Lemma function_Create_keeps req :
  keeps_state_on_error (function_resource.Create lib env req).
Proof.
  intros resp w Hne. unfold function_resource.Create.
  destruct (Plan_Get req) as [diags plan].
  destruct (HasError (Diagnostics (append_diags diags resp))) eqn:Hd;
    [reflexivity|].
  run. destruct (client.Create lib env _ _ _ w) as [[o [e|]] w1];
    cbn [fst snd]; ends_well Hd.
Qed.

Lemma function_Read_keeps req :
  keeps_state_on_error (function_resource.Read lib env req).
Proof.
  intros resp w Hne. unfold function_resource.Read.
  destruct (State_Get req) as [diags state].
  destruct (HasError (Diagnostics (append_diags diags resp))) eqn:Hd;
    [reflexivity|].
  run. destruct (client.Read lib env _ _ _ w) as [[result [e|]] w1];
    cbn [fst snd]; [reflexivity|].
  destruct result; ends_well Hd.
Qed.

Lemma function_Update_keeps req :
  keeps_state_on_error (function_resource.Update lib env req).
Proof.
  intros resp w Hne. unfold function_resource.Update.
  destruct (UPlan_Get req) as [diags plan].
  destruct (HasError (Diagnostics (append_diags diags resp))) eqn:Hd;
    [reflexivity|].
  run. destruct (client.Update lib env _ _ _ _ w) as [[o [e|]] w1];
    cbn [fst snd]; ends_well Hd.
Qed.

Lemma function_Delete_keeps req :
  keeps_state_on_error (function_resource.Delete lib env req).
Proof.
  intros resp w Hne. unfold function_resource.Delete.
  destruct (State_Get req) as [diags state].
  destruct (HasError (Diagnostics (append_diags diags resp))) eqn:Hd;
    [reflexivity|].
  run. destruct (client.Delete lib env _ _ _ w) as [[e|] w1]; reflexivity.
Qed.

Lemma function_ImportState_keeps req :
  keeps_state_on_error (function_resource.ImportState lib env req).
Proof.
  intros resp w Hne. unfold function_resource.ImportState.
  destruct (splitImportID (ImportID req) 2) as [parts|]; [|reflexivity].
  run. destruct (client.Read lib env _ _ _ w) as [[result [e|]] w1];
    cbn [fst snd]; [reflexivity|].
  destruct result; ends_well Hne.
Qed.

(** *** The stream resource *)

Section Stream.
Context (elem : Type)
        (ElementsAs : list elem -> list Diagnostic * list stream_resource.streamKeyModel)
        (Sprint : list Diagnostic -> string).

Lemma stream_Create_keeps req :
  keeps_state_on_error (stream_resource.Create lib env elem ElementsAs Sprint req).
Proof.
  intros resp w Hne. unfold stream_resource.Create.
  destruct (Plan_Get req) as [diags plan].
  destruct (HasError (Diagnostics (append_diags diags resp))) eqn:Hd;
    [reflexivity|].
  destruct (stream_resource.keysToPayload elem ElementsAs Sprint
              (stream_resource.PublicKeys plan)) as [pubKeys [e|]];
    [reflexivity|].
  destruct (stream_resource.keysToPayload elem ElementsAs Sprint
              (stream_resource.PrivateKeys plan)) as [privKeys [e|]];
    [reflexivity|].
  run. destruct (client.Create lib env _ _ _ _) as [[o [e|]] w1];
    cbn [fst snd]; [reflexivity|].
  destruct (negb (stream_resource.is_nil pubKeys)
            || negb (stream_resource.is_nil privKeys)); [|ends_well Hd].
  run. destruct (client.Update lib env _ _ _ _ _) as [[o' [e|]] w2];
    cbn [fst snd]; [|ends_well Hd].
  destruct (client.Delete lib env _ _ _ w2) as [[re|] w3]; reflexivity.
Qed.

Lemma stream_Read_keeps req :
  keeps_state_on_error (stream_resource.Read lib env elem req).
Proof.
  intros resp w Hne. unfold stream_resource.Read.
  destruct (State_Get req) as [diags state].
  destruct (HasError (Diagnostics (append_diags diags resp))) eqn:Hd;
    [reflexivity|].
  run. destruct (client.Read lib env _ _ _ w) as [[result [e|]] w1];
    cbn [fst snd]; [reflexivity|].
  destruct result; ends_well Hd.
Qed.

Lemma stream_Update_keeps req :
  keeps_state_on_error (stream_resource.Update lib env elem ElementsAs Sprint req).
Proof.
  intros resp w Hne. unfold stream_resource.Update.
  destruct (UPlan_Get req) as [diags plan].
  destruct (HasError (Diagnostics (append_diags diags resp))) eqn:Hd;
    [reflexivity|].
  destruct (stream_resource.keysToPayload elem ElementsAs Sprint
              (stream_resource.PublicKeys plan)) as [pubKeys [e|]];
    [reflexivity|].
  destruct (stream_resource.keysToPayload elem ElementsAs Sprint
              (stream_resource.PrivateKeys plan)) as [privKeys [e|]];
    [reflexivity|].
  run. destruct (client.Update lib env _ _ _ _ w) as [[o [e|]] w1];
    cbn [fst snd]; ends_well Hd.
Qed.

Lemma stream_Delete_keeps req :
  keeps_state_on_error (stream_resource.Delete lib env elem req).
Proof.
  intros resp w Hne. unfold stream_resource.Delete.
  destruct (State_Get req) as [diags state].
  destruct (HasError (Diagnostics (append_diags diags resp))) eqn:Hd;
    [reflexivity|].
  run. destruct (client.Delete lib env _ _ _ w) as [[e|] w1]; reflexivity.
Qed.

Lemma stream_ImportState_keeps req :
  keeps_state_on_error (stream_resource.ImportState lib env elem req).
Proof.
  intros resp w Hne. unfold stream_resource.ImportState.
  destruct (splitImportID (ImportID req) 2) as [parts|]; [|reflexivity].
  run. destruct (client.Read lib env _ _ _ w) as [[result [e|]] w1];
    cbn [fst snd]; [reflexivity|].
  destruct result; ends_well Hne.
Qed.

End Stream.

(** *** The destination resource *)

Section Destination.
Context (elem : Type)
        (ElementsAs : tfList elem -> list Diagnostic * option (list string))
        (ListValueFrom : list string -> tfList elem * list Diagnostic)
        (Sprint : list Diagnostic -> string).

Lemma destination_Create_keeps req :
  keeps_state_on_error
    (destination_resource.Create lib env elem ElementsAs Sprint req).
Proof.
  intros resp w Hne. unfold destination_resource.Create.
  destruct (Plan_Get req) as [diags plan].
  destruct (HasError (Diagnostics (append_diags diags resp))) eqn:Hd;
    [reflexivity|].
  destruct (destination_resource.buildPayload elem ElementsAs Sprint plan)
    as [payload|e]; [|reflexivity].
  run. destruct (client.Create lib env _ _ _ w) as [[o [e|]] w1];
    cbn [fst snd]; ends_well Hd.
Qed.

Lemma destination_Update_keeps req :
  keeps_state_on_error
    (destination_resource.Update lib env elem ElementsAs Sprint req).
Proof.
  intros resp w Hne. unfold destination_resource.Update.
  destruct (UPlan_Get req) as [diags plan].
  destruct (HasError (Diagnostics (append_diags diags resp))) eqn:Hd;
    [reflexivity|].
  destruct (destination_resource.buildPayload elem ElementsAs Sprint plan)
    as [payload|e]; [|reflexivity].
  run. destruct (client.Update lib env _ _ _ _ w) as [[o [e|]] w1];
    cbn [fst snd]; ends_well Hd.
Qed.

Lemma destination_Delete_keeps req :
  keeps_state_on_error (destination_resource.Delete lib env elem req).
Proof.
  intros resp w Hne. unfold destination_resource.Delete.
  destruct (State_Get req) as [diags state].
  destruct (HasError (Diagnostics (append_diags diags resp))) eqn:Hd;
    [reflexivity|].
  run. destruct (client.Delete lib env _ _ _ w) as [[e|] w1]; reflexivity.
Qed.

(** What [readAPIIntoState] reports comes from [ListValueFrom] alone. *)
Lemma readAPIIntoState_diags result state :
  (forall l, HasError (snd (ListValueFrom l)) = false) ->
  HasError (fst (destination_resource.readAPIIntoState elem ListValueFrom
                   result state)) = false.
Proof.
  intros Hl. unfold destination_resource.readAPIIntoState.
  destruct (destination_resource.list_field "hosts" result) as [hosts ok].
  destruct ok; [|reflexivity].
  specialize (Hl (destination_resource.host_strings hosts)).
  destruct (ListValueFrom _) as [hostList d]. cbn [fst snd] in *.
  rewrite HasError_Append, Hl. reflexivity.
Qed.

Lemma destination_Read_keeps req :
  (forall l, HasError (snd (ListValueFrom l)) = false) ->
  keeps_state_on_error
    (destination_resource.Read lib env elem ListValueFrom req).
Proof.
  intros Hl resp w Hne. unfold destination_resource.Read.
  destruct (State_Get req) as [diags state].
  destruct (HasError (Diagnostics (append_diags diags resp))) eqn:Hd;
    [reflexivity|].
  run. destruct (client.Read lib env _ _ _ w) as [[result [e|]] w1];
    cbn [fst snd]; [reflexivity|].
  destruct result as [o|]; [|ends_well Hd].
  pose proof (readAPIIntoState_diags (Some o) state Hl) as Hr.
  destruct (destination_resource.readAPIIntoState _ _ _ _) as [diags' state'].
  cbn [fst snd Diagnostics State State_Set append_diags Append] in *.
  rewrite HasError_Append, Hr, Hd. discriminate.
Qed.

Lemma destination_ImportState_keeps req :
  (forall l, HasError (snd (ListValueFrom l)) = false) ->
  keeps_state_on_error
    (destination_resource.ImportState lib env elem ListValueFrom req).
Proof.
  intros Hl resp w Hne. unfold destination_resource.ImportState.
  destruct (splitImportID (ImportID req) 2) as [parts|]; [|reflexivity].
  run. destruct (client.Read lib env _ _ _ w) as [[result [e|]] w1];
    cbn [fst snd]; [reflexivity|].
  destruct result as [o|]; [|reflexivity].
  match goal with
  | |- context [destination_resource.readAPIIntoState ?a ?b ?c ?d] =>
      pose proof (readAPIIntoState_diags c d Hl) as Hr;
      destruct (destination_resource.readAPIIntoState a b c d)
        as [diags' state']
  end.
  cbn [fst snd Diagnostics State State_Set append_diags Append] in *.
  rewrite HasError_Append, Hr, Hne. discriminate.
Qed.

End Destination.
End FailedHandlers.

Ltac split_all := repeat match goal with |- _ /\ _ => split end.

(** X12.  A handler of the workspace, function or stream resource that ends
    with an error in its diagnostics has left the state of the response as it
    found it: no handler both reports a failure and records, replaces or
    removes a resource.  This covers the early returns, the failures of the
    client, a missing object on import and both outcomes of a rollback. *)
Theorem failed_handlers_leave_state
    (lib : Lib) (env : Env) (elem : Type)
    (ElementsAs : list elem -> list Diagnostic * list stream_resource.streamKeyModel)
    (Sprint : list Diagnostic -> string) :
  (forall req resp w,
     HasError (resources.Diagnostics resp) = false ->
     HasError (resources.Diagnostics
                 (fst (workspaceResource_Create lib env req resp w))) = true ->
     resources.State (fst (workspaceResource_Create lib env req resp w))
     = resources.State resp) /\
  (forall req, keeps_state_on_error (handlers.workspaceResource_Read lib env req)) /\
  (forall req, keeps_state_on_error (handlers.workspaceResource_Update lib env req)) /\
  (forall req, keeps_state_on_error (handlers.workspaceResource_Delete lib env req)) /\
  (forall req,
     keeps_state_on_error (handlers.workspaceResource_ImportState lib env req)) /\
  (forall req, keeps_state_on_error (function_resource.Create lib env req)) /\
  (forall req, keeps_state_on_error (function_resource.Read lib env req)) /\
  (forall req, keeps_state_on_error (function_resource.Update lib env req)) /\
  (forall req, keeps_state_on_error (function_resource.Delete lib env req)) /\
  (forall req, keeps_state_on_error (function_resource.ImportState lib env req)) /\
  (forall req,
     keeps_state_on_error
       (stream_resource.Create lib env elem ElementsAs Sprint req)) /\
  (forall req, keeps_state_on_error (stream_resource.Read lib env elem req)) /\
  (forall req,
     keeps_state_on_error
       (stream_resource.Update lib env elem ElementsAs Sprint req)) /\
  (forall req, keeps_state_on_error (stream_resource.Delete lib env elem req)) /\
  (forall req,
     keeps_state_on_error (stream_resource.ImportState lib env elem req)).
Proof.
  split_all.
  - apply workspaceResource_Create_keeps.
  - apply workspaceResource_Read_keeps.
  - apply workspaceResource_Update_keeps.
  - apply workspaceResource_Delete_keeps.
  - apply workspaceResource_ImportState_keeps.
  - apply function_Create_keeps.
  - apply function_Read_keeps.
  - apply function_Update_keeps.
  - apply function_Delete_keeps.
  - apply function_ImportState_keeps.
  - apply stream_Create_keeps.
  - apply stream_Read_keeps.
  - apply stream_Update_keeps.
  - apply stream_Delete_keeps.
  - apply stream_ImportState_keeps.
Qed.

(** X13.  The handlers of the destination resource keep the same rule:
    [Create], [Update] and [Delete] always, [Read] and [ImportState] as long
    as [types.ListValueFrom] reports no error for a list of strings, the one
    diagnostic these two append before they store the state. *)
Theorem failed_destination_handlers_leave_state
    (lib : Lib) (env : Env) (elem : Type)
    (ElementsAs : handlers.tfList elem -> list Diagnostic * option (list string))
    (ListValueFrom : list string -> handlers.tfList elem * list Diagnostic)
    (Sprint : list Diagnostic -> string) :
  (forall req,
     keeps_state_on_error
       (destination_resource.Create lib env elem ElementsAs Sprint req)) /\
  (forall req,
     keeps_state_on_error
       (destination_resource.Update lib env elem ElementsAs Sprint req)) /\
  (forall req,
     keeps_state_on_error (destination_resource.Delete lib env elem req)) /\
  ((forall l, HasError (snd (ListValueFrom l)) = false) ->
   (forall req,
      keeps_state_on_error
        (destination_resource.Read lib env elem ListValueFrom req)) /\
   (forall req,
      keeps_state_on_error
        (destination_resource.ImportState lib env elem ListValueFrom req))).
Proof.
  split_all.
  - apply destination_Create_keeps.
  - apply destination_Update_keeps.
  - apply destination_Delete_keeps.
  - intros Hl. split; intros req.
    + apply destination_Read_keeps, Hl.
    + apply destination_ImportState_keeps, Hl.
Qed.

(** ** Import *)

Section Imports.
Import handlers.

Lemma splitImportID_two id parts :
  splitImportID id 2 = Some parts ->
  parts = [part 0 parts; part 1 parts] /\
  two_part id (part 0 parts) (part 1 parts).
Proof.
  intros (_ & Hlen & Hall & Hjoin)%splitImportID_Some.
  destruct parts as [|a [|b [|c ps]]]; cbn in Hlen; try lia.
  inversion Hall as [|? ? [Ha Ha'] Hall']; subst.
  inversion Hall' as [|? ? [Hb Hb'] _]; subst.
  split; [reflexivity|]. unfold two_part, part. cbn [nth Join].
  repeat split; assumption.
Qed.

Lemma splitImportID_one id parts :
  splitImportID id 1 = Some parts ->
  parts = [id] /\ id <> EmptyString /\ mem_char slash id = false.
Proof.
  intros (_ & Hlen & Hall & Hjoin)%splitImportID_Some.
  destruct parts as [|a [|b ps]]; cbn in Hlen; try lia.
  inversion Hall as [|? ? [Ha Ha'] _]; subst. cbn [Join].
  repeat split; assumption.
Qed.

Context (lib : Lib) (env : Env).

(** The steps shared by the import handlers of the three resources kept
    under a workspace. *)
Ltac import_two h :=
  intros req resp w; unfold h; split;
  [ intros Hno;
    destruct (splitImportID (ImportID req) 2) as [parts|] eqn:Hs;
    [ exfalso; apply splitImportID_two in Hs as [_ Hs]; exact (Hno _ _ Hs)
    | cbn [fst snd mret M_ret]; repeat split; apply HasError_AddError ]
  | intros st Hnone;
    destruct (splitImportID (ImportID req) 2) as [parts|] eqn:Hs;
    [ apply splitImportID_two in Hs as [_ Hs]
    | cbn [fst snd mret M_ret add_error State]; congruence ];
    run;
    destruct (client.Read lib env _ _ _ w) as [[result [e|]] w1];
    cbn [fst snd add_error State];
    [ congruence | ];
    destruct result as [o|]; cbn [fst snd add_error State]; [ | congruence ] ].

Lemma function_imports :
  imports_two_part_ids (function_resource.ImportState lib env)
    function_resource.WorkspaceID function_resource.ID.
Proof.
  import_two function_resource.ImportState.
  cbn [State_Set State]. intros [= <-]. eauto.
Qed.

Lemma stream_imports elem :
  imports_two_part_ids (stream_resource.ImportState lib env elem)
    stream_resource.WorkspaceID stream_resource.ID.
Proof.
  import_two stream_resource.ImportState.
  cbn [State_Set State]. intros [= <-]. eauto.
Qed.

Lemma destination_imports elem ListValueFrom :
  imports_two_part_ids
    (destination_resource.ImportState lib env elem ListValueFrom)
    destination_resource.WorkspaceID destination_resource.ID.
Proof.
  import_two destination_resource.ImportState.
  unfold destination_resource.readAPIIntoState.
  destruct (destination_resource.list_field "hosts" (Some o)) as [hosts ok].
  destruct (if ok then _ else _) as [diags hostList].
  cbn [fst State_Set State]. intros [= <-]. eauto.
Qed.

End Imports.

(** X14.  The import handlers of the function, stream and destination
    resources take identifiers of the form workspace/id.  An identifier that
    is not two non-empty, slash-free parts around one slash is refused with
    an error before anything is sent or logged, and the state is left alone.
    A state stored by an import into an empty state has for workspace and id
    the two parts of the identifier, so joining them with a slash gives the
    identifier back. *)
Theorem imports_take_workspace_and_id
    (lib : Lib) (env : Env) (elem : Type)
    (ListValueFrom : list string -> handlers.tfList elem * list Diagnostic) :
  imports_two_part_ids (function_resource.ImportState lib env)
    function_resource.WorkspaceID function_resource.ID /\
  imports_two_part_ids (stream_resource.ImportState lib env elem)
    stream_resource.WorkspaceID stream_resource.ID /\
  imports_two_part_ids
    (destination_resource.ImportState lib env elem ListValueFrom)
    destination_resource.WorkspaceID destination_resource.ID.
Proof.
  split_all.
  - apply function_imports.
  - apply stream_imports.
  - apply destination_imports.
Qed.

(** X15.  The import handler of the workspace resource takes one part: an
    empty identifier or one with a slash is refused before anything is sent,
    and any other identifier leads to the calls of one [WorkspaceRead] of it.
    A state is stored by an import into an empty state only for a well-formed
    identifier whose read returned an object and no error, and it is fixed by
    that object: its ID is the [id] of the object when that is a non-empty
    string and the identifier otherwise, never empty; its name and slug are
    those of the object when they are strings and null otherwise. *)
Theorem workspace_import_takes_one_part
    (lib : Lib) (env : Env) (req : handlers.ImportStateRequest)
    (resp : handlers.HandlerResponse workspaceModel) (w : World) :
  let id := handlers.ImportID req in
  let out := handlers.workspaceResource_ImportState lib env req resp w in
  let result := fst (fst (WorkspaceRead lib env id w)) in
  let text (key : string) : option string :=
    match result with
    | Some o => match o !! key with Some (VString v) => Some v | _ => None end
    | None => None
    end in
  (id = EmptyString \/ mem_char handlers.slash id = true ->
   snd out = w /\ handlers.State (fst out) = handlers.State resp /\
   HasError (handlers.Diagnostics (fst out)) = true) /\
  (id <> EmptyString -> mem_char handlers.slash id = false ->
   snd out = snd (WorkspaceRead lib env id w)) /\
  (forall st,
     handlers.State resp = None -> handlers.State (fst out) = Some st ->
     id <> EmptyString /\ mem_char handlers.slash id = false /\
     snd (fst (WorkspaceRead lib env id w)) = None /\ result <> None /\
     ID st = StringValue (match text "id" with
                          | Some v => if String.eqb v EmptyString then id else v
                          | None => id
                          end) /\
     ID st <> StringValue EmptyString /\
     Name st = match text "name" with
               | Some v => StringValue v
               | None => StringNull
               end /\
     Slug st = match text "slug" with
               | Some v => StringValue v
               | None => StringNull
               end).
Proof.
  intros id out result text. subst out result text.
  unfold handlers.workspaceResource_ImportState.
  fold id. split_all.
  - intros Hbad.
    destruct (handlers.splitImportID id 1) as [parts|] eqn:Hs.
    + apply splitImportID_one in Hs as (_ & Hne & Hfree).
      destruct Hbad as [Hbad|Hbad]; congruence.
    + cbn [fst snd mret M_ret]. repeat split. apply HasError_AddError.
  - intros Hne Hfree.
    assert (Hs : handlers.splitImportID id 1 = Some [id]).
    { change id with (handlers.Join [id] "/") at 1.
      apply splitImportID_complete; [lia|reflexivity|].
      constructor; [split; assumption|constructor]. }
    rewrite Hs. unfold handlers.part. cbn [nth]. run.
    destruct (WorkspaceRead lib env id w) as [[result [e|]] w1];
      cbn [fst snd]; [reflexivity|].
    destruct result; reflexivity.
  - intros st Hnone.
    destruct (handlers.splitImportID id 1) as [parts|] eqn:Hs;
      [|cbn [fst snd mret M_ret handlers.add_error handlers.State]; congruence].
    apply splitImportID_one in Hs as (-> & Hne & Hfree).
    unfold handlers.part. cbn [nth]. run.
    destruct (WorkspaceRead lib env id w) as [[result [e|]] w1];
      cbn [fst snd handlers.add_error handlers.State]; [congruence|].
    destruct result as [o|];
      cbn [fst snd handlers.add_error handlers.State handlers.State_Set];
      [|congruence].
    intros [= <-]. cbn [ID Name Slug].
    unfold handlers.nonempty_string_or, handlers.string_or, string_field.
    split_all; try assumption; try reflexivity; try discriminate.
    + destruct (o !! "id") as [[| | |v| |]|]; cbn [andb]; try reflexivity.
      destruct (String.eqb v EmptyString); reflexivity.
    + destruct (o !! "id") as [[| | |v| |]|]; cbn [andb]; try congruence.
      destruct (String.eqb_spec v EmptyString); cbn [negb]; congruence.
    + destruct (o !! "name") as [[| | |v| |]|]; reflexivity.
    + destruct (o !! "slug") as [[| | |v| |]|]; reflexivity.
Qed.

(** ** The stream resource: keys *)

Section StreamKeys.
Import handlers.
Context (lib : Lib) (env : Env).
Context (elem : Type)
        (ElementsAs : list elem -> list Diagnostic * list stream_resource.streamKeyModel)
        (Sprint : list Diagnostic -> string).

Local Abbreviation keysToPayload :=
  (stream_resource.keysToPayload elem ElementsAs Sprint).

(** [keysToPayload] fails exactly on a list with elements whose conversion
    reports an error; then it returns no payload. *)
Lemma keysToPayload_error keys :
  snd (keysToPayload keys) <> None <->
  exists elems, keys = ListValue elems /\ elems <> [] /\
                HasError (fst (ElementsAs elems)) = true.
Proof.
  unfold stream_resource.keysToPayload. split.
  - destruct keys as [| |[|x elems]]; cbn [snd]; try congruence.
    destruct (ElementsAs (x :: elems)) as [diags models] eqn:He.
    destruct (HasError diags) eqn:Hd; cbn [snd]; [|congruence].
    intros _. exists (x :: elems). rewrite He. split_all; first [reflexivity|discriminate|exact Hd].
  - intros (elems & -> & Hne & Herr).
    destruct elems as [|x elems]; [congruence|].
    destruct (ElementsAs (x :: elems)) as [diags models].
    cbn [fst] in Herr. rewrite Herr. discriminate.
Qed.

(** Without an error, the payload is nil for a null, unknown or empty list
    and holds one entry for each key otherwise. *)
Lemma keysToPayload_payload keys :
  snd (keysToPayload keys) = None ->
  fst (keysToPayload keys)
  = match keys with
    | ListValue (x :: elems) =>
        Some (List.map stream_resource.key_entry (snd (ElementsAs (x :: elems))))
    | _ => None
    end.
Proof.
  unfold stream_resource.keysToPayload.
  destruct keys as [| |[|x elems]]; try reflexivity.
  destruct (ElementsAs (x :: elems)) as [diags models].
  destruct (HasError diags); cbn [fst snd]; [discriminate|reflexivity].
Qed.

Lemma stream_Create_keys_first req resp w :
  let plan := snd (Plan_Get req) in
  snd (keysToPayload (stream_resource.PublicKeys plan)) <> None \/
  snd (keysToPayload (stream_resource.PrivateKeys plan)) <> None ->
  let out := stream_resource.Create lib env elem ElementsAs Sprint req resp w in
  snd out = w /\ State (fst out) = State resp.
Proof.
  intros plan Hbad out. subst plan out. unfold stream_resource.Create.
  destruct (Plan_Get req) as [diags plan]. cbn [snd] in Hbad.
  destruct (HasError (Diagnostics (append_diags diags resp)));
    [split; reflexivity|].
  destruct (keysToPayload (stream_resource.PublicKeys plan))
    as [pubKeys [e|]]; [split; reflexivity|].
  destruct (keysToPayload (stream_resource.PrivateKeys plan))
    as [privKeys [e|]]; [split; reflexivity|].
  cbn [snd] in Hbad. destruct Hbad; congruence.
Qed.

Lemma stream_Update_keys_first req resp w :
  let plan := snd (UPlan_Get req) in
  snd (keysToPayload (stream_resource.PublicKeys plan)) <> None \/
  snd (keysToPayload (stream_resource.PrivateKeys plan)) <> None ->
  let out := stream_resource.Update lib env elem ElementsAs Sprint req resp w in
  snd out = w /\ State (fst out) = State resp.
Proof.
  intros plan Hbad out. subst plan out. unfold stream_resource.Update.
  destruct (UPlan_Get req) as [diags plan]. cbn [snd] in Hbad.
  destruct (HasError (Diagnostics (append_diags diags resp)));
    [split; reflexivity|].
  destruct (keysToPayload (stream_resource.PublicKeys plan))
    as [pubKeys [e|]]; [split; reflexivity|].
  destruct (keysToPayload (stream_resource.PrivateKeys plan))
    as [privKeys [e|]]; [split; reflexivity|].
  cbn [snd] in Hbad. destruct Hbad; congruence.
Qed.

End StreamKeys.

(** X16.  The stream handlers convert the keys of the plan before they send
    anything.  [keysToPayload] fails exactly on a list with elements whose
    conversion to key models reports an error, and otherwise returns nil for
    a null, unknown or empty list and one entry for each key.  When it fails
    for the public or the private keys, [Create] and [Update] return with the
    world as it was, nothing sent, nothing logged, and the state untouched: a
    key that cannot be converted never leaves a stream created without its
    keys. *)
Theorem stream_keys_are_converted_before_any_request
    (lib : Lib) (env : Env) (elem : Type)
    (ElementsAs : list elem -> list Diagnostic * list stream_resource.streamKeyModel)
    (Sprint : list Diagnostic -> string) :
  let keysToPayload := stream_resource.keysToPayload elem ElementsAs Sprint in
  (forall keys,
     snd (keysToPayload keys) <> None <->
     exists elems, keys = handlers.ListValue elems /\ elems <> [] /\
                   HasError (fst (ElementsAs elems)) = true) /\
  (forall keys, snd (keysToPayload keys) <> None -> fst (keysToPayload keys) = None) /\
  (forall keys,
     snd (keysToPayload keys) = None ->
     fst (keysToPayload keys)
     = match keys with
       | handlers.ListValue (x :: elems) =>
           Some (List.map stream_resource.key_entry
                   (snd (ElementsAs (x :: elems))))
       | _ => None
       end) /\
  (forall req resp w,
     let plan := snd (handlers.Plan_Get req) in
     snd (keysToPayload (stream_resource.PublicKeys plan)) <> None \/
     snd (keysToPayload (stream_resource.PrivateKeys plan)) <> None ->
     let out := stream_resource.Create lib env elem ElementsAs Sprint req resp w in
     snd out = w /\ handlers.State (fst out) = handlers.State resp) /\
  (forall req resp w,
     let plan := snd (handlers.UPlan_Get req) in
     snd (keysToPayload (stream_resource.PublicKeys plan)) <> None \/
     snd (keysToPayload (stream_resource.PrivateKeys plan)) <> None ->
     let out := stream_resource.Update lib env elem ElementsAs Sprint req resp w in
     snd out = w /\ handlers.State (fst out) = handlers.State resp).
Proof.
  intros keysToPayload. subst keysToPayload. split_all.
  - apply keysToPayload_error.
  - intros keys. unfold stream_resource.keysToPayload.
    destruct keys as [| |[|x elems]]; cbn [fst snd]; try congruence.
    destruct (ElementsAs (x :: elems)) as [diags models].
    destruct (HasError diags); cbn [fst snd]; congruence.
  - apply keysToPayload_payload.
  - apply stream_Create_keys_first.
  - apply stream_Update_keys_first.
Qed.

(** X17.  When the POST of a stream succeeds and the PUT that sets its keys
    fails with [e], [Create] deletes the stream it has just created and
    reports one error whose detail is [e] followed by the outcome of the
    rollback: that the stream was rolled back, or that the rollback failed
    and why.  The state of the response is left as it was.  The rollback is
    a request on the wire: everything sent after the failed PUT is the
    DELETE of the URL of the stream; it is sent at once when the session is
    still authenticated and the request can be built; and the rollback is
    reported as done only when the last such request was answered 2xx. *)
Theorem stream_Create_rolls_back_on_failed_keys
    (lib : Lib) (env : Env) (elem : Type)
    (ElementsAs : list elem -> list Diagnostic * list stream_resource.streamKeyModel)
    (Sprint : list Diagnostic -> string)
    (req : handlers.PlanRequest (stream_resource.streamModel elem))
    (resp : handlers.HandlerResponse (stream_resource.streamModel elem))
    (w w1 w2 : World) (pubKeys privKeys : option (list value))
    (o o' : option object) (e : Error) :
  let plan := snd (handlers.Plan_Get req) in
  let ws := ValueString (stream_resource.WorkspaceID plan) in
  let id := ValueString (stream_resource.ID plan) in
  let diags := Append (fst (handlers.Plan_Get req)) (handlers.Diagnostics resp) in
  let fields : gmap string value := {[ "id" := VString id ]} in
  HasError diags = false ->
  stream_resource.keysToPayload elem ElementsAs Sprint
    (stream_resource.PublicKeys plan) = (pubKeys, None) ->
  stream_resource.keysToPayload elem ElementsAs Sprint
    (stream_resource.PrivateKeys plan) = (privKeys, None) ->
  pubKeys <> None \/ privKeys <> None ->
  client.Create lib env ws "stream" (stream_resource.base_payload elem plan)
    (snd (tflog LevelDebug "creating stream (step 1: POST without keys)"
            fields w))
  = ((o, None), w1) ->
  client.Update lib env ws "stream" id
    (stream_resource.with_keys "privateKeys" privKeys
       (stream_resource.with_keys "publicKeys" pubKeys
          (stream_resource.base_payload elem plan)))
    (snd (tflog LevelDebug
            "setting stream keys (step 2: PUT with plaintext keys)" fields w1))
  = ((o', Some e), w2) ->
  let rollbackErr := fst (client.Delete lib env ws "stream" id w2) in
  let w3 := snd (client.Delete lib env ws "stream" id w2) in
  let outcome :=
    match rollbackErr with
    | None => ". Rolled back newly-created stream " +:+ Quote lib id +:+ "."
    | Some re => ". Rollback failed for stream " +:+ Quote lib id +:+ ": " +:+ re
    end in
  let delete :=
    wire_request lib (self w2) "DELETE"
      (configItemURL lib (self w2) ws "stream" id) None in
  stream_resource.Create lib env elem ElementsAs Sprint req resp w
  = ({| handlers.Diagnostics :=
          diags ++ [{| severity := SeverityError;
                       summary := "Error setting stream keys";
                       detail := e +:+ outcome |}];
        handlers.State := handlers.State resp |}, w3) /\
  exists evs,
    trace w3 = trace w2 ++ evs /\
    Forall (fun x => delete = Some (fst x)) (exchanges evs) /\
    (forall rq,
       authenticate lib env w2 = (None, w2) -> delete = Some rq ->
       exists out rest, exchanges evs = (rq, out) :: rest) /\
    (rollbackErr = None ->
     exists rq status body,
       delete = Some rq /\
       last (exchanges evs) = Some (rq, Response status body) /\
       200 <= status < 300).
Proof.
  intros plan ws id diags fields Hne Hpub Hpriv Hkeys Hc Hu rollbackErr w3
    outcome delete.
  split; [|exact (Delete_events lib env ws "stream" id w2)].
  unfold stream_resource.Create.
  destruct (handlers.Plan_Get req) as [ds pl] eqn:Hplan.
  cbn [fst snd] in *. subst plan.
  unfold handlers.append_diags. cbn [handlers.Diagnostics handlers.State].
  fold diags. rewrite Hne, Hpub, Hpriv.
  assert (Hhas : negb (stream_resource.is_nil pubKeys)
                 || negb (stream_resource.is_nil privKeys) = true).
  { destruct pubKeys, privKeys; cbn; try reflexivity.
    destruct Hkeys; congruence. }
  rewrite Hhas.
  unfold tflog in Hc, Hu. unfold emit in Hc, Hu. cbn [snd self trace] in Hc, Hu.
  run. fold ws id fields. rewrite Hc. run. fold fields. rewrite Hu. run.
  subst rollbackErr w3 outcome.
  destruct (client.Delete lib env ws "stream" id w2) as [[re|] w3];
    cbn [fst snd]; unfold handlers.add_error;
    cbn [handlers.Diagnostics handlers.State];
    rewrite (AddError_fresh _ _ _ Hne); reflexivity.
Qed.

Lemma stream_Create_rolls_back_on_failed_keys_example :
  let env := Examples.scripted
               [Response 200 (Examples.text_of Examples.stream_s1);
                Response 500 "keys rejected";
                Response 200 "{}"] None [] in
  let w := Examples.logged_in Examples.sample_client in
  let req := {| handlers.Plan_Get := ([], HandlerExamples.stream_plan) |} in
  let resp := {| handlers.Diagnostics := []; handlers.State := None |} in
  let out := stream_resource.Create HandlerExamples.keys_lib env _
               HandlerExamples.keys_as HandlerExamples.sprint req resp w in
  fst out
  = {| handlers.Diagnostics :=
         [{| severity := SeverityError;
             summary := "Error setting stream keys";
             detail := "PUT https://jitsu.example.com/api/w1/config/stream/s1 returned 500: keys rejected. Rolled back newly-created stream " +:+ Examples.quoted "s1" +:+ "." |}];
       handlers.State := None |} /\
  List.map (fun x => (rq_method (fst x), rq_url (fst x), rq_body (fst x), snd x))
    (exchanges (trace (snd out)))
  = [("POST", "https://jitsu.example.com/api/w1/config/stream",
      Some (Examples.text_of
              (stream_resource.base_payload _ HandlerExamples.stream_plan)),
      Response 200 (Examples.text_of Examples.stream_s1));
     ("PUT", "https://jitsu.example.com/api/w1/config/stream/s1",
      Some HandlerExamples.stream_update_doc,
      Response 500 "keys rejected");
     ("DELETE", "https://jitsu.example.com/api/w1/config/stream/s1",
      None, Response 200 "{}")].
Proof.
  intros env w req resp out. subst out.
  set (fields := ({[ "id" := VString "s1" ]} : gmap string value)).
  set (w0 := snd (tflog LevelDebug "creating stream (step 1: POST without keys)"
                    fields w)).
  set (w1 := snd (client.Create HandlerExamples.keys_lib env "w1" "stream"
                    (stream_resource.base_payload _ HandlerExamples.stream_plan)
                    w0)).
  set (w1' := snd (tflog LevelDebug
                     "setting stream keys (step 2: PUT with plaintext keys)"
                     fields w1)).
  set (payload :=
         stream_resource.with_keys "privateKeys" None
           (stream_resource.with_keys "publicKeys"
              (Some [stream_resource.key_entry HandlerExamples.key_k1])
              (stream_resource.base_payload _ HandlerExamples.stream_plan))).
  set (w2 := snd (client.Update HandlerExamples.keys_lib env "w1" "stream" "s1"
                    payload w1')).
  destruct (stream_Create_rolls_back_on_failed_keys HandlerExamples.keys_lib env
             _ HandlerExamples.keys_as HandlerExamples.sprint req resp
             w w1 w2 (Some [stream_resource.key_entry HandlerExamples.key_k1])
             None (Some Examples.stream_s1) None
             "PUT https://jitsu.example.com/api/w1/config/stream/s1 returned 500: keys rejected")
    as (Heq & _);
    [ vm_compute; reflexivity | reflexivity | reflexivity | left; discriminate
    | vm_compute; reflexivity | vm_compute; reflexivity | ].
  rewrite Heq. split; vm_compute; reflexivity.
Defined.

(** ** The destination resource: payload and read-back *)

Section DestinationState.
Import handlers.
Context (elem : Type)
        (ElementsAs : tfList elem -> list Diagnostic * option (list string))
        (ListValueFrom : list string -> tfList elem * list Diagnostic)
        (Sprint : list Diagnostic -> string).

Local Abbreviation readAPIIntoState :=
  (destination_resource.readAPIIntoState elem ListValueFrom).
Local Abbreviation buildPayload :=
  (destination_resource.buildPayload elem ElementsAs Sprint).

Lemma string_or_idem key result old :
  string_or key result (string_or key result old) = string_or key result old.
Proof.
  unfold string_or. destruct (string_field key result) as [v [|]]; reflexivity.
Qed.

Lemma string_or_absent key result old :
  snd (string_field key result) = false -> string_or key result old = old.
Proof.
  unfold string_or. destruct (string_field key result) as [v [|]];
    [discriminate|reflexivity].
Qed.

Lemma string_or_present key o v old :
  o !! key = Some (VString v) -> string_or key (Some o) old = StringValue v.
Proof. intros H. unfold string_or, string_field. rewrite H. reflexivity. Qed.

Lemma readAPIIntoState_idem result state :
  readAPIIntoState result (snd (readAPIIntoState result state))
  = readAPIIntoState result state.
Proof.
  unfold destination_resource.readAPIIntoState.
  destruct (destination_resource.list_field "hosts" result) as [hosts ok].
  destruct (if ok then _ else _) as [diags hostList].
  cbn [snd destination_resource.WorkspaceID destination_resource.ID
       destination_resource.Name destination_resource.DestinationType
       destination_resource.Password].
  rewrite !string_or_idem. reflexivity.
Qed.

End DestinationState.

(** X18.  [readAPIIntoState] is stable and forgets stale values.  Applying it
    again to its own result changes nothing, so a second read of the same
    answer shows no difference.  The workspace, the id and the password of
    the state are kept whatever the answer holds.  Protocol, hosts, username
    and database, and the diagnostics, come from the answer alone: they are
    the same from any earlier state, and a protocol, username or database
    that is missing or not a string in the answer is stored as null, as are
    hosts that are missing or not a list. *)
Theorem destination_read_is_stable
    (elem : Type)
    (ListValueFrom : list string -> handlers.tfList elem * list Diagnostic)
    (result : option object)
    (state other : destination_resource.destinationModel elem) :
  let read := destination_resource.readAPIIntoState elem ListValueFrom result in
  let state' := snd (read state) in
  read state' = read state /\
  (destination_resource.WorkspaceID state' = destination_resource.WorkspaceID state /\
   destination_resource.ID state' = destination_resource.ID state /\
   destination_resource.Password state' = destination_resource.Password state) /\
  (fst (read other) = fst (read state) /\
   destination_resource.Protocol (snd (read other))
   = destination_resource.Protocol state' /\
   destination_resource.Hosts (snd (read other))
   = destination_resource.Hosts state' /\
   destination_resource.Username (snd (read other))
   = destination_resource.Username state' /\
   destination_resource.Database (snd (read other))
   = destination_resource.Database state') /\
  (snd (string_field "protocol" result) = false ->
   destination_resource.Protocol state' = StringNull) /\
  (snd (string_field "username" result) = false ->
   destination_resource.Username state' = StringNull) /\
  (snd (string_field "database" result) = false ->
   destination_resource.Database state' = StringNull) /\
  (snd (destination_resource.list_field "hosts" result) = false ->
   destination_resource.Hosts state' = handlers.ListNull).
Proof.
  intros read state'. subst read state'. split; [apply readAPIIntoState_idem|].
  unfold destination_resource.readAPIIntoState,
    destination_resource.string_or_null.
  destruct (destination_resource.list_field "hosts" result) as [hosts ok].
  destruct ok; [destruct (ListValueFrom _) as [hostList d]|];
    cbn [fst snd destination_resource.WorkspaceID destination_resource.ID
         destination_resource.Password destination_resource.Protocol
         destination_resource.Hosts destination_resource.Username
         destination_resource.Database];
    split_all; try reflexivity; try discriminate;
    intros H; apply string_or_absent; exact H.
Qed.

Section DestinationPayload.
Import handlers.
Context (elem : Type)
        (ElementsAs : tfList elem -> list Diagnostic * option (list string))
        (ListValueFrom : list string -> tfList elem * list Diagnostic)
        (Sprint : list Diagnostic -> string).

Lemma buildPayload_Ok plan payload :
  destination_resource.buildPayload elem ElementsAs Sprint plan = Ok payload ->
  payload
  = destination_resource.with_string "database"
      (destination_resource.Database plan)
      (destination_resource.with_string "password"
         (destination_resource.Password plan)
         (destination_resource.with_string "username"
            (destination_resource.Username plan)
            (<["hosts" := destination_resource.strings_value
                            (snd (ElementsAs (destination_resource.Hosts plan)))]>
               (destination_resource.with_string "protocol"
                  (destination_resource.Protocol plan)
                  (<["id" := VString (ValueString (destination_resource.ID plan))]>
                     (<["workspaceId" :=
                          VString (ValueString
                                     (destination_resource.WorkspaceID plan))]>
                        (<["type" := VString "destination"]>
                           (<["name" :=
                                VString (ValueString
                                           (destination_resource.Name plan))]>
                              (<["destinationType" :=
                                   VString (ValueString
                                              (destination_resource.DestinationType
                                                 plan))]> ∅))))))))).
Proof.
  unfold destination_resource.buildPayload.
  destruct (ElementsAs (destination_resource.Hosts plan)) as [diags hosts].
  destruct (HasError diags); [discriminate|]. intros [= <-]. reflexivity.
Qed.

Lemma host_strings_strings l :
  destination_resource.host_strings (List.map VString l) = l.
Proof.
  unfold destination_resource.host_strings.
  induction l as [|s l IH]; [reflexivity|]. cbn. f_equal. exact IH.
Qed.

Lemma with_string_lookup key v payload :
  destination_resource.with_string key v payload !! key
  = match v with
    | StringValue s => Some (VString s)
    | StringNull | StringUnknown => payload !! key
    end.
Proof.
  unfold destination_resource.with_string.
  destruct v; cbn [destination_resource.is_known ValueString];
    try reflexivity.
  apply lookup_insert_eq.
Qed.

Lemma with_string_lookup_ne key key' v (payload : object) :
  key <> key' ->
  destination_resource.with_string key v payload !! key' = payload !! key'.
Proof.
  intros Hne. unfold destination_resource.with_string.
  destruct (destination_resource.is_known v); [|reflexivity].
  apply lookup_insert_ne. exact Hne.
Qed.

End DestinationPayload.

(** Lookup of a literal key in a payload built by [buildPayload]. *)
Ltac payload_lookup :=
  repeat first
    [ rewrite with_string_lookup_ne by discriminate
    | rewrite lookup_insert_ne by discriminate
    | rewrite with_string_lookup
    | rewrite lookup_insert_eq
    | rewrite lookup_empty ].

(** X19.  What [buildPayload] sends reads back as the plan.  The payload
    always carries the id, the workspace and the type [destination]; the
    password is in it exactly when the plan has a known one.  If the server
    answers with the payload it was sent, [readAPIIntoState] stores the name
    and the destination type of the plan, a protocol, username and database
    equal to the plan's whenever these are known or null, and the hosts that
    [ListValueFrom] builds from the plan's hosts, null when the plan has
    none; the password of the state stays. *)
Theorem destination_payload_reads_back
    (elem : Type)
    (ElementsAs : handlers.tfList elem -> list Diagnostic * option (list string))
    (ListValueFrom : list string -> handlers.tfList elem * list Diagnostic)
    (Sprint : list Diagnostic -> string)
    (plan state : destination_resource.destinationModel elem)
    (payload : object) :
  destination_resource.buildPayload elem ElementsAs Sprint plan = Ok payload ->
  let state' :=
    snd (destination_resource.readAPIIntoState elem ListValueFrom
           (Some payload) state) in
  (payload !! "id" = Some (VString (ValueString (destination_resource.ID plan))) /\
   payload !! "workspaceId"
   = Some (VString (ValueString (destination_resource.WorkspaceID plan))) /\
   payload !! "type" = Some (VString "destination") /\
   payload !! "password"
   = match destination_resource.Password plan with
     | StringValue s => Some (VString s)
     | StringNull | StringUnknown => None
     end) /\
  destination_resource.Name state'
  = StringValue (ValueString (destination_resource.Name plan)) /\
  destination_resource.DestinationType state'
  = StringValue (ValueString (destination_resource.DestinationType plan)) /\
  (destination_resource.Protocol plan <> StringUnknown ->
   destination_resource.Protocol state' = destination_resource.Protocol plan) /\
  (destination_resource.Username plan <> StringUnknown ->
   destination_resource.Username state' = destination_resource.Username plan) /\
  (destination_resource.Database plan <> StringUnknown ->
   destination_resource.Database state' = destination_resource.Database plan) /\
  destination_resource.Password state' = destination_resource.Password state /\
  destination_resource.Hosts state'
  = match snd (ElementsAs (destination_resource.Hosts plan)) with
    | Some l =>
        if HasError (snd (ListValueFrom l)) then handlers.ListNull
        else fst (ListValueFrom l)
    | None => handlers.ListNull
    end.
Proof.
  intros Hb state'. subst state'.
  apply buildPayload_Ok in Hb. subst payload.
  unfold destination_resource.readAPIIntoState,
    destination_resource.string_or_null, destination_resource.list_field,
    handlers.string_or, string_field.
  split_all.
  - payload_lookup. reflexivity.
  - payload_lookup. reflexivity.
  - payload_lookup. reflexivity.
  - payload_lookup. destruct (destination_resource.Password plan); reflexivity.
  - payload_lookup.
    destruct (snd (ElementsAs _)) as [l|]; cbn [destination_resource.strings_value];
      [destruct (ListValueFrom (destination_resource.host_strings _))|];
      cbn [snd destination_resource.Name]; payload_lookup; reflexivity.
  - payload_lookup.
    destruct (snd (ElementsAs _)) as [l|]; cbn [destination_resource.strings_value];
      [destruct (ListValueFrom (destination_resource.host_strings _))|];
      cbn [snd destination_resource.DestinationType]; payload_lookup; reflexivity.
  - intros Hk. payload_lookup.
    destruct (snd (ElementsAs _)) as [l|]; cbn [destination_resource.strings_value];
      [destruct (ListValueFrom (destination_resource.host_strings _))|];
      cbn [snd destination_resource.Protocol]; payload_lookup;
      destruct (destination_resource.Protocol plan); congruence.
  - intros Hk. payload_lookup.
    destruct (snd (ElementsAs _)) as [l|]; cbn [destination_resource.strings_value];
      [destruct (ListValueFrom (destination_resource.host_strings _))|];
      cbn [snd destination_resource.Username]; payload_lookup;
      destruct (destination_resource.Username plan); congruence.
  - intros Hk. payload_lookup.
    destruct (snd (ElementsAs _)) as [l|]; cbn [destination_resource.strings_value];
      [destruct (ListValueFrom (destination_resource.host_strings _))|];
      cbn [snd destination_resource.Database]; payload_lookup;
      destruct (destination_resource.Database plan); congruence.
  - payload_lookup.
    destruct (snd (ElementsAs _)) as [l|]; cbn [destination_resource.strings_value];
      [destruct (ListValueFrom (destination_resource.host_strings _))|];
      reflexivity.
  - payload_lookup.
    destruct (snd (ElementsAs _)) as [l|]; cbn [destination_resource.strings_value].
    + rewrite host_strings_strings.
      destruct (ListValueFrom l) as [hostList d]. reflexivity.
    + reflexivity.
Qed.

Lemma destination_payload_reads_back_example :
  let plan := DestinationExamples.clickhouse_plan in
  let state' :=
    snd (destination_resource.readAPIIntoState string
           DestinationExamples.list_from
           (Some DestinationExamples.clickhouse_payload) plan) in
  destination_resource.buildPayload string DestinationExamples.hosts_as
    HandlerExamples.sprint plan = Ok DestinationExamples.clickhouse_payload /\
  destination_resource.Protocol state' = StringValue "https" /\
  destination_resource.Database state' = StringNull /\
  destination_resource.Hosts state' = handlers.ListValue ["ch.example.com:8443"].
Proof.
  intros plan state'.
  assert (Hb : destination_resource.buildPayload string
                 DestinationExamples.hosts_as HandlerExamples.sprint plan
               = Ok DestinationExamples.clickhouse_payload)
    by (vm_compute; reflexivity).
  destruct (destination_payload_reads_back string DestinationExamples.hosts_as
              DestinationExamples.list_from HandlerExamples.sprint plan plan
              DestinationExamples.clickhouse_payload Hb)
    as (_ & _ & _ & Hp & _ & Hd & _ & Hh).
  split_all.
  - exact Hb.
  - exact (Hp ltac:(discriminate)).
  - exact (Hd ltac:(discriminate)).
  - exact Hh.
Defined.

(** * The provider *)

Section Provider.
Import provider.

Lemma HasError_AddWarning summary' detail' diags :
  HasError (AddWarning summary' detail' diags) = HasError diags.
Proof. unfold AddWarning. rewrite HasError_Append. reflexivity. Qed.

Lemma env_or_config_agree (g1 g2 : string -> string) config name v :
  (forall n, consulted config n = true -> g1 n = g2 n) ->
  (IsNull v = true -> consulted config name = true) ->
  env_or_config g1 name v = env_or_config g2 name v.
Proof.
  intros Hg Hv. unfold env_or_config.
  destruct (IsNull v); cbn [negb]; [|reflexivity].
  apply Hg, Hv. reflexivity.
Qed.

End Provider.

(** X20.  [Configure] hands out a client exactly when it ends without an
    error.  Starting from a response that holds no client: the response ends
    with a client if and only if its diagnostics hold no error, a failed
    configuration hands out nothing, and the client handed out is the same
    for resources and data sources, has a non-empty username and password,
    the user agent [terraform-provider-jitsu/] followed by the version, no
    session yet and no connection pool. *)
Theorem Configure_hands_out_a_client_with_credentials
    (Getenv : string -> string) (version : string)
    (req : provider.ConfigureRequest) (resp : provider.ConfigureResponse) :
  provider.ResourceData resp = None ->
  let resp' := provider.Configure Getenv version req resp in
  (HasError (provider.Diagnostics resp') = false <->
   exists c, provider.ResourceData resp' = Some c) /\
  (forall c,
     provider.ResourceData resp' = Some c ->
     provider.DataSourceData resp' = Some c /\
     username c <> EmptyString /\ password c <> EmptyString /\
     userAgent c = "terraform-provider-jitsu/" +:+ version /\
     authenticated c = false /\ db c = None).
Proof.
  intros Hnone resp'. subst resp'. unfold provider.Configure.
  destruct (provider.Config_Get req) as [diags config].
  set (resp0 := provider.with_diags (Append diags) resp).
  assert (Hr0 : provider.ResourceData resp0 = None) by exact Hnone.
  clearbody resp0.
  assert (Hfail : forall r : provider.ConfigureResponse,
            HasError (provider.Diagnostics r) = true ->
            provider.ResourceData r = None ->
            (HasError (provider.Diagnostics r) = false <->
             exists c, provider.ResourceData r = Some c) /\
            (forall c,
               provider.ResourceData r = Some c ->
               provider.DataSourceData r = Some c /\
               username c <> EmptyString /\ password c <> EmptyString /\
               userAgent c = "terraform-provider-jitsu/" +:+ version /\
               authenticated c = false /\ db c = None)).
  { intros r He Hr. rewrite He, Hr.
    split; [split; [discriminate|intros [c Hc]; discriminate]|].
    intros c Hc. discriminate. }
  destruct (HasError (provider.Diagnostics resp0)) eqn:Hd;
    [apply Hfail; assumption|].
  destruct (String.eqb (provider.env_or_config Getenv "JITSU_CONSOLE_URL" _)
              EmptyString);
    [apply Hfail; [apply HasError_AddError|exact Hr0]|].
  set (resp1 := if negb (HasPrefix _ "https://") then _ else _).
  assert (H1 : HasError (provider.Diagnostics resp1) = false
               /\ provider.ResourceData resp1 = None).
  { subst resp1. destruct (negb _);
      cbn [provider.Diagnostics provider.ResourceData provider.with_diags];
      rewrite ?HasError_AddWarning; auto. }
  destruct H1 as [Hd1 Hr1]. clearbody resp1.
  destruct (String.eqb (provider.env_or_config Getenv "JITSU_USERNAME" _)
              EmptyString) eqn:Hu;
    [apply Hfail; [apply HasError_AddError|exact Hr1]|].
  destruct (String.eqb (provider.env_or_config Getenv "JITSU_PASSWORD" _)
              EmptyString) eqn:Hp;
    [apply Hfail; [apply HasError_AddError|exact Hr1]|].
  cbn [orb provider.Diagnostics provider.ResourceData provider.DataSourceData].
  apply String.eqb_neq in Hu, Hp.
  split; [split; [eauto|intros _; exact Hd1]|].
  intros c [= <-]. unfold New. cbn. split_all; auto.
Qed.

Lemma Configure_hands_out_a_client_with_credentials_example :
  let getenv := fun name : string =>
    if String.eqb name "JITSU_PASSWORD" then "secret" else EmptyString in
  let config :=
    {| provider.ConsoleURL := StringValue "https://jitsu.example.com/";
       provider.Username := StringValue "admin";
       provider.Password := StringNull;
       provider.DatabaseURL := StringNull |} in
  let req := {| provider.Config_Get := ([], config) |} in
  let resp := {| provider.Diagnostics := []; provider.ResourceData := None;
                 provider.DataSourceData := None |} in
  provider.ResourceData (provider.Configure getenv "dev" req resp)
  = Some Examples.sample_client_no_db /\
  HasError (provider.Diagnostics (provider.Configure getenv "dev" req resp))
  = false.
Proof.
  intros getenv config req resp.
  destruct (Configure_hands_out_a_client_with_credentials getenv "dev" req resp
              eq_refl) as [[_ Hok] _].
  split; [reflexivity|].
  apply Hok. eexists. reflexivity.
Defined.

(** X21.  The environment is read only for what the configuration leaves
    null.  Two environments that agree on the variables of the null
    attributes, among [JITSU_CONSOLE_URL], [JITSU_USERNAME], [JITSU_PASSWORD]
    and [JITSU_DATABASE_URL], give the same response; an attribute that is
    set, even to the empty string, is never replaced by its variable. *)
Theorem Configure_reads_env_only_for_null_attributes
    (g1 g2 : string -> string) (version : string)
    (req : provider.ConfigureRequest) (resp : provider.ConfigureResponse) :
  (forall name,
     consulted (snd (provider.Config_Get req)) name = true ->
     g1 name = g2 name) ->
  provider.Configure g1 version req resp
  = provider.Configure g2 version req resp.
Proof.
  intros Hg. unfold provider.Configure.
  destruct (provider.Config_Get req) as [diags config]. cbn [snd] in Hg.
  rewrite (env_or_config_agree g1 g2 config "JITSU_CONSOLE_URL" _ Hg),
    (env_or_config_agree g1 g2 config "JITSU_USERNAME" _ Hg),
    (env_or_config_agree g1 g2 config "JITSU_PASSWORD" _ Hg),
    (env_or_config_agree g1 g2 config "JITSU_DATABASE_URL" _ Hg);
    [reflexivity|..];
    intros Hn; unfold consulted; rewrite Hn; cbn;
    rewrite ?orb_true_r; reflexivity.
Qed.

Lemma Configure_reads_env_only_for_null_attributes_example :
  let config :=
    {| provider.ConsoleURL := StringValue "https://jitsu.example.com/";
       provider.Username := StringValue "admin";
       provider.Password := StringValue EmptyString;
       provider.DatabaseURL := StringValue EmptyString |} in
  let req := {| provider.Config_Get := ([], config) |} in
  let resp := {| provider.Diagnostics := []; provider.ResourceData := None;
                 provider.DataSourceData := None |} in
  provider.Configure (fun _ => "secret") "dev" req resp
  = provider.Configure (fun _ => EmptyString) "dev" req resp /\
  provider.ResourceData (provider.Configure (fun _ => "secret") "dev" req resp)
  = None.
Proof.
  intros config req resp. split; [|reflexivity].
  apply Configure_reads_env_only_for_null_attributes.
  intros name. unfold consulted. cbn.
  rewrite !andb_false_r. discriminate.
Defined.

(** * The whole of Create *)

Section CreateBound.
Context (lib : Lib) (env : Env).

(** One call of [doRequest], as [Create] sees it. *)
Lemma doRequest_summary method url body w r w' :
  doRequest lib env method url body w = (r, w') ->
  exists evs,
    trace w' = trace w ++ evs /\
    (count is_send evs <= 2)%nat /\
    (count is_invalidation evs <= 1)%nat /\
    count is_purge_warning evs = 0%nat /\
    statements evs = [] /\
    Forall (fun rq => wire_request lib (self w) method url body = Some rq)
      (sent evs) /\
    same_config (self w) (self w').
Proof.
  intros Hd.
  destruct (doRequest_inv lib env _ _ _ _ _ _ Hd)
    as (evs & Htr & Hs & Hi & Hp & Hst & Hcfg & _).
  destruct (doRequest_sent_and_flag lib env _ _ _ _ _ _ Hd)
    as (evs' & Htr' & Hall & _).
  assert (evs' = evs) by (rewrite Htr in Htr'; eapply app_inv_head; eauto).
  subst evs'. exists evs. split_all; assumption.
Qed.

Ltac purge_done :=
  intros [= <- <-]; cbn [trace self]; eexists;
  (split; [rewrite <- ?app_assoc; first [reflexivity | symmetry; apply app_nil_r]|]);
  cbn; split_all; try (lia || reflexivity); repeat split.

(** One purge: no request, no invalidation, the configuration kept. *)
Lemma hardDeleteSoftDeleted_summary id table w r w' :
  hardDeleteSoftDeleted lib env id table w = (r, w') ->
  exists evs,
    trace w' = trace w ++ evs /\
    sent evs = [] /\
    count is_invalidation evs = 0%nat /\
    (count is_purge_warning evs <= 1)%nat /\
    (length (statements evs) <= 2)%nat /\
    same_config (self w) (self w').
Proof.
  unfold hardDeleteSoftDeleted, getDB. run.
  destruct (String.eqb (databaseURL (self w)) EmptyString); [purge_done|].
  destruct (db (self w)) as [[d|e]|]; run.
  - destruct (String.eqb table "ConfigurationObject"); run;
      repeat (destruct (sql_ExecContext env _ _ [id]); run); purge_done.
  - purge_done.
  - destruct (sql_Open env (trace w) (databaseURL (self w))); run;
      [purge_done|].
    destruct (String.eqb table "ConfigurationObject"); run;
      repeat (destruct (sql_ExecContext env _ _ [id]); run); purge_done.
Qed.

(** The events of one call of [Create]. *)
Lemma Create_summary workspaceID resourceType payload w r w' :
  Create lib env workspaceID resourceType payload w = (r, w') ->
  exists evs,
    trace w' = trace w ++ evs /\
    (count is_send evs <= 4)%nat /\
    (count is_invalidation evs <= 2)%nat /\
    (count is_purge_warning evs <= 1)%nat /\
    (length (statements evs) <= 2)%nat /\
    Forall (fun rq =>
              wire_request lib (self w) "POST"
                (configURL lib (self w) workspaceID resourceType) (Some payload)
              = Some rq) (sent evs) /\
    same_config (self w) (self w').
Proof.
  unfold Create. run.
  set (endpoint := configURL lib (self w) workspaceID resourceType).
  destruct (doRequest lib env "POST" endpoint (Some payload) w)
    as [[[body status] err] w1] eqn:H1.
  destruct (doRequest_summary _ _ _ _ _ _ H1)
    as (evs1 & Htr1 & Hs1 & Hi1 & Hp1 & Hst1 & Hall1 & Hcfg1).
  assert (Hstop : exists evs,
            trace w1 = trace w ++ evs /\
            (count is_send evs <= 4)%nat /\
            (count is_invalidation evs <= 2)%nat /\
            (count is_purge_warning evs <= 1)%nat /\
            (length (statements evs) <= 2)%nat /\
            Forall (fun rq =>
                      wire_request lib (self w) "POST" endpoint (Some payload)
                      = Some rq) (sent evs) /\
            same_config (self w) (self w1)).
  { exists evs1. rewrite Hst1, Hp1. cbn. split_all; auto; lia. }
  run. destruct err as [e|]; run; [intros [= <- <-]; exact Hstop|].
  destruct (Z.eqb status 500 && Contains body "Unique constraint failed"); run.
  2:{ destruct (Z.ltb status 200 || Z.leb 300 status); run;
        intros [= <- <-]; exact Hstop. }
  destruct (string_field "id" (Some payload)) as [id ok].
  destruct (negb ok || String.eqb id EmptyString); run;
    [intros [= <- <-]; exact Hstop|].
  destruct (hardDeleteSoftDeleted lib env id _ w1) as [errP w2] eqn:H2.
  destruct (hardDeleteSoftDeleted_summary _ _ _ _ _ H2)
    as (evsP & HtrP & HsentP & HiP & HpP & HstP & HcfgP).
  assert (HsP : count is_send evsP = 0%nat)
    by (rewrite count_is_send, HsentP; reflexivity).
  destruct errP as [e|]; run.
  { intros [= <- <-]. exists (evs1 ++ evsP).
    rewrite HtrP, Htr1, <- app_assoc, !count_app, statements_app, sent_app,
      length_app, Hst1, Hp1, HsP, HiP, HsentP, app_nil_r.
    cbn [length]. split_all; auto; try lia.
    eapply same_config_trans; eassumption. }
  destruct (doRequest lib env "POST" endpoint (Some payload) w2)
    as [[[body3 status3] err3] w3] eqn:H3.
  destruct (doRequest_summary _ _ _ _ _ _ H3)
    as (evs3 & Htr3 & Hs3 & Hi3 & Hp3 & Hst3 & Hall3 & Hcfg3).
  assert (Hcfg2 : same_config (self w) (self w2))
    by (eapply same_config_trans; eassumption).
  assert (Hend : exists evs,
            trace w3 = trace w ++ evs /\
            (count is_send evs <= 4)%nat /\
            (count is_invalidation evs <= 2)%nat /\
            (count is_purge_warning evs <= 1)%nat /\
            (length (statements evs) <= 2)%nat /\
            Forall (fun rq =>
                      wire_request lib (self w) "POST" endpoint (Some payload)
                      = Some rq) (sent evs) /\
            same_config (self w) (self w3)).
  { exists (evs1 ++ evsP ++ evs3).
    rewrite Htr3, HtrP, Htr1, <- !app_assoc, !count_app, !statements_app,
      !sent_app, !length_app, Hst1, Hst3, Hp1, Hp3, HsP, HiP, HsentP.
    cbn [length app]. split_all; auto; try lia.
    - apply Forall_app. split; [exact Hall1|].
      eapply Forall_impl; [exact Hall3|]. intros rq Hrq. cbn beta in Hrq.
      rewrite <- Hrq. symmetry. apply wire_request_config. exact Hcfg2.
    - eapply same_config_trans; eassumption. }
  run. destruct err3 as [e|]; run; [intros [= <- <-]; exact Hend|].
  destruct (Z.ltb status3 200 || Z.leb 300 status3); run;
    intros [= <- <-]; exact Hend.
Qed.

End CreateBound.

(** X22.  [Create] is bounded whatever the remote side answers: it puts at
    most four requests on the wire, every one the same POST of the same
    payload to the same URL, invalidates the session at most twice, purges at
    most once with at most two statements, and leaves the configuration of
    the client as it was.  A conflict is repaired once and never in a
    loop. *)
Theorem Create_is_bounded
    (lib : Lib) (env : Env) (workspaceID resourceType : string)
    (payload : object) (w : World) :
  let w' := snd (Create lib env workspaceID resourceType payload w) in
  let evs := events_since w w' in
  trace w' = trace w ++ evs /\
  (count is_send evs <= 4)%nat /\
  (count is_invalidation evs <= 2)%nat /\
  (count is_purge_warning evs <= 1)%nat /\
  (length (statements evs) <= 2)%nat /\
  Forall (fun rq =>
            wire_request lib (self w) "POST"
              (configURL lib (self w) workspaceID resourceType) (Some payload)
            = Some rq) (sent evs) /\
  same_config (self w) (self w').
Proof.
  intros w' evs. subst w' evs.
  destruct (Create lib env workspaceID resourceType payload w) as [r w'] eqn:HC.
  cbn [snd].
  destruct (Create_summary lib env _ _ _ _ _ _ HC) as (evs & Htr & H).
  rewrite (events_since_app _ _ _ Htr). split; [exact Htr|exact H].
Qed.
